(** * Auratyme scheduler core: a shallow embedding and its checked properties

    The development follows the Python sources module by module:
    - [TimeUtils]        : [scheduler-core/src/utils/time_utils.py]
    - [ConstraintSolver] : [scheduler-core/src/core/constraint_solver.py]
    - [Sleep]            : [scheduler-core/src/core/sleep.py]
    - [ChronotypeM]      : [scheduler-core/src/core/chronotype.py]
    - [Orchestrator]     : [src/core/scheduler.py]

    Conventions.  Python [int] is [Z].  Python [float] is idealised as an
    exact rational [Q]; every concrete value used in an example below is
    also traced with IEEE doubles in the accompanying comments where the
    difference could matter.  Python [str] is a list of characters
    ([pystr]); only ASCII text is modelled.  A value that may be [None] is
    an [option].  Code that may raise is written in the [outcome] monad. *)

From Stdlib Require Import ZArith QArith Qround Qabs List Ascii String Bool Lia Lqa.
Import ListNotations.

Local Open Scope Z_scope.

(* ------------------------------------------------------------------ *)
(** * Python prelude *)
(* ------------------------------------------------------------------ *)

Module Py.

Definition pystr := list ascii.

Definition str (s : string) : pystr := list_ascii_of_string s.

(** Exceptions are identified by class; the message is kept for warnings. *)
Inductive exn_class : Type :=
| ValueError | TypeError | OverflowError | OtherError.

Record exn : Type := mk_exn { exn_cls : exn_class; exn_msg : pystr }.

Inductive outcome (A : Type) : Type :=
| Returned (a : A)
| Raised (e : exn).
Arguments Returned {A} a.
Arguments Raised {A} e.

Definition bind {A B} (c : outcome A) (k : A -> outcome B) : outcome B :=
  match c with
  | Returned a => k a
  | Raised e => Raised e
  end.

(** [try: c  except Exception as e: h e] *)
Definition try_except {A} (c : outcome A) (h : exn -> outcome A) : outcome A :=
  match c with
  | Returned a => Returned a
  | Raised e => h e
  end.

Definition raise {A} (c : exn_class) (msg : string) : outcome A :=
  Raised (mk_exn c (str msg)).

(** [int(x)] on a float truncates toward zero. *)
Definition int_of_float (q : Q) : Z := Z.quot (Qnum q) (Zpos (Qden q)).

(** [round(x)] on a float rounds to nearest, ties to the even integer. *)
Definition round (q : Q) : Z :=
  let f := Qfloor q in
  match Qcompare (q - inject_Z f) (1 # 2) with
  | Lt => f
  | Gt => f + 1
  | Eq => if Z.even f then f else f + 1
  end.

Definition Qmax (a b : Q) : Q := if Qle_bool b a then a else b.
Definition Qmin (a b : Q) : Q := if Qle_bool a b then a else b.

(** A Python number: [int] or (finite) [float]. *)
Inductive num : Type :=
| PyInt (z : Z)
| PyFloat (q : Q).

Definition float_of_num (n : num) : Q :=
  match n with
  | PyInt z => inject_Z z
  | PyFloat q => q
  end.

(** ** Characters and strings *)

Definition code (c : ascii) : Z := Z.of_nat (nat_of_ascii c).

Definition is_digit (c : ascii) : bool := (48 <=? code c) && (code c <=? 57).

(** [str.isspace] and the regex class [\s] restricted to ASCII. *)
Definition is_space (c : ascii) : bool :=
  ((9 <=? code c) && (code c <=? 13)) || ((28 <=? code c) && (code c <=? 32)).

Definition digit_val (c : ascii) : Z := code c - 48.

Definition digit_char (d : Z) : ascii := ascii_of_nat (Z.to_nat (48 + d)).

Definition lower_char (c : ascii) : ascii :=
  if (65 <=? code c) && (code c <=? 90)
  then ascii_of_nat (Z.to_nat (code c + 32)) else c.

Definition lower (s : pystr) : pystr := map lower_char s.

Fixpoint lstrip (s : pystr) : pystr :=
  match s with
  | c :: r => if is_space c then lstrip r else s
  | [] => []
  end.

Definition strip (s : pystr) : pystr := rev (lstrip (rev (lstrip s))).

Fixpoint pystr_eqb (a b : pystr) : bool :=
  match a, b with
  | [], [] => true
  | x :: a', y :: b' => Ascii.eqb x y && pystr_eqb a' b'
  | _, _ => false
  end.

(** [sep.join(parts)] *)
Fixpoint join (sep : pystr) (parts : list pystr) : pystr :=
  match parts with
  | [] => []
  | [p] => p
  | p :: ps => p ++ sep ++ join sep ps
  end.

(** [s.replace(" ", "")] *)
Definition remove_spaces (s : pystr) : pystr :=
  filter (fun c => negb (Ascii.eqb c " "%char)) s.

(** [str(n)] for a non-negative integer: decimal digits, most significant
    first, no leading zero.  The fuel bounds the number of digits. *)
Fixpoint digits_fuel (fuel : nat) (n : Z) (acc : pystr) : pystr :=
  let acc' := digit_char (n mod 10) :: acc in
  match fuel with
  | O => acc'
  | S f => if n <? 10 then acc' else digits_fuel f (n / 10) acc'
  end.

Definition str_of_nonneg (n : Z) : pystr :=
  digits_fuel (Z.to_nat (Z.log2 n)) n [].

Definition str_of_int (n : Z) : pystr :=
  if n <? 0 then "-"%char :: str_of_nonneg (- n) else str_of_nonneg n.

(** Value of a run of decimal digits, as [int(s)] / [float(s)] read it. *)
Definition digits_val (s : pystr) : Z :=
  fold_left (fun a c => 10 * a + digit_val c) s 0.

(** A non-empty run of decimal digits. *)
Definition digits (ds : pystr) : Prop :=
  Forall (fun c => is_digit c = true) ds /\ ds <> [].

(** Longest prefix whose characters satisfy [p], and the rest. *)
Fixpoint span (p : ascii -> bool) (s : pystr) : pystr * pystr :=
  match s with
  | c :: r =>
      if p c then let (a, b) := span p r in (c :: a, b) else ([], s)
  | [] => ([], [])
  end.

(** *** The grammar accepted by [float(str)]

    [sign? (inf | infinity | nan | number exponent?)] between optional
    blanks, where [number] is [digitpart], [digitpart "."],
    [digitpart "." digitpart] or ["." digitpart], and a [digitpart] is a
    run of digits with single underscores allowed between digits. *)

Fixpoint eat_digitpart_tail (s : pystr) : pystr :=
  match s with
  | c :: r =>
      if is_digit c then eat_digitpart_tail r
      else if Ascii.eqb c "_"%char then
        match r with
        | d :: r' => if is_digit d then eat_digitpart_tail r' else s
        | [] => s
        end
      else s
  | [] => []
  end.

Definition eat_digitpart (s : pystr) : option pystr :=
  match s with
  | c :: r => if is_digit c then Some (eat_digitpart_tail r) else None
  | [] => None
  end.

Definition eat_sign (s : pystr) : pystr :=
  match s with
  | c :: r => if Ascii.eqb c "+"%char || Ascii.eqb c "-"%char then r else s
  | [] => []
  end.

Definition eat_number (s : pystr) : option pystr :=
  match eat_digitpart s with
  | Some r =>
      match r with
      | c :: r' =>
          if Ascii.eqb c "."%char then
            match eat_digitpart r' with
            | Some r'' => Some r''
            | None => Some r'
            end
          else Some r
      | [] => Some r
      end
  | None =>
      match s with
      | c :: r' => if Ascii.eqb c "."%char then eat_digitpart r' else None
      | [] => None
      end
  end.

Definition eat_exponent (s : pystr) : option pystr :=
  match s with
  | c :: r =>
      if Ascii.eqb c "e"%char || Ascii.eqb c "E"%char
      then eat_digitpart (eat_sign r) else Some s
  | [] => Some s
  end.

(** Does [float(s)] return (rather than raise [ValueError])? *)
Definition float_accepts (s : pystr) : bool :=
  let body := eat_sign (strip s) in
  let word := lower body in
  if pystr_eqb word (str "inf") || pystr_eqb word (str "infinity")
     || pystr_eqb word (str "nan")
  then true
  else match eat_number body with
       | Some r => match eat_exponent r with
                   | Some [] => true
                   | _ => false
                   end
       | None => false
       end.

End Py.

(* ------------------------------------------------------------------ *)
(** * time_utils.py *)
(* ------------------------------------------------------------------ *)

Module TimeUtils.
Import Py.

(** [datetime.time]: the constructor accepts 0..23, 0..59, 0..59, 0..999999. *)
Record time : Type := mk_time {
  hour : Z; minute : Z; second : Z; microsecond : Z
}.

Definition time_hm (h m : Z) : time := mk_time h m 0 0.

Definition time_valid (t : time) : Prop :=
  0 <= hour t <= 23 /\ 0 <= minute t <= 59 /\
  0 <= second t <= 59 /\ 0 <= microsecond t <= 999999.

Definition time_eqb (a b : time) : bool :=
  (hour a =? hour b) && (minute a =? minute b) &&
  (second a =? second b) && (microsecond a =? microsecond b).

(** [datetime.timedelta], normalised to a whole number of microseconds. *)
Record timedelta : Type := mk_timedelta { total_microseconds : Z }.

Definition timedelta_minutes (m : Z) : timedelta := mk_timedelta (m * 60000000).

(** The largest [m] for which [timedelta(minutes=m)] does not raise
    [OverflowError]: 999999999 days, 23 hours and 59 minutes. *)
Definition timedelta_max_minutes : Z := 1439999999999.
Definition timedelta_hours_int (h : Z) : timedelta := mk_timedelta (h * 3600000000).

(** [timedelta(hours=h)] for a float [h]: rounded to the microsecond. *)
Definition timedelta_hours (h : Q) : timedelta :=
  mk_timedelta (round (h * inject_Z 3600000000)%Q).

(** [int(delta.total_seconds())] *)
Definition int_total_seconds (d : timedelta) : Z :=
  Z.quot (total_microseconds d) 1000000.

(** [delta.total_seconds()] *)
Definition total_seconds (d : timedelta) : Q :=
  (inject_Z (total_microseconds d) / inject_Z 1000000)%Q.

(** [format_timedelta(delta, show_seconds)] *)
Definition format_timedelta (delta : option timedelta) (show_seconds : bool)
  : pystr :=
  match delta with
  | None => str "N/A"
  | Some d =>
      let total_seconds0 := int_total_seconds d in
      let sign := if total_seconds0 <? 0 then str "-" else [] in
      let total_seconds := Z.abs total_seconds0 in
      let hours := total_seconds / 3600 in
      let remainder := total_seconds mod 3600 in
      let minutes := remainder / 60 in
      let seconds := remainder mod 60 in
      let parts :=
        (if 0 <? hours then [str_of_int hours ++ str "h"] else []) ++
        (if 0 <? minutes then [str_of_int minutes ++ str "m"] else []) in
      let parts :=
        match parts with
        | [] => if show_seconds && (0 <? seconds)
                then [str_of_int seconds ++ str "s"] else []
        | _ => parts
        end in
      match parts with
      | [] => if total_seconds =? 0 then str "0m"
              else if 0 <? total_seconds then sign ++ str "<1m" else str "0m"
      | _ => sign ++ join (str " ") parts
      end
  end.

(** The two parts of the text printed for [d] whole minutes. *)
Definition hours_part (d : Z) : list pystr :=
  if 0 <? d / 60 then [str_of_int (d / 60) ++ str "h"] else [].

Definition minutes_part (d : Z) : list pystr :=
  if 0 <? d mod 60 then [str_of_int (d mod 60) ++ str "m"] else [].

(** One match of the pattern [(\d+(?:\.\d+)?)\s*(h|m|s)?] anchored at the
    head of [s]: the two groups and the unread rest.  Every quantifier is
    greedy and everything after [\d+] is optional, so no backtracking
    changes the outcome. *)
Definition is_unit (c : ascii) : bool :=
  Ascii.eqb c "h"%char || Ascii.eqb c "m"%char || Ascii.eqb c "s"%char.

Definition match_at (s : pystr) : option ((pystr * pystr) * pystr) :=
  let (ds, r1) := span is_digit s in
  match ds with
  | [] => None
  | _ =>
      let (value_str, r2) :=
        match r1 with
        | c :: r =>
            if Ascii.eqb c "."%char then
              let (fs, r') := span is_digit r in
              match fs with
              | [] => (ds, r1)
              | _ => (ds ++ c :: fs, r')
              end
            else (ds, r1)
        | [] => (ds, r1)
        end in
      let (_, r3) := span is_space r2 in
      match r3 with
      | c :: r4 =>
          if is_unit c then Some ((value_str, [c]), r4)
          else Some ((value_str, []), r3)
      | [] => Some ((value_str, []), r3)
      end
  end.

(** [pattern.findall(s)]: leftmost non-overlapping matches.  A failed
    attempt moves one character on; [fuel] bounds the number of steps. *)
Fixpoint findall_fuel (fuel : nat) (s : pystr) : list (pystr * pystr) :=
  match fuel with
  | O => []
  | S f =>
      match match_at s with
      | Some (m, rest) => m :: findall_fuel f rest
      | None =>
          match s with
          | [] => []
          | _ :: t => findall_fuel f t
          end
      end
  end.

Definition findall (s : pystr) : list (pystr * pystr) :=
  findall_fuel (S (List.length s)) s.

(** [float(value_str)] for a group-1 string [digits] or [digits.digits]. *)
Definition float_of_value_str (v : pystr) : Q :=
  let (ip, r) := span is_digit v in
  match r with
  | _ :: fp =>
      (inject_Z (digits_val ip) +
       inject_Z (digits_val fp) / inject_Z (10 ^ Z.of_nat (List.length fp)))%Q
  | [] => inject_Z (digits_val ip)
  end.

(** The loop over the matches: accumulated minutes and the concatenation
    [processed_string_parts]. *)
Fixpoint sum_matches (ms : list (pystr * pystr)) (total : Q) (parts : pystr)
  : Q * pystr :=
  match ms with
  | [] => (total, parts)
  | (value_str, unit) :: rest =>
      let value := float_of_value_str value_str in
      let parts' := parts ++ value_str ++ unit in
      let total' :=
        if pystr_eqb unit (str "h") then (total + value * 60)%Q
        else if pystr_eqb unit (str "m") then (total + value)%Q
        else if pystr_eqb unit (str "s") then total
        else (total + value)%Q in
      sum_matches rest total' parts'
  end.

(** [parse_duration_string(duration_str)].

    When the pattern finds nothing the string holds no digit, so
    [float(...)] either raises [ValueError] or yields [inf]/[nan], on which
    [round] raises inside the last [try]: both paths return [None]. *)
Definition parse_duration_string (duration_str : option pystr)
  : option timedelta :=
  match duration_str with
  | None => None
  | Some s =>
      match strip s with
      | [] => None
      | _ =>
          let duration_str_processed := strip (lower s) in
          match findall duration_str_processed with
          | [] => None
          | matches =>
              let (total_minutes, processed_string_parts) :=
                sum_matches matches 0%Q [] in
              let bad :=
                negb (Nat.eqb (List.length (remove_spaces processed_string_parts))
                              (List.length (remove_spaces duration_str_processed)))
                && negb (float_accepts duration_str_processed) in
              if bad then None
              else
                let total_minutes_rounded := round total_minutes in
                if total_minutes_rounded <? 0 then None
                else if timedelta_max_minutes <? total_minutes_rounded
                then None   (* [OverflowError], caught *)
                else Some (timedelta_minutes total_minutes_rounded)
          end
      end
  end.

(** [time_to_total_minutes(time_obj)] *)
Definition time_to_total_minutes (time_obj : option time) : option Z :=
  match time_obj with
  | None => None
  | Some t => Some (hour t * 60 + minute t)
  end.

(** [total_minutes_to_time(total_minutes)] *)
Definition total_minutes_to_time (total_minutes : option num) : option time :=
  match total_minutes with
  | None => None
  | Some n =>
      let total_minutes_int := round (float_of_num n) in
      let total_minutes_clamped := Z.max 0 (Z.min 1440 total_minutes_int) in
      if total_minutes_clamped =? 1440 then Some (time_hm 0 0)
      else Some (time_hm (total_minutes_clamped / 60)
                         (total_minutes_clamped mod 60))
  end.

(** Shorthands used by the callers, which always pass an [int]. *)
Definition minutes_of (t : time) : Z := hour t * 60 + minute t.

Definition time_of_minutes (m : Z) : time :=
  match total_minutes_to_time (Some (PyInt m)) with
  | Some t => t
  | None => time_hm 0 0
  end.

(** [t.strftime("%H:%M")] *)
Definition two_digits (n : Z) : pystr :=
  [digit_char (n / 10); digit_char (n mod 10)].

Definition strftime_HM (t : time) : pystr :=
  two_digits (hour t) ++ str ":" ++ two_digits (minute t).

(** [time.fromisoformat(s)] for the forms [HH], [HH:MM] and [HH:MM:SS];
    any other text raises [ValueError]. *)
Definition two_digit_field (a b : ascii) (hi : Z) : option Z :=
  if is_digit a && is_digit b then
    let v := 10 * digit_val a + digit_val b in
    if v <=? hi then Some v else None
  else None.

Definition fromisoformat (s : pystr) : outcome time :=
  let bad := raise ValueError "Invalid isoformat string" in
  match s with
  | [h1; h2] =>
      match two_digit_field h1 h2 23 with
      | Some h => Returned (mk_time h 0 0 0)
      | None => bad
      end
  | [h1; h2; c1; m1; m2] =>
      match two_digit_field h1 h2 23, two_digit_field m1 m2 59 with
      | Some h, Some m =>
          if Ascii.eqb c1 ":"%char then Returned (mk_time h m 0 0) else bad
      | _, _ => bad
      end
  | [h1; h2; c1; m1; m2; c2; s1; s2] =>
      match two_digit_field h1 h2 23, two_digit_field m1 m2 59,
            two_digit_field s1 s2 59 with
      | Some h, Some m, Some sec =>
          if Ascii.eqb c1 ":"%char && Ascii.eqb c2 ":"%char
          then Returned (mk_time h m sec 0) else bad
      | _, _, _ => bad
      end
  | _ => bad
  end.

End TimeUtils.

(* ------------------------------------------------------------------ *)
(** * Containers shared by the modules *)
(* ------------------------------------------------------------------ *)

Module Dict.

(** A Python [dict]: insertion-ordered, one binding per key.  Assigning
    to a key that is present keeps the key's position. *)
Section WithKey.
Context {K V : Type} (eqb : K -> K -> bool).

Definition t := list (K * V).

Fixpoint get (d : t) (k : K) : option V :=
  match d with
  | [] => None
  | (k', v) :: r => if eqb k k' then Some v else get r k
  end.

Definition get_default (d : t) (k : K) (dflt : V) : V :=
  match get d k with
  | Some v => v
  | None => dflt
  end.

Definition mem (d : t) (k : K) : bool :=
  match get d k with
  | Some _ => true
  | None => false
  end.

Fixpoint set (d : t) (k : K) (v : V) : t :=
  match d with
  | [] => [(k, v)]
  | (k', v') :: r => if eqb k k' then (k', v) :: r else (k', v') :: set r k v
  end.

Definition keys (d : t) : list K := map fst d.
Definition values (d : t) : list V := map snd d.

End WithKey.
End Dict.

Module Sorting.

(** [list.sort(key=...)] is stable: elements with equal keys keep their
    relative order. *)
Section StableSort.
Context {A : Type} (leb : A -> A -> bool).

Fixpoint insert (x : A) (l : list A) : list A :=
  match l with
  | [] => [x]
  | y :: r => if leb x y then x :: l else y :: insert x r
  end.

Fixpoint sort (l : list A) : list A :=
  match l with
  | [] => []
  | x :: r => insert x (sort r)
  end.

End StableSort.
End Sorting.

(* ------------------------------------------------------------------ *)
(** * constraint_solver.py *)
(* ------------------------------------------------------------------ *)

Module ConstraintSolver.
Import Py TimeUtils.

Definition UUID := Z.
Definition date := Z.   (* proleptic Gregorian ordinal *)

Record FixedEventInterval : Type := mk_FixedEventInterval {
  fe_id : pystr; fe_start_minutes : Z; fe_end_minutes : Z
}.

(** The dataclass constructor followed by [__post_init__]. *)
Definition FixedEventInterval_new (id : pystr) (start_minutes end_minutes : Z)
  : outcome FixedEventInterval :=
  if negb ((0 <=? start_minutes) && (start_minutes <=? 1439) &&
           (0 <=? end_minutes) && (end_minutes <=? 1440))
  then raise ValueError "FixedEventInterval minutes must be within a day (0-1440)."
  else if end_minutes <=? start_minutes
  then raise ValueError "FixedEventInterval end_minutes must be after start_minutes."
  else if end_minutes - start_minutes <=? 0
  then raise ValueError "FixedEventInterval must have a positive duration."
  else Returned (mk_FixedEventInterval id start_minutes end_minutes).

Record SolverTask : Type := mk_SolverTask {
  st_id : UUID;
  st_duration_minutes : Z;
  st_priority : Z;
  st_energy_level : Z;
  st_earliest_start_minutes : option Z;
  st_latest_end_minutes : option Z;
  st_dependencies : list UUID
}.

Definition opt_test (o : option Z) (p : Z -> bool) : bool :=
  match o with
  | Some x => p x
  | None => false
  end.

Definition SolverTask_new (id : UUID) (duration_minutes priority energy_level : Z)
    (earliest_start_minutes latest_end_minutes : option Z)
    (dependencies : list UUID) : outcome SolverTask :=
  if duration_minutes <=? 0
  then raise ValueError "SolverTask duration must be positive"
  else if opt_test earliest_start_minutes (fun es => es <? 0)
  then raise ValueError "SolverTask earliest_start_minutes cannot be negative"
  else if opt_test latest_end_minutes (fun le => 1440 <? le)
  then raise ValueError "SolverTask latest_end_minutes cannot exceed 1440"
  else if match earliest_start_minutes, latest_end_minutes with
          | Some es, Some le => le <? es + duration_minutes
          | _, _ => false
          end
  then raise ValueError "SolverTask constraints impossible"
  else Returned (mk_SolverTask id duration_minutes priority energy_level
                   earliest_start_minutes latest_end_minutes dependencies).

Definition EnergyPattern := @Dict.t Z Q.

Record SolverInput : Type := mk_SolverInput {
  si_target_date : date;
  si_tasks : list SolverTask;
  si_fixed_events : list FixedEventInterval;
  si_day_start_minutes : Z;
  si_day_end_minutes : Z;
  si_user_energy_pattern : EnergyPattern
}.

Definition SolverInput_new (target_date : date) (tasks : list SolverTask)
    (fixed_events : list FixedEventInterval)
    (day_start_minutes day_end_minutes : Z)
    (user_energy_pattern : EnergyPattern) : outcome SolverInput :=
  if negb ((0 <=? day_start_minutes) && (day_start_minutes <? day_end_minutes)
           && (day_end_minutes <=? 1440))
  then raise ValueError "Invalid day start/end minutes."
  else if negb (forallb (fun h => (0 <=? h) && (h <=? 23))
                        (Dict.keys user_energy_pattern))
  then raise ValueError "Invalid hour key in user_energy_pattern."
  else Returned (mk_SolverInput target_date tasks fixed_events
                   day_start_minutes day_end_minutes user_energy_pattern).

Record ScheduledTaskInfo : Type := mk_ScheduledTaskInfo {
  sti_task_id : UUID;
  sti_start_time : time;
  sti_end_time : time;
  sti_task_date : date
}.

(** ** The CP-SAT model built by [solve]

    A variable is named by its role and by the position, in
    [solver_input.tasks], of the task it was created for. *)
Inductive var : Type :=
| VStart (n : nat)
| VEnd (n : nat)
| VStartHour (n : nat)
| VEnergyScore (n : nat).

Inductive interval : Type :=
| TaskInterval (n : nat)                 (* start_n, duration, end_n *)
| FixedInterval (start size : Z).

Inductive constraint : Type :=
| NewIntVar (v : var) (lb ub : Z)
| NewIntervalVar (n : nat) (size : Z)    (* start_n + size = end_n *)
| AddNoOverlap (ivs : list interval)
| AddGe (a b : var)                      (* a >= b *)
| AddDivisionEquality (target numerator : var) (denominator : Z)
| AddElement (index : var) (table : list Z) (target : var).

Inductive term : Type :=
| Constant (c : Z)
| Scaled (v : var) (coef : Z).

Record CpModel : Type := mk_CpModel {
  cp_constraints : list constraint;
  cp_objective : list term          (* maximised *)
}.

Definition assignment := var -> Z.



Inductive CpStatus : Type :=
| OPTIMAL | FEASIBLE | INFEASIBLE | MODEL_INVALID | UNKNOWN.

(** [solver.Solve(model)] with [max_time_in_seconds] set: status and the
    values of the variables.  The engine is the OR-Tools library. *)
Definition Engine := CpModel -> Q -> CpStatus * assignment.

Record SolverConfig : Type := mk_SolverConfig {
  solver_time_limit_seconds : Q;
  w_priority : Z;
  w_energy_match : Z;
  w_start_time_penalty : Z
}.

Definition default_solver_config : SolverConfig :=
  mk_SolverConfig 30 10 5 1.

(** Records written with [logger.error] / [logger.warning]. *)
Inductive log_record : Type :=
| LogNoTasks
| LogTaskImpossible (id : UUID)
| LogNoValidVariables
| LogDependencyNotFound (task dep : UUID)
| LogNoSolution (s : CpStatus).

(** *** Step 1: interval variables *)

Definition or_default (o : option Z) (dflt : Z) : Z :=
  match o with
  | Some 0 => dflt        (* [x or d]: 0 is falsy *)
  | Some x => x
  | None => dflt
  end.

Record var_state : Type := mk_var_state {
  vs_constraints : list constraint;
  vs_task_vars : @Dict.t UUID nat;   (* task_intervals / task_starts / task_ends *)
  vs_log : list log_record
}.

Definition create_task_vars (day_start horizon : Z) (n : nat) (task : SolverTask)
    (s : var_state) : var_state :=
  let earliest_possible_start :=
    Z.max day_start (or_default (st_earliest_start_minutes task) 0) in
  let latest_possible_end :=
    Z.min horizon (or_default (st_latest_end_minutes task) horizon) in
  let latest_possible_start := latest_possible_end - st_duration_minutes task in
  let earliest_possible_end := earliest_possible_start + st_duration_minutes task in
  if latest_possible_start <? earliest_possible_start
  then mk_var_state (vs_constraints s) (vs_task_vars s)
                    (vs_log s ++ [LogTaskImpossible (st_id task)])
  else mk_var_state
         (vs_constraints s ++
            [NewIntVar (VStart n) earliest_possible_start latest_possible_start;
             NewIntVar (VEnd n) earliest_possible_end latest_possible_end;
             NewIntervalVar n (st_duration_minutes task)])
         (Dict.set Z.eqb (vs_task_vars s) (st_id task) n)
         (vs_log s).

(** The window test of [create_task_vars], on its own. *)
Definition window_too_small (day_start horizon : Z) (task : SolverTask) : bool :=
  Z.min horizon (or_default (st_latest_end_minutes task) horizon)
    - st_duration_minutes task
  <? Z.max day_start (or_default (st_earliest_start_minutes task) 0).

Fixpoint create_all_vars (day_start horizon : Z) (n : nat)
    (tasks : list SolverTask) (s : var_state) : var_state :=
  match tasks with
  | [] => s
  | t :: r =>
      create_all_vars day_start horizon (S n) r
        (create_task_vars day_start horizon n t s)
  end.

(** *** Step 2: constraints *)

Definition fixed_interval_of (day_start horizon : Z) (event : FixedEventInterval)
  : list interval :=
  let event_start := Z.max day_start (fe_start_minutes event) in
  let event_end := Z.min horizon (fe_end_minutes event) in
  let event_duration := event_end - event_start in
  if 0 <? event_duration then [FixedInterval event_start event_duration] else [].

(** [task_map = {task.id: task for task in tasks}] *)
Definition build_task_map (tasks : list SolverTask) : @Dict.t UUID SolverTask :=
  fold_left (fun d t => Dict.set Z.eqb d (st_id t) t) tasks [].

Definition dependency_constraints (task_vars : @Dict.t UUID nat)
    (entry : UUID * SolverTask) : list constraint * list log_record :=
  let (task_id, task) := entry in
  match Dict.get Z.eqb task_vars task_id with
  | None => ([], [])
  | Some n =>
      fold_left
        (fun acc dep_id =>
           match Dict.get Z.eqb task_vars dep_id with
           | Some d => (fst acc ++ [AddGe (VStart n) (VEnd d)], snd acc)
           | None => (fst acc, snd acc ++ [LogDependencyNotFound task_id dep_id])
           end)
        (st_dependencies task) ([], [])
  end.

(** *** Step 3: objective *)

(** [hourly_energy_scores[task_energy_level][hour]] *)
Definition energy_score (pattern : EnergyPattern) (task_energy_level hour : Z) : Z :=
  let task_energy_norm := (inject_Z task_energy_level / 3)%Q in
  let user_energy := Dict.get_default Z.eqb pattern hour (1 # 2)%Q in
  let match_ := (1 - Qabs (user_energy - task_energy_norm))%Q in
  int_of_float (match_ * 100)%Q.


Definition hours : list Z := map Z.of_nat (seq 0 24).

Definition in_energy_table (level : Z) : bool := (1 <=? level) && (level <=? 3).

Definition scores_for_task (pattern : EnergyPattern) (level : Z) : list Z :=
  map (energy_score pattern level) hours.

Definition objective_of_task (cfg : SolverConfig) (pattern : EnergyPattern)
    (task_vars : @Dict.t UUID nat) (entry : UUID * SolverTask)
  : list constraint * list term :=
  let (task_id, task) := entry in
  match Dict.get Z.eqb task_vars task_id with
  | None => ([], [])
  | Some n =>
      let base :=
        [Constant (st_priority task * w_priority cfg);
         Scaled (VStart n) (- w_start_time_penalty cfg)] in
      if (0 <? w_energy_match cfg) && in_energy_table (st_energy_level task)
      then
        ([NewIntVar (VStartHour n) 0 23;
          AddDivisionEquality (VStartHour n) (VStart n) 60;
          NewIntVar (VEnergyScore n) 0 100;
          AddElement (VStartHour n)
                     (scores_for_task pattern (st_energy_level task))
                     (VEnergyScore n)],
         base ++ [Scaled (VEnergyScore n) (w_energy_match cfg)])
      else ([], base)
  end.

Definition build_model (cfg : SolverConfig) (solver_input : SolverInput)
    (vs : var_state) : CpModel * list log_record :=
  let day_start := si_day_start_minutes solver_input in
  let horizon := si_day_end_minutes solver_input in
  let task_vars := vs_task_vars vs in
  let task_map := build_task_map (si_tasks solver_input) in
  let task_ivs := map TaskInterval (Dict.values task_vars) in
  let fixed_event_intervals :=
    flat_map (fixed_interval_of day_start horizon)
             (si_fixed_events solver_input) in
  let no_overlap :=
    AddNoOverlap task_ivs ::
    match fixed_event_intervals with
    | [] => []
    | _ => [AddNoOverlap (task_ivs ++ fixed_event_intervals)]
    end in
  let deps := map (dependency_constraints task_vars) task_map in
  let objs := map (objective_of_task cfg (si_user_energy_pattern solver_input)
                     task_vars) task_map in
  (mk_CpModel
     (vs_constraints vs ++ no_overlap ++ flat_map fst deps ++ flat_map fst objs)
     (flat_map snd objs),
   flat_map snd deps).

(** *** Step 5: reading the solution *)

Definition time_leb (a b : time) : bool :=
  let ka := ((hour a * 60 + minute a) * 60 + second a) * 1000000 + microsecond a in
  let kb := ((hour b * 60 + minute b) * 60 + second b) * 1000000 + microsecond b in
  ka <=? kb.

Definition read_solution (target_date : date) (a : assignment)
    (task_vars : @Dict.t UUID nat) : list ScheduledTaskInfo :=
  Sorting.sort (fun x y => time_leb (sti_start_time x) (sti_start_time y))
    (map (fun entry : UUID * nat =>
            let (task_id, n) := entry in
            mk_ScheduledTaskInfo task_id
              (time_of_minutes (a (VStart n)))
              (time_of_minutes (a (VEnd n)))
              target_date)
         task_vars).

(** *** Meaning of the constraints

    What CP-SAT guarantees of the values it returns with status [OPTIMAL]
    or [FEASIBLE]. *)

Definition interval_bounds (a : assignment) (iv : interval) : Z * Z :=
  match iv with
  | TaskInterval n => (a (VStart n), a (VEnd n))
  | FixedInterval start size => (start, start + size)
  end.

Definition disjoint (x y : Z * Z) : bool :=
  (snd x <=? fst y) || (snd y <=? fst x).

Fixpoint pairwise_disjoint (l : list (Z * Z)) : bool :=
  match l with
  | [] => true
  | x :: r => forallb (disjoint x) r && pairwise_disjoint r
  end.

Definition holds (a : assignment) (c : constraint) : bool :=
  match c with
  | NewIntVar v lb ub => (lb <=? a v) && (a v <=? ub)
  | NewIntervalVar n size => a (VStart n) + size =? a (VEnd n)
  | AddNoOverlap ivs => pairwise_disjoint (map (interval_bounds a) ivs)
  | AddGe x y => a y <=? a x
  | AddDivisionEquality target numerator denominator =>
      a target =? Z.quot (a numerator) denominator
  | AddElement index table target =>
      (0 <=? a index) &&
      match nth_error table (Z.to_nat (a index)) with
      | Some x => a target =? x
      | None => false
      end
  end.

Definition feasible (a : assignment) (m : CpModel) : bool :=
  forallb (holds a) (cp_constraints m).



(** [ConstraintSchedulerSolver.solve]: the returned value and the log. *)
Definition solve (engine : Engine) (cfg : SolverConfig) (solver_input : SolverInput)
  : option (list ScheduledTaskInfo) * list log_record :=
  match si_tasks solver_input with
  | [] => (Some [], [LogNoTasks])
  | tasks =>
      let vs := create_all_vars (si_day_start_minutes solver_input)
                  (si_day_end_minutes solver_input) 0 tasks
                  (mk_var_state [] [] []) in
      match vs_task_vars vs with
      | [] => (Some [], vs_log vs ++ [LogNoValidVariables])
      | task_vars =>
          let (model, dep_log) := build_model cfg solver_input vs in
          let (status, a) := engine model (solver_time_limit_seconds cfg) in
          match status with
          | OPTIMAL | FEASIBLE =>
              (Some (read_solution (si_target_date solver_input) a task_vars),
               vs_log vs ++ dep_log)
          | _ => (None, vs_log vs ++ dep_log ++ [LogNoSolution status])
          end
      end
  end.

End ConstraintSolver.

(* ------------------------------------------------------------------ *)
(** * Wall-clock arithmetic of [datetime] *)
(* ------------------------------------------------------------------ *)

Module Clock.
Import Py TimeUtils.

Definition us_per_second : Z := 1000000.
Definition us_per_minute : Z := 60000000.
Definition us_per_hour : Z := 3600000000.
Definition us_per_day : Z := 86400000000.

(** A [datetime]: microseconds on its own time line (UTC for an aware
    value, wall clock for a naive one) and whether [tzinfo] is set. *)
Record datetime : Type := mk_datetime { dt_us : Z; dt_aware : bool }.

(** A [tzinfo]: the UTC offset, in microseconds, in force at an instant. *)
Definition tzinfo := Z -> Z.

Definition utc : tzinfo := fun _ => 0.

(** [dt.time()] of a wall-clock microsecond count. *)
Definition time_of_us (us : Z) : time :=
  let tod := us mod us_per_day in
  mk_time (tod / us_per_hour) ((tod / us_per_minute) mod 60)
          ((tod / us_per_second) mod 60) (tod mod us_per_second).

(** [datetime.combine(d, t)] keeps [t]; only the time of day matters to
    the callers, so the date part is dropped. *)
Definition us_of_time (t : time) : Z :=
  hour t * us_per_hour + minute t * us_per_minute +
  second t * us_per_second + microsecond t.

(** [dt.astimezone(tz).time()]; a naive [dt] is taken as local time. *)
Definition local_time (tz : tzinfo) (dt : datetime) : time :=
  if dt_aware dt then time_of_us (dt_us dt + tz (dt_us dt))
  else time_of_us (dt_us dt).

(** [a <= b] on datetimes: mixing naive and aware raises [TypeError]. *)
Definition datetime_le (a b : datetime) : outcome bool :=
  if Bool.eqb (dt_aware a) (dt_aware b)
  then Returned (dt_us a <=? dt_us b)
  else raise TypeError "can't compare offset-naive and offset-aware datetimes".

(** [td / 2]: true division of a timedelta, rounded to the microsecond. *)
Definition half (us : Z) : Z := round (inject_Z us / 2)%Q.

End Clock.

(* ------------------------------------------------------------------ *)
(** * chronotype.py *)
(* ------------------------------------------------------------------ *)

Module ChronotypeM.
Import Py TimeUtils Clock.

Inductive Chronotype : Type :=
| EARLY_BIRD | NIGHT_OWL | INTERMEDIATE | FLEXIBLE | UNKNOWN.

Definition Chronotype_eqb (a b : Chronotype) : bool :=
  match a, b with
  | EARLY_BIRD, EARLY_BIRD | NIGHT_OWL, NIGHT_OWL
  | INTERMEDIATE, INTERMEDIATE | FLEXIBLE, FLEXIBLE | UNKNOWN, UNKNOWN => true
  | _, _ => false
  end.

Definition UUID := Z.

Record ChronotypeConfig : Type := mk_ChronotypeConfig {
  meq_ranges : list ((Z * Z) * Chronotype);
  default_productive_windows : @Dict.t Chronotype (list (time * time));
  optimal_exercise_times : @Dict.t Chronotype time;
  sleep_data_min_records : Z;
  midsleep_threshold_early : Q;
  midsleep_threshold_late : Q;
  confidence_variance_scale : Q;
  update_profile_confidence_threshold : Q;
  chronotype_sleep_time_adjustments : @Dict.t Chronotype Q
}.

Definition DEFAULT_MEQ_RANGES : list ((Z * Z) * Chronotype) :=
  [((16, 30), NIGHT_OWL); ((31, 41), NIGHT_OWL); ((42, 58), INTERMEDIATE);
   ((59, 69), EARLY_BIRD); ((70, 86), EARLY_BIRD)].

Definition DEFAULT_PRODUCTIVE_WINDOWS : @Dict.t Chronotype (list (time * time)) :=
  [(EARLY_BIRD, [(time_hm 7 0, time_hm 12 0); (time_hm 15 0, time_hm 17 0)]);
   (NIGHT_OWL, [(time_hm 10 0, time_hm 13 0); (time_hm 17 0, time_hm 22 0)]);
   (INTERMEDIATE, [(time_hm 9 0, time_hm 12 0); (time_hm 14 0, time_hm 18 0)]);
   (FLEXIBLE, [(time_hm 9 0, time_hm 13 0); (time_hm 15 0, time_hm 19 0)]);
   (UNKNOWN, [(time_hm 9 0, time_hm 12 0); (time_hm 14 0, time_hm 17 0)])].

Definition DEFAULT_OPTIMAL_EXERCISE_TIMES : @Dict.t Chronotype time :=
  [(EARLY_BIRD, time_hm 7 0); (NIGHT_OWL, time_hm 18 0);
   (INTERMEDIATE, time_hm 17 0); (FLEXIBLE, time_hm 16 0);
   (UNKNOWN, time_hm 17 0)].

Definition DEFAULT_CHRONOTYPE_CONFIG : ChronotypeConfig :=
  mk_ChronotypeConfig DEFAULT_MEQ_RANGES DEFAULT_PRODUCTIVE_WINDOWS
    DEFAULT_OPTIMAL_EXERCISE_TIMES 7 (35 # 10) (55 # 10) 4 (6 # 10)
    [(EARLY_BIRD, (-15 # 10)%Q); (NIGHT_OWL, (15 # 10)%Q);
     (INTERMEDIATE, 0%Q); (FLEXIBLE, 0%Q); (UNKNOWN, 0%Q)].

(** The [last_updated] timestamp is not modelled. *)
Record ChronotypeProfile : Type := mk_ChronotypeProfile {
  user_id : UUID;
  primary_chronotype : Chronotype;
  chronotype_strength : Q;
  consistency_score : Q;
  natural_bedtime : option time;
  natural_wake_time : option time;
  preferred_productive_hours : list (time * time);
  preferred_exercise_time : option time;
  source_of_determination : option pystr
}.

Definition clamp01 (x : Q) : Q := Qmax 0 (Qmin 1 x).

Definition in_unit (x : Q) : Prop := (0 <= x <= 1)%Q.

(** The invariant of a profile: both scores within [0, 1]. *)
Definition scores_in_unit (p : ChronotypeProfile) : Prop :=
  in_unit (chronotype_strength p) /\ in_unit (consistency_score p).

(** The dataclass constructor followed by [__post_init__]. *)
Definition ChronotypeProfile_new (user_id : UUID) (primary_chronotype : Chronotype)
    (chronotype_strength consistency_score : Q)
    (natural_bedtime natural_wake_time : option time)
    (preferred_productive_hours : list (time * time))
    (preferred_exercise_time : option time)
    (source_of_determination : option pystr) : ChronotypeProfile :=
  mk_ChronotypeProfile user_id primary_chronotype
    (clamp01 chronotype_strength) (clamp01 consistency_score)
    natural_bedtime natural_wake_time preferred_productive_hours
    preferred_exercise_time source_of_determination.

(** [determine_chronotype_from_meq] *)
Definition determine_chronotype_from_meq (cfg : ChronotypeConfig) (meq_score : Z)
  : outcome Chronotype :=
  let all_scores := flat_map (fun r => [fst (fst r); snd (fst r)]) (meq_ranges cfg) in
  match all_scores with
  | [] => raise ValueError "MEQ ranges configuration is empty."
  | s0 :: rest =>
      let valid_range_min := fold_left Z.min rest s0 in
      let valid_range_max := fold_left Z.max rest s0 in
      if negb ((valid_range_min <=? meq_score) && (meq_score <=? valid_range_max))
      then raise ValueError "Invalid MEQ score"
      else
        match find (fun r => (fst (fst r) <=? meq_score) && (meq_score <=? snd (fst r)))
                   (meq_ranges cfg) with
        | Some r => Returned (snd r)
        | None => Returned INTERMEDIATE
        end
  end.

(** The two statistics are library functions.  [mean] is exact on
    rationals; [stdev] involves a square root and is left abstract. *)
Definition mean (l : list Q) : Q :=
  (fold_right Qplus 0 l / inject_Z (Z.of_nat (List.length l)))%Q.

(** A computable stand-in for [statistics.stdev], used to run the model:
    the sample standard deviation rounded down to a multiple of 10^-6. *)
Definition stdev_floor (l : list Q) : Q :=
  let n := inject_Z (Z.of_nat (List.length l)) in
  let m := mean l in
  let ss := fold_right (fun x acc => ((x - m) * (x - m) + acc)%Q) 0%Q l in
  let variance := (ss / (n - 1))%Q in
  (inject_Z (Z.sqrt (Qfloor (variance * inject_Z (10 ^ 12)))) / inject_Z (10 ^ 6))%Q.

Section SleepData.
Variable stdev : list Q -> Q.

(** One iteration of the loop over [sleep_records]: the mid-sleep hour of
    a record that passes the filters. *)
Definition mid_sleep_hour (user_timezone : tzinfo) (rec : datetime * datetime)
  : outcome (option Q) :=
  let (sleep_start, sleep_end) := rec in
  bind (datetime_le sleep_end sleep_start) (fun not_after =>
  if not_after then Returned None
  else if negb (dt_aware sleep_start) || negb (dt_aware sleep_end)
  then Returned None
  else
    let duration := dt_us sleep_end - dt_us sleep_start in
    if negb ((3 * us_per_hour <=? duration) && (duration <=? 14 * us_per_hour))
    then Returned None
    else
      let mid_sleep_dt_utc := mk_datetime (dt_us sleep_start + half duration) true in
      let t := local_time user_timezone mid_sleep_dt_utc in
      Returned (Some (inject_Z (hour t) + inject_Z (minute t) / 60
                      + inject_Z (second t) / 3600)%Q)).

Fixpoint mid_sleep_hours (user_timezone : tzinfo) (recs : list (datetime * datetime))
  : outcome (list Q) :=
  match recs with
  | [] => Returned []
  | r :: rest =>
      bind (mid_sleep_hour user_timezone r) (fun h =>
      bind (mid_sleep_hours user_timezone rest) (fun hs =>
      Returned (match h with Some x => x :: hs | None => hs end)))
  end.

(** [determine_chronotype_from_sleep_data] *)
Definition determine_chronotype_from_sleep_data (cfg : ChronotypeConfig)
    (sleep_records : list (datetime * datetime)) (user_timezone : tzinfo)
  : outcome (option (Chronotype * Q)) :=
  if Z.of_nat (List.length sleep_records) <? sleep_data_min_records cfg
  then Returned None
  else
    match sleep_records with
    | [] => Returned None
    | _ =>
    bind (mid_sleep_hours user_timezone sleep_records) (fun mid_sleep_times_hours =>
    let valid_records_count := Z.of_nat (List.length mid_sleep_times_hours) in
    if valid_records_count <? sleep_data_min_records cfg then Returned None
    else
      match mid_sleep_times_hours with
      | [] => raise OtherError "mean requires at least one data point"
      | _ =>
      let avg_mid_sleep_hour := mean mid_sleep_times_hours in
      let stdev_mid_sleep_hour :=
        if 1 <? valid_records_count then stdev mid_sleep_times_hours else 0%Q in
      let chronotype :=
        if Qle_bool avg_mid_sleep_hour (midsleep_threshold_early cfg) then EARLY_BIRD
        else if Qle_bool (midsleep_threshold_late cfg) avg_mid_sleep_hour then NIGHT_OWL
        else INTERMEDIATE in
      let normalized_stdev :=
        (stdev_mid_sleep_hour / Qmax (1 # 10) (confidence_variance_scale cfg))%Q in
      let confidence := Qmax 0 (1 - normalized_stdev)%Q in
      Returned (Some (chronotype, confidence))
      end)
    end.

(** [update_chronotype_profile].  The profile object is updated in place
    and returned; the model returns the new field values. *)
Definition update_chronotype_profile (cfg : ChronotypeConfig)
    (profile : ChronotypeProfile) (new_sleep_records : list (datetime * datetime))
    (user_timezone : tzinfo) : ChronotypeProfile :=
  match new_sleep_records with
  | [] => profile
  | _ =>
      match determine_chronotype_from_sleep_data cfg new_sleep_records user_timezone with
      | Raised _ => profile
      | Returned None => profile
      | Returned (Some (new_chronotype, confidence)) =>
          if negb (Qle_bool (update_profile_confidence_threshold cfg) confidence)
          then profile
          else
            let unknown_windows :=
              Dict.get Chronotype_eqb (default_productive_windows cfg) UNKNOWN in
            let unknown_exercise :=
              Dict.get Chronotype_eqb (optimal_exercise_times cfg) UNKNOWN in
            match unknown_windows, unknown_exercise with
            | Some uw, Some ue =>
                mk_ChronotypeProfile (user_id profile) new_chronotype confidence
                  (clamp01 (consistency_score profile * (7 # 10)
                            + confidence * (3 # 10))%Q)
                  (natural_bedtime profile) (natural_wake_time profile)
                  (Dict.get_default Chronotype_eqb (default_productive_windows cfg)
                     new_chronotype uw)
                  (Some (Dict.get_default Chronotype_eqb (optimal_exercise_times cfg)
                     new_chronotype ue))
                  (Some (str "sleep_data_update"))
            | None, _ =>
                (* KeyError after the scores were assigned: caught, the
                   object keeps the fields written so far *)
                mk_ChronotypeProfile (user_id profile) new_chronotype confidence
                  (clamp01 (consistency_score profile * (7 # 10)
                            + confidence * (3 # 10))%Q)
                  (natural_bedtime profile) (natural_wake_time profile)
                  (preferred_productive_hours profile)
                  (preferred_exercise_time profile)
                  (Some (str "sleep_data_update"))
            | Some uw, None =>
                mk_ChronotypeProfile (user_id profile) new_chronotype confidence
                  (clamp01 (consistency_score profile * (7 # 10)
                            + confidence * (3 # 10))%Q)
                  (natural_bedtime profile) (natural_wake_time profile)
                  (Dict.get_default Chronotype_eqb (default_productive_windows cfg)
                     new_chronotype uw)
                  (preferred_exercise_time profile)
                  (Some (str "sleep_data_update"))
            end
      end
  end.

(** A sequence of updates, each with its records and time zone. *)
Definition apply_updates (cfg : ChronotypeConfig) (p : ChronotypeProfile)
    (updates : list (list (datetime * datetime) * tzinfo)) : ChronotypeProfile :=
  fold_left (fun q u => update_chronotype_profile cfg q (fst u) (snd u))
            updates p.

End SleepData.

(** [create_chronotype_profile] *)
Definition create_chronotype_profile (cfg : ChronotypeConfig) (user_id : UUID)
    (chronotype : Chronotype) (source : pystr)
    (natural_bedtime natural_wake_time : option time)
    (chronotype_strength consistency_score : Q) : ChronotypeProfile :=
  let productive_windows :=
    Dict.get_default Chronotype_eqb (default_productive_windows cfg) chronotype [] in
  let exercise_time := Dict.get Chronotype_eqb (optimal_exercise_times cfg) chronotype in
  let (bed, wake) :=
    match natural_bedtime, natural_wake_time with
    | Some b, Some w => (Some b, Some w)
    | _, _ =>
        let adjustment_hours :=
          Dict.get_default Chronotype_eqb (chronotype_sleep_time_adjustments cfg)
            chronotype 0%Q in
        let inferred_wake := us_of_time (time_hm 7 30)
                             + total_microseconds (timedelta_hours adjustment_hours) in
        let inferred_bed := inferred_wake - 8 * us_per_hour in
        (Some (time_of_us inferred_bed), Some (time_of_us inferred_wake))
    end in
  ChronotypeProfile_new user_id chronotype chronotype_strength consistency_score
    bed wake productive_windows exercise_time (Some source).

End ChronotypeM.

(* ------------------------------------------------------------------ *)
(** * sleep.py *)
(* ------------------------------------------------------------------ *)

Module Sleep.
Import Py TimeUtils Clock ChronotypeM.

Record SleepConfig : Type := mk_SleepConfig {
  guideline_teen : Q * Q;
  guideline_young_adult : Q * Q;
  guideline_adult : Q * Q;
  guideline_senior : Q * Q;
  chronotype_adjustments : @Dict.t Chronotype Q;
  default_wake_times : @Dict.t Chronotype time;
  max_sleep_need_adj : Q;
  max_chrono_adj : Q;
  timing_tolerance : Z;
  timing_penalty_range : Z;
  duration_tolerance : Z;
  duration_penalty_range : Z;
  hr_target_min : Z;
  hr_target_max : Z;
  hr_penalty_low : Z;
  hr_penalty_high : Z;
  hrv_target : Q;
  hrv_scale : Q;
  (* quality_score_weights, read with [.get(key, 0.0)] *)
  quality_weights : @Dict.t pystr Q;
  (* physiological_sub_weights, read with [.get(key, 0.5)] *)
  physio_weights : @Dict.t pystr Q
}.

Definition DEFAULT_SLEEP_CONFIG : SleepConfig :=
  mk_SleepConfig (8, 10)%Q (7, 9)%Q (7, 9)%Q (7, 8)%Q
    [(EARLY_BIRD, (-1)%Q); (NIGHT_OWL, 1%Q); (INTERMEDIATE, 0%Q); (UNKNOWN, 0%Q)]
    [(EARLY_BIRD, time_hm 6 30); (INTERMEDIATE, time_hm 7 30);
     (NIGHT_OWL, time_hm 8 30); (UNKNOWN, time_hm 7 30)]
    1 (15 # 10)
    30 90 30 90
    40 60 10 20
    50 1
    [(str "duration", (4 # 10)%Q); (str "timing", (3 # 10)%Q);
     (str "physiological", (3 # 10)%Q)]
    [(str "hr", (5 # 10)%Q); (str "hrv", (5 # 10)%Q)].

Record SleepMetrics : Type := mk_SleepMetrics {
  ideal_duration : timedelta;
  ideal_bedtime : time;
  ideal_wake_time : time;
  actual_duration : option timedelta;
  actual_bedtime : option time;
  actual_wake_time : option time;
  sleep_quality_score : option Q;
  sleep_deficit : option timedelta
}.

(** The dataclass constructor followed by [__post_init__]. *)
Definition SleepMetrics_new (ideal_duration : timedelta)
    (ideal_bedtime ideal_wake_time : time)
    (actual_duration : option timedelta)
    (actual_bedtime actual_wake_time : option time)
    (sleep_quality_score : option Q) : SleepMetrics :=
  mk_SleepMetrics ideal_duration ideal_bedtime ideal_wake_time
    actual_duration actual_bedtime actual_wake_time sleep_quality_score
    (match actual_duration with
     | Some a => Some (mk_timedelta (total_microseconds ideal_duration
                                     - total_microseconds a))
     | None => None
     end).

(** [get_recommended_sleep_duration].  [age] is [None] when the caller's
    profile has no age: the range test then raises [TypeError]. *)
Definition get_recommended_sleep_duration (cfg : SleepConfig) (age : option Z)
    (sleep_need_scale : option Q) : outcome timedelta :=
  match age with
  | None => raise TypeError "'<=' not supported between 'int' and 'NoneType'"
  | Some age =>
      if negb ((0 <=? age) && (age <=? 120))
      then raise ValueError "Invalid age provided"
      else
        let '(min_h, max_h) :=
          if age <? 18 then guideline_teen cfg
          else if age <? 26 then guideline_young_adult cfg
          else if age <? 65 then guideline_adult cfg
          else guideline_senior cfg in
        let base_avg_h := ((min_h + max_h) / 2)%Q in
        let adj_h :=
          match sleep_need_scale with
          | Some s =>
              if Qle_bool 0 s && Qle_bool s 100
              then (((s - 50) / 50) * max_sleep_need_adj cfg)%Q
              else 0%Q
          | None => 0%Q
          end in
        let final_h := (base_avg_h + adj_h)%Q in
        let reasonable_min := Qmax 4 (min_h - 1)%Q in
        let reasonable_max := Qmin 12 (max_h + 1)%Q in
        let final_h := Qmax reasonable_min (Qmin reasonable_max final_h) in
        Returned (timedelta_hours final_h)
  end.

(** [calculate_sleep_window] *)
Definition calculate_sleep_window (cfg : SleepConfig) (age : option Z)
    (chronotype : Chronotype) (target_wake_time : option time)
    (sleep_need_scale chronotype_scale : option Q) : outcome SleepMetrics :=
  bind (get_recommended_sleep_duration cfg age sleep_need_scale) (fun sleep_duration =>
  let target_wake_time :=
    match target_wake_time with
    | Some t => t
    | None => Dict.get_default Chronotype_eqb (default_wake_times cfg) chronotype
                (time_hm 7 30)
    end in
  let timing_adj_h :=
    match chronotype_scale with
    | Some s =>
        if Qle_bool 0 s && Qle_bool s 100
        then (((s - 50) / 50) * max_chrono_adj cfg)%Q
        else Dict.get_default Chronotype_eqb (chronotype_adjustments cfg) chronotype 0%Q
    | None => Dict.get_default Chronotype_eqb (chronotype_adjustments cfg) chronotype 0%Q
    end in
  let adjusted_wake :=
    us_of_time target_wake_time + total_microseconds (timedelta_hours timing_adj_h) in
  let bedtime := adjusted_wake - total_microseconds sleep_duration in
  Returned (SleepMetrics_new sleep_duration (time_of_us bedtime)
              (time_of_us adjusted_wake) None None None None)).

(** [_calculate_duration_score] *)
Definition calculate_duration_score (cfg : SleepConfig) (actual ideal : timedelta) : Q :=
  let max_score := 100%Q in
  let diff_minutes := (Qabs (total_seconds actual - total_seconds ideal) / 60)%Q in
  if Qle_bool diff_minutes (inject_Z (duration_tolerance cfg)) then max_score
  else
    let penalty :=
      ((diff_minutes - inject_Z (duration_tolerance cfg))
       * (max_score / inject_Z (Z.max 1 (duration_penalty_range cfg))))%Q in
    Qmax 0 (max_score - penalty)%Q.

Definition timing_part_score (cfg : SleepConfig) (diff_m : Z) : Q :=
  let max_part_score := (100 / 2)%Q in
  if diff_m <=? timing_tolerance cfg then max_part_score
  else
    let penalty :=
      (inject_Z (diff_m - timing_tolerance cfg)
       * (max_part_score / inject_Z (Z.max 1 (timing_penalty_range cfg))))%Q in
    Qmax 0 (max_part_score - penalty)%Q.

(** [_calculate_timing_score] (the second, effective definition). *)
Definition calculate_timing_score (cfg : SleepConfig)
    (actual_bed actual_wake ideal_bed ideal_wake : time) : Q :=
  let actual_bed_m := minutes_of actual_bed in
  let ideal_bed_m := minutes_of ideal_bed in
  let actual_wake_m := minutes_of actual_wake in
  let ideal_wake_m := minutes_of ideal_wake in
  let bed_diff_m := Z.min (Z.abs (actual_bed_m - ideal_bed_m))
                          (1440 - Z.abs (actual_bed_m - ideal_bed_m)) in
  let wake_diff_m := Z.min (Z.abs (actual_wake_m - ideal_wake_m))
                           (1440 - Z.abs (actual_wake_m - ideal_wake_m)) in
  (timing_part_score cfg bed_diff_m + timing_part_score cfg wake_diff_m)%Q.

(** [min(xs)] on a non-empty list. *)
Definition list_min (x : Z) (xs : list Z) : Z := fold_left Z.min xs x.

(** [not bool(data)]: the argument is [None] or an empty list. *)
Definition no_samples {A} (data : option (list A)) : Prop :=
  data = None \/ data = Some [].

(** [_calculate_physiological_score] *)
Definition calculate_physiological_score (cfg : SleepConfig)
    (heart_rate_data : option (list (datetime * Z)))
    (hrv_data : option (list (datetime * Q))) : Q :=
  let max_score := 100%Q in
  let hr_weight := Dict.get_default pystr_eqb (physio_weights cfg) (str "hr") (5 # 10)%Q in
  let hrv_weight := Dict.get_default pystr_eqb (physio_weights cfg) (str "hrv") (5 # 10)%Q in
  let hr_list := match heart_rate_data with Some l => l | None => [] end in
  let hrv_list := match hrv_data with Some l => l | None => [] end in
  let has_hr := match hr_list with [] => false | _ => true end in
  let has_hrv := match hrv_list with [] => false | _ => true end in
  if negb has_hr && negb has_hrv then 0%Q
  else
    let hr_weight := if has_hr && negb has_hrv then 1%Q
                     else if negb has_hr && has_hrv then 0%Q else hr_weight in
    let hrv_weight := if has_hr && negb has_hrv then 0%Q
                      else if negb has_hr && has_hrv then 1%Q else hrv_weight in
    let hr_score :=
      match filter (fun hr => 0 <? hr) (map snd hr_list) with
      | [] => 0%Q
      | h :: hs =>
          let min_hr := list_min h hs in
          let max_part_score := (max_score * hr_weight)%Q in
          if (hr_target_min cfg <=? min_hr) && (min_hr <=? hr_target_max cfg)
          then max_part_score
          else if min_hr <? hr_target_min cfg then
            let penalty :=
              (inject_Z (hr_target_min cfg - min_hr)
               * (max_part_score / inject_Z (Z.max 1 (hr_penalty_low cfg))))%Q in
            Qmax 0 (max_part_score - penalty)%Q
          else
            let penalty :=
              (inject_Z (min_hr - hr_target_max cfg)
               * (max_part_score / inject_Z (Z.max 1 (hr_penalty_high cfg))))%Q in
            Qmax 0 (max_part_score - penalty)%Q
      end in
    let hrv_score :=
      match filter (fun v => negb (Qle_bool v 0)) (map snd hrv_list) with
      | [] => 0%Q
      | valid_hrvs =>
          let avg_hrv := (fold_right Qplus 0 valid_hrvs
                          / inject_Z (Z.of_nat (List.length valid_hrvs)))%Q in
          let max_part_score := (max_score * hrv_weight)%Q in
          Qmax 0 (Qmin max_part_score
                    (max_part_score * (avg_hrv / Qmax 1 (hrv_target cfg))
                     * hrv_scale cfg)%Q)
      end in
    (hr_score + hrv_score)%Q.

(** [analyze_sleep_quality].  [local_tz] is the system time zone used by
    [astimezone(None)]. *)
Definition analyze_sleep_quality (cfg : SleepConfig) (local_tz : tzinfo)
    (recommended : SleepMetrics) (sleep_start sleep_end : datetime)
    (heart_rate_data : option (list (datetime * Z)))
    (hrv_data : option (list (datetime * Q))) : outcome SleepMetrics :=
  bind (datetime_le sleep_end sleep_start) (fun not_after =>
  if not_after
  then raise ValueError "Sleep end time must be after sleep start time."
  else
    let actual_duration := mk_timedelta (dt_us sleep_end - dt_us sleep_start) in
    let actual_bedtime := local_time local_tz sleep_start in
    let actual_wake_time := local_time local_tz sleep_end in
    let duration_score :=
      calculate_duration_score cfg actual_duration (ideal_duration recommended) in
    let timing_score :=
      calculate_timing_score cfg actual_bedtime actual_wake_time
        (ideal_bedtime recommended) (ideal_wake_time recommended) in
    let physiological_score :=
      calculate_physiological_score cfg heart_rate_data hrv_data in
    let weights := quality_weights cfg in
    let total_score :=
      (duration_score * Dict.get_default pystr_eqb weights (str "duration") 0
       + timing_score * Dict.get_default pystr_eqb weights (str "timing") 0
       + physiological_score * Dict.get_default pystr_eqb weights (str "physiological") 0)%Q in
    let sleep_quality_score := Qmax 0 (Qmin 100 total_score) in
    Returned (SleepMetrics_new (ideal_duration recommended)
                (ideal_bedtime recommended) (ideal_wake_time recommended)
                (Some actual_duration) (Some actual_bedtime)
                (Some actual_wake_time) (Some sleep_quality_score))).

End Sleep.

(* ------------------------------------------------------------------ *)
(** * task_prioritizer.py (the parts the orchestrator uses) *)
(* ------------------------------------------------------------------ *)

Module TaskPrioritizer.
Import Py TimeUtils Clock ChronotypeM.

Inductive TaskPriority : Type := CRITICAL | HIGH | MEDIUM | LOW | OPTIONAL.

Definition TaskPriority_value (p : TaskPriority) : Z :=
  match p with
  | CRITICAL => 5 | HIGH => 4 | MEDIUM => 3 | LOW => 2 | OPTIONAL => 1
  end.

Inductive EnergyLevel : Type := E_HIGH | E_MEDIUM | E_LOW.

Definition EnergyLevel_value (e : EnergyLevel) : Z :=
  match e with
  | E_HIGH => 3 | E_MEDIUM => 2 | E_LOW => 1
  end.

(** The attribute [duration] is declared a [timedelta]; the orchestrator
    also accepts a string or a number. *)
Inductive duration_value : Type :=
| DurTimedelta (d : timedelta)
| DurStr (s : pystr)
| DurNum (n : num).

(** [earliest_start] is declared a [datetime]; the orchestrator reads it
    only when it is a [datetime.time]. *)
Inductive earliest_start_value : Type :=
| EsTime (t : time)
| EsDatetime (d : datetime).

Record Task : Type := mk_Task {
  title : pystr;
  id : UUID;
  priority : TaskPriority;
  energy_level : EnergyLevel;
  duration : duration_value;
  deadline : option datetime;
  earliest_start : option earliest_start_value;
  dependencies : list UUID;
  completed : bool
}.

(** [range(a, b)] update loop of [get_energy_pattern]. *)
Definition boost (pattern : @Dict.t Z Q) (h : Z) : @Dict.t Z Q :=
  Dict.set Z.eqb pattern h
    (Qmin 1 (Dict.get_default Z.eqb pattern h (1 # 2) + (1 # 10))%Q).

(** [TaskPrioritizer.get_energy_pattern(profile)] *)
Definition get_energy_pattern (user_energy_pattern : @Dict.t Z Q)
    (profile : ChronotypeProfile) : @Dict.t Z Q :=
  match primary_chronotype profile with
  | EARLY_BIRD => fold_left boost [6; 7; 8; 9; 10] user_energy_pattern
  | NIGHT_OWL => fold_left boost [17; 18; 19; 20; 21] user_energy_pattern
  | _ => user_energy_pattern
  end.

(** The pattern used when none is configured: [{h: 0.5 for h in range(24)}]. *)
Definition flat_energy_pattern : @Dict.t Z Q :=
  map (fun h => (Z.of_nat h, (1 # 2)%Q)) (seq 0 24).

End TaskPrioritizer.

(* ------------------------------------------------------------------ *)
(** * scheduler.py *)
(* ------------------------------------------------------------------ *)

Module Orchestrator.
Import Py TimeUtils Clock ChronotypeM Sleep TaskPrioritizer ConstraintSolver.

(** ** String helpers *)

Fixpoint startswith (s pre : pystr) : bool :=
  match pre, s with
  | [], _ => true
  | p :: pre', c :: s' => Ascii.eqb p c && startswith s' pre'
  | _ :: _, [] => false
  end.

(** [sub in s] on strings. *)
Fixpoint contains (s sub : pystr) : bool :=
  startswith s sub ||
  match s with
  | [] => false
  | _ :: s' => contains s' sub
  end.

(** [s.split(",")] *)
Fixpoint split_comma_aux (s cur : pystr) : list pystr :=
  match s with
  | [] => [rev cur]
  | c :: r =>
      if Ascii.eqb c ","%char then rev cur :: split_comma_aux r []
      else split_comma_aux r (c :: cur)
  end.

Definition split_comma (s : pystr) : list pystr := split_comma_aux s [].

Definition is_upper (c : ascii) : bool := (65 <=? code c) && (code c <=? 90).
Definition is_lower (c : ascii) : bool := (97 <=? code c) && (code c <=? 122).

Definition upper_char (c : ascii) : ascii :=
  if is_lower c then ascii_of_nat (Z.to_nat (code c - 32)) else c.

(** [s.title()] on ASCII text. *)
Fixpoint title_aux (s : pystr) (in_word : bool) : pystr :=
  match s with
  | [] => []
  | c :: r =>
      if is_upper c || is_lower c
      then (if in_word then lower_char c else upper_char c) :: title_aux r true
      else c :: title_aux r false
  end.

Definition title_case (s : pystr) : pystr := title_aux s false.

(** [s.replace("_", " ")] *)
Definition underscores_to_spaces (s : pystr) : pystr :=
  map (fun c => if Ascii.eqb c "_"%char then " "%char else c) s.

Definition mem_str (x : pystr) (l : list pystr) : bool :=
  existsb (pystr_eqb x) l.

(** [str(uuid)]: any injective rendering serves; decimal is used here. *)
Definition str_of_uuid (u : UUID) : pystr := str_of_int u.

(** ** Input and output records *)

Record FixedEventInput : Type := mk_FixedEventInput {
  ev_id : pystr; ev_start_time : pystr; ev_end_time : pystr
}.

Record MealPrefs : Type := mk_MealPrefs {
  breakfast_time : option pystr; breakfast_duration_minutes : option Z;
  lunch_time : option pystr; lunch_duration_minutes : option Z;
  dinner_time : option pystr; dinner_duration_minutes : option Z
}.

Record RoutinePrefs : Type := mk_RoutinePrefs {
  morning_duration_minutes : option Z; evening_duration_minutes : option Z
}.

(** [preferred_time] is read with [in]: a substring test on a string, a
    membership test on a list. *)
Inductive preferred_time_value : Type :=
| PtStr (s : pystr)
| PtList (l : list pystr).

Record ActivityGoal : Type := mk_ActivityGoal {
  ag_name : option pystr;
  ag_duration_minutes : option Z;
  ag_frequency : option pystr;
  ag_preferred_time : option preferred_time_value
}.

Record Preferences : Type := mk_Preferences {
  preferred_wake_time : option pystr;
  sleep_need_scale : option Q;
  chronotype_scale : option Q;
  meals : option MealPrefs;
  routines : option RoutinePrefs;
  activity_goals : list ActivityGoal
}.

Definition no_meal_prefs : MealPrefs := mk_MealPrefs None None None None None None.
Definition no_routine_prefs : RoutinePrefs := mk_RoutinePrefs None None.

Record UserProfileData : Type := mk_UserProfileData {
  age : option Z; meq_score : option Z
}.

Record ScheduleInputData : Type := mk_ScheduleInputData {
  in_user_id : UUID;
  in_target_date : date;
  in_tasks : list Task;
  in_fixed_events_input : list FixedEventInput;
  in_preferences : Preferences;
  in_user_profile_data : option UserProfileData
}.

(** One entry of [scheduled_items]. *)
Record item : Type := mk_item {
  it_type : pystr;
  it_name : pystr;
  it_start_time : pystr;
  it_end_time : pystr;
  it_duration_minutes : Z;
  it_task_id : option pystr;
  it_event_id : option pystr
}.

Record MetricValues : Type := mk_MetricValues {
  total_task_minutes : Z;
  total_break_minutes : Z;
  total_fixed_minutes : Z;
  total_sleep_minutes : Z;
  total_meal_minutes : Z;
  total_routine_minutes : Z;
  total_activity_minutes : Z;
  total_productive_minutes : Z;
  total_personal_minutes : Z;
  total_rest_minutes : Z;
  unscheduled_tasks : Z;
  task_completion_pct : Q;
  work_life_balance : Q
}.

(** The [metrics] dictionary. *)
Inductive Metrics : Type :=
| MetricsStatus (status : pystr)          (* [{"status": ...}] *)
| MetricsComputed (v : MetricValues)
| MetricsExternal (status : option pystr). (* supplied by the LLM pass *)

Definition metrics_status (m : Metrics) : option pystr :=
  match m with
  | MetricsStatus s => Some s
  | MetricsComputed _ => None
  | MetricsExternal s => s
  end.

(** [schedule_id] and [generation_timestamp] are fresh per call and are
    not modelled. *)
Record GeneratedSchedule : Type := mk_GeneratedSchedule {
  gs_user_id : UUID;
  gs_target_date : date;
  scheduled_items : list item;
  metrics : Metrics;
  explanations_error : option pystr;
  warnings : list pystr
}.

Record LlmOutput : Type := mk_LlmOutput {
  llm_schedule : list item;
  llm_metrics_status : option pystr
}.

Record Scheduler : Type := mk_Scheduler {
  sleep_config : SleepConfig;
  chronotype_config : ChronotypeConfig;
  user_energy_pattern : @Dict.t Z Q;
  solver_config : SolverConfig;
  engine : Engine;
  llm_engine : option (list ScheduledTaskInfo -> ScheduleInputData -> outcome LlmOutput);
  use_llm_refinement : bool
}.

(** ** [_prepare_profile] *)

Definition prepare_profile (self : Scheduler) (input_data : ScheduleInputData)
  : outcome ChronotypeProfile :=
  let meq := match in_user_profile_data input_data with
             | Some d => meq_score d
             | None => None
             end in
  let from_meq : option ChronotypeProfile :=
    match meq with
    | Some m =>
        match determine_chronotype_from_meq (chronotype_config self) m with
        | Returned chrono =>
            Some (create_chronotype_profile (chronotype_config self)
                    (in_user_id input_data) chrono (str "meq") None None
                    (1 # 2) 1)
        | Raised _ => None
        end
    | None => None
    end in
  match from_meq with
  | Some p => Returned p
  | None =>
      (* the fallback call passes [age=...], a keyword that
         [create_chronotype_profile] does not take *)
      raise TypeError
        "create_chronotype_profile() got an unexpected keyword argument 'age'"
  end.

(** ** [_calculate_sleep] *)

Definition fallback_sleep_metrics : SleepMetrics :=
  SleepMetrics_new (timedelta_hours_int 8) (time_hm 23 0) (time_hm 7 0)
    None None None None.

Definition calculate_sleep (self : Scheduler) (profile : ChronotypeProfile)
    (input_data : ScheduleInputData) : SleepMetrics :=
  let prefs := in_preferences input_data in
  let target_wake :=
    match preferred_wake_time prefs with
    | Some (c :: w) =>
        match fromisoformat (c :: w) with
        | Returned t => Some t
        | Raised _ => None
        end
    | _ => None
    end in
  match calculate_sleep_window (sleep_config self)
          (match in_user_profile_data input_data with
           | Some d => age d
           | None => None
           end)
          (primary_chronotype profile) target_wake
          (sleep_need_scale prefs) (chronotype_scale prefs) with
  | Returned m => m
  | Raised _ => fallback_sleep_metrics
  end.

(** ** [_prepare_solver_input] *)

(** Minutes of a task, [None] when the task is skipped. *)
Definition task_dur_min (t : Task) : option Z :=
  let dur_min :=
    match duration t with
    | DurTimedelta d => Some (total_microseconds d / us_per_minute)
    | DurStr s =>
        match parse_duration_string (Some s) with
        | Some pd =>
            if total_microseconds pd =? 0 then None
            else Some (total_microseconds pd / us_per_minute)
        | None => None
        end
    | DurNum n => Some (int_of_float (float_of_num n))
    end in
  match dur_min with
  | Some d => if d <=? 0 then None else Some d
  | None => None
  end.

(** Start of the target day on the UTC time line. *)
Definition day_start_us (d : date) : Z := d * us_per_day.

Definition solver_task_of (target_date : date) (t : Task) (dur_min : Z)
  : outcome SolverTask :=
  let es := match earliest_start t with
            | Some (EsTime tm) => Some (minutes_of tm)
            | _ => None
            end in
  let le := match deadline t with
            | Some dt => Some ((dt_us dt - day_start_us target_date) / us_per_minute)
            | None => None
            end in
  SolverTask_new (id t) dur_min (TaskPriority_value (priority t))
    (EnergyLevel_value (energy_level t)) es le (dependencies t).

Fixpoint solver_tasks_of (target_date : date) (tasks : list Task)
  : outcome (list SolverTask) :=
  match tasks with
  | [] => Returned []
  | t :: rest =>
      if completed t then solver_tasks_of target_date rest
      else
        match task_dur_min t with
        | None => solver_tasks_of target_date rest
        | Some dur_min =>
            bind (solver_task_of target_date t dur_min) (fun st =>
            bind (solver_tasks_of target_date rest) (fun sts =>
            Returned (st :: sts)))
        end
  end.

(** The body of the loop over [fixed_events_input]. *)
Definition solver_event_of (e : FixedEventInput) : outcome FixedEventInterval :=
  bind (fromisoformat (ev_start_time e)) (fun st =>
  bind (fromisoformat (ev_end_time e)) (fun et =>
  let sm := minutes_of st in
  let em := if time_eqb et (time_hm 0 0) then 1440 else minutes_of et in
  let em := if em <=? sm then sm + 1 else em in
  FixedEventInterval_new (ev_id e) sm em)).

Fixpoint solver_events_of (events : list FixedEventInput)
  : outcome (list FixedEventInterval) :=
  match events with
  | [] => Returned []
  | e :: rest =>
      bind (solver_event_of e) (fun fe =>
      bind (solver_events_of rest) (fun fes =>
      Returned (fe :: fes)))
  end.

Definition sleep_events (sleep_metrics : SleepMetrics)
  : outcome (list FixedEventInterval) :=
  let sb := minutes_of (ideal_bedtime sleep_metrics) in
  let sw := minutes_of (ideal_wake_time sleep_metrics) in
  if sb <? sw then
    bind (FixedEventInterval_new (str "sleep") sb sw) (fun s => Returned [s])
  else
    bind (FixedEventInterval_new (str "sleep_prev") sb 1440) (fun p =>
    bind (FixedEventInterval_new (str "sleep_next") 0 sw) (fun n =>
    Returned [p; n])).

Definition prepare_solver_input_body (self : Scheduler)
    (input_data : ScheduleInputData) (profile : ChronotypeProfile)
    (sleep_metrics : SleepMetrics) : outcome SolverInput :=
  bind (solver_tasks_of (in_target_date input_data) (in_tasks input_data))
    (fun solver_tasks =>
  bind (solver_events_of (in_fixed_events_input input_data)) (fun solver_events =>
  bind (sleep_events sleep_metrics) (fun sleep_evs =>
  SolverInput_new (in_target_date input_data) solver_tasks
    (solver_events ++ sleep_evs) 0 1440
    (get_energy_pattern (user_energy_pattern self) profile)))).

(** The whole body runs under [try: ... except Exception: return None]. *)
Definition prepare_solver_input (self : Scheduler)
    (input_data : ScheduleInputData) (profile : ChronotypeProfile)
    (sleep_metrics : SleepMetrics) : option SolverInput :=
  match prepare_solver_input_body self input_data profile sleep_metrics with
  | Returned si => Some si
  | Raised _ => None
  end.

(** ** [_process_core_schedule] *)

Definition block : Type := (Z * Z) * item.

Definition block_start (b : block) : Z := fst (fst b).
Definition block_end (b : block) : Z := snd (fst b).
Definition block_meta (b : block) : item := snd b.

(** [blocks.sort(key=lambda x: x[0])] *)
Definition sort_blocks (l : list block) : list block :=
  Sorting.sort (fun a b => block_start a <=? block_start b) l.

Definition fmt_minutes (m : Z) : pystr := strftime_HM (time_of_minutes m).

Definition fixed_event_block (fe : FixedEventInterval) : block :=
  ((fe_start_minutes fe, fe_end_minutes fe),
   mk_item (str "fixed_event")
     (title_case (underscores_to_spaces (fe_id fe)))
     (fmt_minutes (fe_start_minutes fe))
     (if 1440 <=? fe_end_minutes fe then str "24:00"
      else fmt_minutes (fe_end_minutes fe))
     (fe_end_minutes fe - fe_start_minutes fe)
     None (Some (fe_id fe))).

Definition task_name_of (tasks : list Task) (task_id : UUID) : pystr :=
  match find (fun t => pystr_eqb (str_of_uuid (id t)) (str_of_uuid task_id)) tasks with
  | Some t => title t
  | None => str "Task"
  end.

Definition task_block (tasks : list Task) (info : ScheduledTaskInfo) : block :=
  ((minutes_of (sti_start_time info), minutes_of (sti_end_time info)),
   mk_item (str "task")
     (task_name_of tasks (sti_task_id info))
     (strftime_HM (sti_start_time info))
     (strftime_HM (sti_end_time info))
     (minutes_of (sti_end_time info) - minutes_of (sti_start_time info))
     (Some (str_of_uuid (sti_task_id info))) None).

Definition plain_block (type name : string) (start duration : Z) : block :=
  ((start, start + duration),
   mk_item (str type) (str name) (fmt_minutes start)
     (fmt_minutes (start + duration)) duration None None).

Definition get_or {A} (o : option A) (dflt : A) : A :=
  match o with
  | Some a => a
  | None => dflt
  end.

(** [time_to_total_minutes(time.fromisoformat(s))] with the fallback of
    the [except ValueError] branch. *)
Definition meal_minutes (s : pystr) (dflt : Z) : Z :=
  match fromisoformat s with
  | Returned t => minutes_of t
  | Raised _ => dflt
  end.

(** The scan for meals already present as fixed events. *)
Definition meal_flags_step (flags : bool * bool * bool) (b : block)
  : bool * bool * bool :=
  let '(has_breakfast, has_lunch, has_dinner) := flags in
  if pystr_eqb (it_type (block_meta b)) (str "fixed_event") then
    let event_name := lower (it_name (block_meta b)) in
    if contains event_name (str "breakfast") || contains event_name (str "śniadanie")
    then (true, has_lunch, has_dinner)
    else if contains event_name (str "lunch") || contains event_name (str "obiad")
    then (has_breakfast, true, has_dinner)
    else if contains event_name (str "dinner") || contains event_name (str "kolacja")
    then (has_breakfast, has_lunch, true)
    else flags
  else flags.

(** [target_date.strftime("%a").lower()] in the C locale. *)
Definition weekday_abbr (d : date) : pystr :=
  nth (Z.to_nat ((d + 6) mod 7))
      [str "mon"; str "tue"; str "wed"; str "thu"; str "fri"; str "sat"; str "sun"]
      [].

Definition pt_has (pt : preferred_time_value) (word : string) : bool :=
  match pt with
  | PtStr s => contains s (str word)
  | PtList l => mem_str (str word) l
  end.

Definition activity_blocks (weekday : pystr)
    (wake_time_minutes morning_routine_duration evening_routine_start : Z)
    (activity : ActivityGoal) : list block :=
  let activity_name := get_or (ag_name activity) (str "Activity") in
  let activity_duration := get_or (ag_duration_minutes activity) 60 in
  let activity_frequency := lower (get_or (ag_frequency activity) (str "daily")) in
  let preferred_times := get_or (ag_preferred_time activity) (PtList [str "evening"]) in
  let should_schedule :=
    pystr_eqb activity_frequency (str "daily")
    || mem_str weekday (split_comma activity_frequency)
    || startswith activity_frequency (firstn 3 weekday) in
  if should_schedule then
    let activity_start :=
      if pt_has preferred_times "morning"
      then wake_time_minutes + morning_routine_duration + 30
      else if pt_has preferred_times "evening" then 1080
      else if pt_has preferred_times "afternoon" then 900
      else if pt_has preferred_times "before_sleep"
      then evening_routine_start - activity_duration - 30
      else 1080 in
    [((activity_start, activity_start + activity_duration),
      mk_item (str "activity") activity_name (fmt_minutes activity_start)
        (fmt_minutes (activity_start + activity_duration)) activity_duration
        None None)]
  else [].

Definition priority_order (type : pystr) : Z :=
  if pystr_eqb type (str "fixed_event") then 5
  else if pystr_eqb type (str "task") then 4
  else if pystr_eqb type (str "meal") then 3
  else if pystr_eqb type (str "routine") then 2
  else if pystr_eqb type (str "activity") then 1
  else 0.

Definition overlaps (a b : block) : bool :=
  Z.max (block_start a) (block_start b) <? Z.min (block_end a) (block_end b).

(** One iteration of the conflict loop: the first kept block that
    overlaps [b] is replaced when [b] has the higher priority, and [b] is
    appended when nothing overlaps. *)
Fixpoint place (b : block) (non_overlapping_blocks : list block) : list block :=
  match non_overlapping_blocks with
  | [] => [b]
  | existing :: r =>
      if overlaps b existing then
        if priority_order (it_type (block_meta existing))
           <? priority_order (it_type (block_meta b))
        then b :: r else existing :: r
      else existing :: place b r
  end.

Definition resolve_conflicts (blocks : list block) : list block :=
  fold_left (fun acc b => place b acc) blocks [].

Definition gap_item (prev_end start : Z) : item :=
  let gap_duration := start - prev_end in
  let '(break_name, break_type) :=
    if 120 <=? gap_duration then ("Free Time"%string, "free_time"%string)
    else if 45 <=? gap_duration then ("Relaxation"%string, "relaxation"%string)
    else if 15 <=? gap_duration then ("Short Break"%string, "short_break"%string)
    else ("Quick Break"%string, "quick_break"%string) in
  mk_item (str break_type) (str break_name) (fmt_minutes prev_end)
    (fmt_minutes start) gap_duration None None.

Definition fill_step (st : list item * Z) (b : block) : list item * Z :=
  let (final, prev_end) := st in
  let final :=
    if prev_end <? block_start b
    then final ++ [gap_item prev_end (block_start b)] else final in
  (final ++ [block_meta b], Z.max prev_end (block_end b)).

Definition trailing_item (prev_end : Z) : item :=
  let gap_duration := 1440 - prev_end in
  let '(break_name, break_type) :=
    if gap_duration <=? 30 then ("Quick Break"%string, "quick_break"%string)
    else ("Free Time"%string, "free_time"%string) in
  mk_item (str break_type) (str break_name) (fmt_minutes prev_end)
    (str "24:00") gap_duration None None.

Definition fill_gaps (non_overlapping_blocks : list block) : list item :=
  let (final, prev_end) := fold_left fill_step non_overlapping_blocks ([], 0) in
  if prev_end <? 1440 then final ++ [trailing_item prev_end] else final.

(** The first half of [_process_core_schedule]: every block put forward,
    before the last sort and the conflict loop. *)
Definition candidate_blocks (self : Scheduler)
    (core_schedule : list ScheduledTaskInfo) (input_data : ScheduleInputData)
    (sleep_metrics : SleepMetrics) : outcome (list block) :=
  bind (prepare_profile self input_data) (fun profile =>
  let solver_in := prepare_solver_input self input_data profile sleep_metrics in
  let blocks :=
    match solver_in with
    | Some si => map fixed_event_block (si_fixed_events si)
    | None => []
    end in
  let blocks := blocks ++ map (task_block (in_tasks input_data)) core_schedule in
  let blocks := sort_blocks blocks in
  let prefs := in_preferences input_data in
  let meal_prefs := get_or (meals prefs) no_meal_prefs in
  let breakfast_duration := get_or (breakfast_duration_minutes meal_prefs) 20 in
  let lunch_duration := get_or (lunch_duration_minutes meal_prefs) 45 in
  let dinner_duration := get_or (dinner_duration_minutes meal_prefs) 30 in
  let routine_prefs := get_or (routines prefs) no_routine_prefs in
  let morning_routine_duration := get_or (morning_duration_minutes routine_prefs) 30 in
  let evening_routine_duration := get_or (evening_duration_minutes routine_prefs) 45 in
  let breakfast_minutes :=
    meal_minutes (get_or (breakfast_time meal_prefs) (str "07:30")) 450 in
  let lunch_minutes :=
    meal_minutes (get_or (lunch_time meal_prefs) (str "12:30")) 750 in
  let dinner_minutes :=
    meal_minutes (get_or (dinner_time meal_prefs) (str "19:00")) 1140 in
  let wake_time_minutes := minutes_of (ideal_wake_time sleep_metrics) in
  let bedtime_minutes := minutes_of (ideal_bedtime sleep_metrics) in
  let morning_routine_start := wake_time_minutes in
  let evening_routine_start := Z.max 0 (bedtime_minutes - evening_routine_duration) in
  let evening_routine_end := bedtime_minutes in
  let blocks := blocks ++
    [plain_block "routine" "Morning Routine" morning_routine_start
       morning_routine_duration;
     ((evening_routine_start, evening_routine_end),
      mk_item (str "routine") (str "Evening Routine")
        (fmt_minutes evening_routine_start) (fmt_minutes evening_routine_end)
        evening_routine_duration None None)] in
  let '(has_breakfast, has_lunch, has_dinner) :=
    fold_left meal_flags_step blocks (false, false, false) in
  let blocks := blocks ++
    (if has_breakfast then []
     else [plain_block "meal" "Breakfast" breakfast_minutes breakfast_duration]) in
  let blocks := blocks ++
    (if has_lunch then []
     else [plain_block "meal" "Lunch" lunch_minutes lunch_duration]) in
  let blocks := blocks ++
    (if has_dinner then []
     else [plain_block "meal" "Dinner" dinner_minutes dinner_duration]) in
  let weekday := weekday_abbr (in_target_date input_data) in
  Returned (blocks ++
    flat_map (activity_blocks weekday wake_time_minutes morning_routine_duration
                evening_routine_start) (activity_goals prefs))).

Definition process_core_schedule (self : Scheduler)
    (core_schedule : list ScheduledTaskInfo) (input_data : ScheduleInputData)
    (sleep_metrics : SleepMetrics) : outcome (list item) :=
  bind (candidate_blocks self core_schedule input_data sleep_metrics) (fun blocks =>
  let blocks := sort_blocks blocks in
  let non_overlapping_blocks := sort_blocks (resolve_conflicts blocks) in
  Returned (fill_gaps non_overlapping_blocks)).

(** ** [_calculate_metrics] *)

Definition sum_durations (p : item -> bool) (items : list item) : Z :=
  fold_right (fun i acc => it_duration_minutes i + acc) 0 (filter p items).

Definition type_is (t : string) (i : item) : bool := pystr_eqb (it_type i) (str t).

(** A Python [set] of strings, as a duplicate-free list. *)
Fixpoint to_set (l : list pystr) : list pystr :=
  match l with
  | [] => []
  | x :: r => if mem_str x r then to_set r else x :: to_set r
  end.

(** [round(x, 1)] *)
Definition round1 (x : Q) : Q := (inject_Z (round (x * 10)) / 10)%Q.

Definition calculate_metrics (items : list item) (tasks : list Task) : Metrics :=
  let total_task := sum_durations (type_is "task") items in
  let total_break :=
    sum_durations (fun i => type_is "break" i || type_is "quick_break" i
                            || type_is "short_break" i || type_is "relaxation" i
                            || type_is "free_time" i) items in
  let total_fixed := sum_durations (type_is "fixed_event") items in
  let total_sleep :=
    sum_durations (fun i => type_is "fixed_event" i
                            && contains (get_or (it_event_id i) []) (str "sleep"))
                  items in
  let total_meal := sum_durations (type_is "meal") items in
  let total_routine := sum_durations (type_is "routine") items in
  let total_activity := sum_durations (type_is "activity") items in
  (* [i.get("task_id")] may be [None]; the set holds it as one more element *)
  let task_ids := map it_task_id (filter (type_is "task") items) in
  let scheduled_ids := to_set (flat_map (fun o => match o with
                                                  | Some s => [s]
                                                  | None => []
                                                  end) task_ids) in
  let n_scheduled :=
    Z.of_nat (List.length scheduled_ids)
    + (if existsb (fun o => match o with None => true | Some _ => false end) task_ids
       then 1 else 0) in
  let original_ids :=
    to_set (map (fun t => str_of_uuid (id t))
                (filter (fun t => negb (completed t)) tasks)) in
  let unsch :=
    Z.of_nat (List.length (filter (fun x => negb (mem_str x scheduled_ids))
                                  original_ids)) in
  let total_productive := total_task + total_activity in
  let total_personal := total_meal + total_routine in
  let total_rest := total_break + total_sleep in
  MetricsComputed
    (mk_MetricValues total_task total_break total_fixed total_sleep total_meal
       total_routine total_activity total_productive total_personal total_rest
       unsch
       (match original_ids with
        | [] => 100%Q
        | _ => (inject_Z n_scheduled
                / inject_Z (Z.of_nat (List.length original_ids)) * 100)%Q
        end)
       (round1 (inject_Z total_personal
                / inject_Z (Z.max 1 total_productive) * 100)%Q)).

(** ** [_create_empty] *)

Definition create_empty (input_data : ScheduleInputData) (warnings : list pystr)
    (error_msg : pystr) : GeneratedSchedule :=
  mk_GeneratedSchedule (in_user_id input_data) (in_target_date input_data)
    [] (MetricsStatus (str "failed")) (Some error_msg) (warnings ++ [error_msg]).

(** ** [generate_schedule] *)

Definition generate_schedule_body (self : Scheduler) (input_data : ScheduleInputData)
  : outcome GeneratedSchedule :=
  let warnings : list pystr := [] in
  bind (prepare_profile self input_data) (fun profile =>
  let sleep_metrics := calculate_sleep self profile input_data in
  match prepare_solver_input self input_data profile sleep_metrics with
  | None =>
      Returned (create_empty input_data warnings
                  (str "Błąd przygotowania danych dla solvera."))
  | Some solver_input =>
      match fst (solve (engine self) (solver_config self) solver_input) with
      | None =>
          Returned (create_empty input_data
                      (warnings ++ [str "Brak możliwego harmonogramu core."])
                      (str "Constraint solver nie powiódł się."))
      | Some core_schedule =>
          match (if use_llm_refinement self then llm_engine self else None) with
          | Some llm =>
              bind (llm core_schedule input_data) (fun llm_output =>
              Returned (mk_GeneratedSchedule (in_user_id input_data)
                          (in_target_date input_data)
                          (llm_schedule llm_output)
                          (MetricsExternal (llm_metrics_status llm_output))
                          None warnings))
          | None =>
              bind (process_core_schedule self core_schedule input_data sleep_metrics)
                (fun final_items =>
              Returned (mk_GeneratedSchedule (in_user_id input_data)
                          (in_target_date input_data)
                          final_items
                          (calculate_metrics final_items (in_tasks input_data))
                          None warnings))
          end
      end
  end).

Definition generate_schedule (self : Scheduler) (input_data : ScheduleInputData)
  : outcome GeneratedSchedule :=
  try_except (generate_schedule_body self input_data)
    (fun e => Returned (create_empty input_data []
                          (str "Błąd wewnętrzny: " ++ exn_msg e))).

(** An item as a row of the printed schedule. *)
Definition shown (i : item) : string * string * string * string * Z :=
  (string_of_list_ascii (it_type i), string_of_list_ascii (it_name i),
   string_of_list_ascii (it_start_time i), string_of_list_ascii (it_end_time i),
   it_duration_minutes i).

(** ** Reading an item back as an interval of the day *)

(** Minutes of a displayed ["HH:MM"], with ["24:00"] for the end of the day. *)
Definition hhmm_minutes (s : pystr) : option Z :=
  match s with
  | [h1; h2; c; m1; m2] =>
      if is_digit h1 && is_digit h2 && Ascii.eqb c ":"%char
         && is_digit m1 && is_digit m2
      then Some ((10 * digit_val h1 + digit_val h2) * 60
                 + 10 * digit_val m1 + digit_val m2)
      else None
  | _ => None
  end.

Definition item_start (i : item) : option Z := hhmm_minutes (it_start_time i).
Definition item_end (i : item) : option Z := hhmm_minutes (it_end_time i).

(** Each item starts where the previous one ended, from [from] on, and the
    last one ends at [upto]. *)
Fixpoint chains (from upto : Z) (items : list item) : bool :=
  match items with
  | [] => from =? upto
  | i :: r =>
      match item_start i, item_end i with
      | Some s, Some e => (s =? from) && chains e upto r
      | _, _ => false
      end
  end.

Definition sort_items_by_start (items : list item) : list item :=
  Sorting.sort (fun a b => get_or (item_start a) 0 <=? get_or (item_start b) 0) items.

(** A block that lies inside the day and has a positive length. *)
Definition inside_day (b : block) : Prop :=
  0 <= block_start b /\ block_start b < block_end b /\ block_end b <= 1440.

(** A block whose item displays the block's own bounds. *)
Definition display_ok (b : block) : Prop :=
  item_start (block_meta b) = Some (block_start b) /\
  item_end (block_meta b) = Some (block_end b).

(** No two blocks of the list overlap. *)
Fixpoint pairwise_apart (l : list block) : Prop :=
  match l with
  | [] => True
  | x :: r => Forall (fun y => overlaps x y = false) r /\ pairwise_apart r
  end.

(** Blocks in start order. *)
Fixpoint start_ordered (l : list block) : Prop :=
  match l with
  | [] => True
  | x :: r => Forall (fun y => block_start x <= block_start y) r /\ start_ordered r
  end.

(** Blocks that follow one another from [prev] on without overlap. *)
Fixpoint in_sequence (prev : Z) (l : list block) : Prop :=
  match l with
  | [] => True
  | b :: r =>
      prev <= block_start b /\ inside_day b /\ display_ok b /\
      in_sequence (block_end b) r
  end.

(** Items of positive length, each starting where the previous one ended. *)
Fixpoint strict_chain (from upto : Z) (items : list item) : Prop :=
  match items with
  | [] => from = upto
  | i :: r =>
      exists e, item_start i = Some from /\ item_end i = Some e /\ from < e /\
                strict_chain e upto r
  end.

(** The key of the sort by start. *)
Definition start_leb (a b : block) : bool := block_start a <=? block_start b.

(** The coverage property: sorted by start, the items tile [0, 1440]. *)
Definition tiles_day (items : list item) : bool :=
  match items with
  | [] => false
  | _ => chains 0 1440 (sort_items_by_start items)
  end.

End Orchestrator.

(* ------------------------------------------------------------------ *)
(** * Concrete inputs used by the examples *)
(* ------------------------------------------------------------------ *)

Module Scenarios.
Import Py TimeUtils Clock ChronotypeM Sleep TaskPrioritizer ConstraintSolver Orchestrator.

(** A scheduler with the default configuration of every component, the
    deterministic gap filler (no LLM pass) and a given CP-SAT engine. *)
Definition default_scheduler (engine : Engine) : Scheduler :=
  mk_Scheduler DEFAULT_SLEEP_CONFIG DEFAULT_CHRONOTYPE_CONFIG flat_energy_pattern
    default_solver_config engine None true.

(** An engine that proves every model infeasible. *)
Definition refusing_engine : Engine := fun _ _ => (INFEASIBLE, fun _ => 0).

(** Thursday 2025-01-02. *)
Definition target_date : date := 739253.

Definition adult_profile : option UserProfileData :=
  Some (mk_UserProfileData (Some 30) (Some 55)).

Definition wake_at (hhmm : string) (m : option MealPrefs) : Preferences :=
  mk_Preferences (Some (str hhmm)) (Some 50%Q) (Some 50%Q) m None [].

(** Scenario S1 of the specification: no task, a fixed lunch. *)
Definition s1_input : ScheduleInputData :=
  mk_ScheduleInputData 1 target_date []
    [mk_FixedEventInput (str "lunch") (str "12:30") (str "13:15")]
    (wake_at "07:00" None) adult_profile.

(** Wake at 09:30 (so the night's sleep is 01:30-09:30) and dinner asked
    for 23:45, with the default 30 minutes. *)
Definition late_dinner_input : ScheduleInputData :=
  mk_ScheduleInputData 1 target_date [] []
    (wake_at "09:30"
       (Some (mk_MealPrefs None None None None (Some (str "23:45")) None)))
    adult_profile.


Definition plain_task : Task :=
  mk_Task (str "Email") 9 MEDIUM E_LOW
    (DurTimedelta (timedelta_minutes 30)) None None [] false.


(** Scenario S2: a two-hour task due at 01:00 of the target day, next to
    an ordinary task. *)
Definition s2_task : Task :=
  mk_Task (str "Overdue") 8 HIGH E_MEDIUM
    (DurTimedelta (timedelta_minutes 120))
    (Some (mk_datetime (target_date * us_per_day + 60 * us_per_minute) true))
    None [] false.

Definition s2_input : ScheduleInputData :=
  mk_ScheduleInputData 1 target_date [plain_task; s2_task] []
    (wake_at "07:00" None) adult_profile.

(** The solver input the orchestrator builds for [s2_input]. *)
Definition s2_solver_input : SolverInput :=
  mk_SolverInput target_date
    [mk_SolverTask 9 30 3 1 None None [];
     mk_SolverTask 8 120 4 2 None (Some 60) []]
    [mk_FixedEventInterval (str "sleep_prev") 1380 1440;
     mk_FixedEventInterval (str "sleep_next") 0 420]
    0 1440 flat_energy_pattern.

(** An engine that places every task at 07:00-07:30, the best placement
    of [plain_task] on that day. *)
Definition s2_assignment : assignment :=
  fun v => match v with
           | VStart _ => 420
           | VEnd _ => 450
           | VStartHour _ => 7
           | VEnergyScore _ => 83
           end.

Definition s2_engine : Engine := fun _ _ => (OPTIMAL, s2_assignment).

(** A one-hour task that may not start before 23:00, on a day whose
    sleep is 01:30-09:30.  Its only feasible placement is 23:00-24:00. *)
Definition late_task : Task :=
  mk_Task (str "Backup") 7 HIGH E_MEDIUM
    (DurTimedelta (timedelta_minutes 60)) None
    (Some (EsTime (time_hm 23 0))) [] false.

Definition late_task_input : ScheduleInputData :=
  mk_ScheduleInputData 1 target_date [late_task] []
    (wake_at "09:30" None) adult_profile.

Definition late_task_assignment : assignment :=
  fun v => match v with
           | VStart _ => 1380
           | VEnd _ => 1440
           | VStartHour _ => 23
           | VEnergyScore _ => 83
           end.

(** An engine that answers [late_task_assignment]. *)
Definition late_task_engine : Engine := fun _ _ => (OPTIMAL, late_task_assignment).


(** Scenario S5: one fixed event covers the day, and a task is asked for. *)
Definition blocked_day_input : ScheduleInputData :=
  mk_ScheduleInputData 1 target_date [plain_task]
    [mk_FixedEventInput (str "offsite") (str "00:00") (str "00:00")]
    (wake_at "07:00" None) adult_profile.

(** The seven nights of the module's own example, 22:05-05:35 UTC and the
    like, as microseconds from the start of the first evening's day. *)
Definition night (day start_min end_min : Z) : datetime * datetime :=
  (mk_datetime (day * us_per_day + start_min * us_per_minute) true,
   mk_datetime ((day + 1) * us_per_day + end_min * us_per_minute) true).

Definition sleep_data_early : list (datetime * datetime) :=
  [night 0 1325 335; night 1 1335 345; night 2 1315 325; night 3 1330 340;
   night 4 1320 330; night 5 1310 320; night 6 1325 335].

(** UTC+2. *)
Definition warsaw_summer : tzinfo := fun _ => 2 * us_per_hour.

End Scenarios.

(* ------------------------------------------------------------------ *)
(** * time_utils.py: times of day *)
(* ------------------------------------------------------------------ *)

Module TimeCalc.
Import Py TimeUtils Clock.

(** ** [calculate_end_time]

    [datetime.combine(date(2000, 1, 1), start_time) + duration], of which
    the time of day is kept.  The sum raises [OverflowError] when its date
    leaves the years 1..9999; the [except] turns that into [None]. *)
Definition ref_date_ordinal : Z := 730120.   (* date(2000, 1, 1).toordinal() *)
Definition max_date_ordinal : Z := 3652059.  (* date.max.toordinal() *)

Definition calculate_end_time (start_time : option time)
    (duration : option timedelta) : option time :=
  match start_time, duration with
  | Some start_time, Some duration =>
      let end_us := us_of_time start_time + total_microseconds duration in
      let end_ordinal := ref_date_ordinal + end_us / us_per_day in
      if (1 <=? end_ordinal) && (end_ordinal <=? max_date_ordinal)
      then Some (time_of_us end_us)
      else None
  | _, _ => None
  end.

(** ** [parse_time_string] and [format_time_object], with [fmt] left at
    its default ["%H:%M"]

    [datetime.strptime] turns the format into the regular expression
    [(?P<H>2[0-3]|[0-1]\d|\d):(?P<M>[0-5]\d|\d)], matches it at the start
    of the text and raises [ValueError] when the match fails or leaves
    text unread. *)

Definition digit_in (c : ascii) (lo hi : Z) : bool :=
  is_digit c && (lo <=? digit_val c) && (digit_val c <=? hi).

(** The ways [%H] can match at the head of [s], in the order tried. *)
Definition alternatives_H (s : pystr) : list (Z * pystr) :=
  (match s with
   | a :: b :: r =>
       if Ascii.eqb a "2"%char && digit_in b 0 3
       then [(20 + digit_val b, r)] else []
   | _ => []
   end) ++
  (match s with
   | a :: b :: r =>
       if digit_in a 0 1 && is_digit b
       then [(10 * digit_val a + digit_val b, r)] else []
   | _ => []
   end) ++
  (match s with
   | a :: r => if is_digit a then [(digit_val a, r)] else []
   | [] => []
   end).

(** The ways [%M] can match at the head of [s], in the order tried. *)
Definition alternatives_M (s : pystr) : list (Z * pystr) :=
  (match s with
   | a :: b :: r =>
       if digit_in a 0 5 && is_digit b
       then [(10 * digit_val a + digit_val b, r)] else []
   | _ => []
   end) ++
  (match s with
   | a :: r => if is_digit a then [(digit_val a, r)] else []
   | [] => []
   end).

(** First success of a backtracking search. *)
Fixpoint first_success {A B} (f : A -> option B) (l : list A) : option B :=
  match l with
  | [] => None
  | x :: r => match f x with
              | Some y => Some y
              | None => first_success f r
              end
  end.

(** [format_regex.match(s)]: the two groups and the unread rest. *)
Definition match_HM (s : pystr) : option (Z * Z * pystr) :=
  first_success
    (fun hr : Z * pystr =>
       match snd hr with
       | c :: r =>
           if Ascii.eqb c ":"%char
           then first_success (fun mr : Z * pystr => Some (fst hr, fst mr, snd mr))
                  (alternatives_M r)
           else None
       | [] => None
       end)
    (alternatives_H s).

(** [datetime.strptime(s, "%H:%M").time()], [None] for [ValueError]. *)
Definition strptime_HM (s : pystr) : option time :=
  match match_HM s with
  | Some (h, m, []) => Some (time_hm h m)
  | _ => None
  end.

Definition parse_time_string (time_str : option pystr) : option time :=
  match time_str with
  | None => None
  | Some s => strptime_HM (strip s)
  end.

Definition format_time_object (time_obj : option time) : pystr :=
  match time_obj with
  | None => str "N/A"
  | Some t => strftime_HM t
  end.

End TimeCalc.

(* ------------------------------------------------------------------ *)
(** * constraint_solver.py: the returned schedule *)
(* ------------------------------------------------------------------ *)

Module SolverSchedule.
Import Py TimeUtils ConstraintSolver.

(** ** Reading a returned schedule *)

(** The model [solve] hands to the engine. *)
Definition solver_model (cfg : SolverConfig) (solver_input : SolverInput) : CpModel :=
  fst (build_model cfg solver_input
         (create_all_vars (si_day_start_minutes solver_input)
            (si_day_end_minutes solver_input) 0 (si_tasks solver_input)
            (mk_var_state [] [] []))).

(** The engine's answer to that model. *)
Definition solver_answer (engine : Engine) (cfg : SolverConfig)
    (solver_input : SolverInput) : CpStatus * assignment :=
  engine (solver_model cfg solver_input) (solver_time_limit_seconds cfg).

(** The minutes of the day a placement occupies.  [total_minutes_to_time]
    writes minute 1440 as 00:00, so an end time of 00:00 is the end of
    the day. *)
Definition sti_span (x : ScheduledTaskInfo) : Z * Z :=
  (minutes_of (sti_start_time x),
   if minutes_of (sti_end_time x) =? 0 then 1440 else minutes_of (sti_end_time x)).

(** Intervals of positive length, each ending before every later one
    starts. *)
Fixpoint sequenced (l : list (Z * Z)) : Prop :=
  match l with
  | [] => True
  | x :: r => fst x < snd x /\ Forall (fun y => snd x <= fst y) r /\ sequenced r
  end.

(** The part of a fixed event inside the solver's day. *)
Definition clipped (solver_input : SolverInput) (event : FixedEventInterval) : Z * Z :=
  (Z.max (si_day_start_minutes solver_input) (fe_start_minutes event),
   Z.min (si_day_end_minutes solver_input) (fe_end_minutes event)).

(** One entry of the schedule, as the loop over [task_intervals] builds it. *)
Definition placement_of (target_date : date) (a : assignment) (entry : UUID * nat)
  : ScheduledTaskInfo :=
  let (task_id, n) := entry in
  mk_ScheduledTaskInfo task_id (time_of_minutes (a (VStart n)))
    (time_of_minutes (a (VEnd n))) target_date.

(** The sort key of [datetime.time]: microseconds since midnight. *)
Definition time_key (t : time) : Z :=
  ((hour t * 60 + minute t) * 60 + second t) * 1000000 + microsecond t.

(** A list in ascending order of a key. *)
Fixpoint key_ordered {A} (key : A -> Z) (l : list A) : Prop :=
  match l with
  | [] => True
  | x :: r => Forall (fun y => key x <= key y) r /\ key_ordered key r
  end.

(** Bounds of the window a task leaves to its start and end. *)
Definition lo_start (day_start : Z) (t : SolverTask) : Z :=
  Z.max day_start (or_default (st_earliest_start_minutes t) 0).
Definition hi_end (horizon : Z) (t : SolverTask) : Z :=
  Z.min horizon (or_default (st_latest_end_minutes t) horizon).

(** Every variable-bearing entry [(id, k)] stands for the task at
    position [k] of [all], whose three constraints are in the model. *)
Definition vars_declared (day_start horizon : Z) (all : list SolverTask)
    (s : var_state) : Prop :=
  forall id k, In (id, k) (vs_task_vars s) ->
    exists t, nth_error all k = Some t /\ st_id t = id /\
      In (NewIntVar (VStart k) (lo_start day_start t)
            (hi_end horizon t - st_duration_minutes t))
         (vs_constraints s) /\
      In (NewIntVar (VEnd k) (lo_start day_start t + st_duration_minutes t)
            (hi_end horizon t))
         (vs_constraints s) /\
      In (NewIntervalVar k (st_duration_minutes t)) (vs_constraints s).

(** Two tasks, the second depending on the first, after a night that
    ends at 07:00; and an answer that places them back to back. *)
Definition chained_solver_input : SolverInput :=
  mk_SolverInput 739253
    [mk_SolverTask 1 30 3 2 None None [];
     mk_SolverTask 2 60 4 2 None None [1]]
    [mk_FixedEventInterval (str "sleep") 0 420]
    0 1440 [].

Definition chained_assignment : assignment :=
  fun v => match v with
           | VStart O => 420
           | VEnd O => 450
           | VStart _ => 450
           | VEnd _ => 510
           | VStartHour _ => 7
           | VEnergyScore _ => 83
           end.

Definition chained_engine : Engine := fun _ _ => (FEASIBLE, chained_assignment).

End SolverSchedule.

(* ------------------------------------------------------------------ *)
(** * chronotype.py: sleep records *)
(* ------------------------------------------------------------------ *)

Module SleepRecords.
Import Py TimeUtils Clock ChronotypeM.

(** A record that passes the filters of the loop over [sleep_records]:
    both ends timezone-aware, the end after the start, and a duration of
    three to fourteen hours. *)
Definition usable_night (rec : datetime * datetime) : bool :=
  let (sleep_start, sleep_end) := rec in
  dt_aware sleep_start && dt_aware sleep_end &&
  (dt_us sleep_start <? dt_us sleep_end) &&
  (3 * us_per_hour <=? dt_us sleep_end - dt_us sleep_start) &&
  (dt_us sleep_end - dt_us sleep_start <=? 14 * us_per_hour).

(** A record with one naive and one aware end. *)
Definition mixed_awareness (rec : datetime * datetime) : bool :=
  negb (Bool.eqb (dt_aware (snd rec)) (dt_aware (fst rec))).

End SleepRecords.

(* ------------------------------------------------------------------ *)
(** * chronotype.py: focus blocks *)
(* ------------------------------------------------------------------ *)

Module FocusBlocks.
Import Py TimeUtils Clock ChronotypeM.

(** ** [get_optimal_focus_blocks]

    The datetimes of this function are all aware, in UTC; one is written
    as its microseconds since the start of ordinal day 0. *)

Definition min_datetime_us : Z := us_per_day.                 (* 0001-01-01 00:00 *)
Definition max_datetime_us : Z := 3652060 * us_per_day - 1.   (* 9999-12-31 23:59:59.999999 *)

(** [dt + td]: [OverflowError] when the date leaves the years 1..9999. *)
Definition datetime_add (dt td : Z) : outcome Z :=
  let r := dt + td in
  if (min_datetime_us <=? r) && (r <=? max_datetime_us) then Returned r
  else raise OverflowError "date value out of range".

(** [timedelta(minutes=m)] for an integer [m]: [OverflowError] beyond
    999999999 days. *)
Definition timedelta_of_minutes (m : Z) : outcome Z :=
  let us := m * us_per_minute in
  if (-999999999 * us_per_day <=? us) && (us <? 1000000000 * us_per_day)
  then Returned us
  else raise OverflowError "days out of range".

(** [datetime.combine(target_date, t, tzinfo=timezone.utc)] *)
Definition combine (target_date : Z) (t : time) : Z :=
  target_date * us_per_day + us_of_time t.

(** The loop that turns [preferred_hours] into ranges of the day. *)
Fixpoint ranges_today (target_date : Z) (preferred_hours : list (time * time))
  : outcome (list (Z * Z)) :=
  match preferred_hours with
  | [] => Returned []
  | (start_t, end_t) :: rest =>
      let start_dt := combine target_date start_t in
      let end_dt := combine target_date end_t in
      bind (if end_dt <=? start_dt then datetime_add end_dt us_per_day
            else Returned end_dt) (fun end_dt =>
      bind (ranges_today target_date rest) (fun ranges =>
      Returned ((start_dt, end_dt) :: ranges)))
  end.

(** Order of tuples of two datetimes. *)
Definition pair_leb (a b : Z * Z) : bool :=
  (fst a <? fst b) || ((fst a =? fst b) && (snd a <=? snd b)).

(** The [while] loop over one range; [remaining] is
    [max_blocks - len(focus_blocks)] at its entry. *)
Fixpoint blocks_in_range (remaining : nat) (block_duration min_break_td : Z)
    (range_end current_block_start : Z) : outcome (list (Z * Z)) :=
  match remaining with
  | O => Returned []
  | S k =>
      bind (datetime_add current_block_start block_duration) (fun current_block_end =>
      if current_block_end <=? range_end then
        bind (datetime_add current_block_end min_break_td) (fun next_start =>
        bind (blocks_in_range k block_duration min_break_td range_end next_start)
          (fun rest =>
        Returned ((current_block_start, current_block_end) :: rest)))
      else Returned [])
  end.

(** The [for] loop over the sorted ranges. *)
Fixpoint over_ranges (max_blocks block_duration min_break_td : Z)
    (ranges focus_blocks : list (Z * Z)) : outcome (list (Z * Z)) :=
  match ranges with
  | [] => Returned focus_blocks
  | (range_start, range_end) :: rest =>
      bind (blocks_in_range
              (Z.to_nat (max_blocks - Z.of_nat (List.length focus_blocks)))
              block_duration min_break_td range_end range_start) (fun added =>
      let focus_blocks := focus_blocks ++ added in
      if max_blocks <=? Z.of_nat (List.length focus_blocks)
      then Returned focus_blocks
      else over_ranges max_blocks block_duration min_break_td rest focus_blocks)
  end.

(** [l[:n]] *)
Definition slice_to {A} (n : Z) (l : list A) : list A :=
  if 0 <=? n then firstn (Z.to_nat n) l
  else firstn (List.length l - Z.to_nat (- n)) l.

(** [min_focus_block_break_minutes] is the analyzer's configured break;
    [min_blocks] is only used in a log message. *)
Definition get_optimal_focus_blocks (min_focus_block_break_minutes : Z)
    (profile : ChronotypeProfile) (target_date : Z) (block_duration : timedelta)
    (min_blocks max_blocks : Z) : outcome (list (Z * Z)) :=
  if total_microseconds block_duration <=? 0
  then raise ValueError "Block duration must be positive."
  else
    bind (timedelta_of_minutes min_focus_block_break_minutes) (fun min_break_td =>
    match preferred_productive_hours profile with
    | [] => Returned []
    | preferred_hours =>
        bind (ranges_today target_date preferred_hours)
          (fun preferred_ranges_today =>
        bind (over_ranges max_blocks (total_microseconds block_duration) min_break_td
                (Sorting.sort pair_leb preferred_ranges_today) []) (fun focus_blocks =>
        Returned (slice_to max_blocks (Sorting.sort pair_leb focus_blocks))))
    end).

(** The range of the day that one pair of preferred hours stands for. *)
Definition range_of (target_date : Z) (hours : time * time) : Z * Z :=
  let start_dt := combine target_date (fst hours) in
  let end_dt := combine target_date (snd hours) in
  (start_dt, if end_dt <=? start_dt then end_dt + us_per_day else end_dt).

(** A block of the given length inside one of the preferred ranges. *)
Definition fits_preferred_hours (target_date block_duration : Z)
    (preferred_hours : list (time * time)) (b : Z * Z) : Prop :=
  snd b = fst b + block_duration /\
  exists hours, In hours preferred_hours /\
    fst (range_of target_date hours) <= fst b /\
    snd b <= snd (range_of target_date hours).

End FocusBlocks.

(* ------------------------------------------------------------------ *)
(** * task_prioritizer.py: urgency and priority score *)
(* ------------------------------------------------------------------ *)

Module Prioritizing.
Import Py TimeUtils Clock ChronotypeM TaskPrioritizer.

(** ** [Task.time_urgency_factor]

    The method reads [self.deadline] and [self.created_at].  A naive
    deadline or reference time is taken as UTC; [created_at] is used as
    it is, so a naive one cannot be subtracted from the aware deadline. *)

(** [dt.replace(tzinfo=timezone.utc)] on a naive value, the value itself
    otherwise. *)
Definition assume_utc (dt : datetime) : datetime := mk_datetime (dt_us dt) true.

(** [a - b] on datetimes. *)
Definition datetime_sub (a b : datetime) : outcome timedelta :=
  if Bool.eqb (dt_aware a) (dt_aware b)
  then Returned (mk_timedelta (dt_us a - dt_us b))
  else raise TypeError "can't subtract offset-naive and offset-aware datetimes".

Definition time_urgency_factor (deadline : option datetime) (created_at : datetime)
    (current_datetime : datetime) : outcome Q :=
  match deadline with
  | None => Returned 0%Q
  | Some deadline =>
      let now := assume_utc current_datetime in
      let deadline_aware := assume_utc deadline in
      if dt_us deadline_aware <=? dt_us now then Returned 1%Q
      else
        bind (datetime_sub deadline_aware created_at) (fun total_lead_time =>
        if Qle_bool (total_seconds total_lead_time) 0 then Returned 1%Q
        else
          bind (datetime_sub now created_at) (fun time_since_creation =>
          let time_elapsed_ratio :=
            Qmax 0 (total_seconds time_since_creation
                    / total_seconds total_lead_time)%Q in
          let urgency := (time_elapsed_ratio * time_elapsed_ratio)%Q in
          Returned (Qmin 1 (Qmax 0 urgency))))
  end.

(** The value [time_urgency_factor] returns past its two early exits,
    from the microseconds since creation and the total lead time. *)
Definition urgency_of (since total : Z) : Q :=
  let r := Qmax 0 (total_seconds (mk_timedelta since)
                   / total_seconds (mk_timedelta total))%Q in
  Qmin 1 (Qmax 0 (r * r)).

(** ** [TaskPrioritizer._build_dependency_map] *)

(** [s.add(x)] on a set kept as a duplicate-free list. *)
Definition set_add (x : UUID) (s : list UUID) : list UUID :=
  if existsb (Z.eqb x) s then s else s ++ [x].

Definition add_dependent (task_id : UUID) (d : @Dict.t UUID (list UUID))
    (prereq_id : UUID) : @Dict.t UUID (list UUID) :=
  match Dict.get Z.eqb d prereq_id with
  | Some dependents => Dict.set Z.eqb d prereq_id (set_add task_id dependents)
  | None => d
  end.

Definition build_dependency_map (tasks : list Task) : @Dict.t UUID (list UUID) :=
  let prereq_to_dependents :=
    fold_left (fun d t => Dict.set Z.eqb d (id t) []) tasks [] in
  fold_left (fun d t => fold_left (add_dependent (id t)) (dependencies t) d)
    tasks prereq_to_dependents.

(** ** [TaskPrioritizer._calculate_priority_score] *)

Record PrioritizerConfig : Type := mk_PrioritizerConfig {
  weights : @Dict.t pystr Q;            (* read with [.get(key, 0.0)] *)
  dependency_max_scale : Z;
  postponed_max_scale : Z
}.

Definition DEFAULT_WEIGHTS : @Dict.t pystr Q :=
  [(str "priority", (50 # 100)%Q); (str "deadline", (35 # 100)%Q);
   (str "dependencies", (10 # 100)%Q); (str "postponed", (5 # 100)%Q)].

Definition default_prioritizer_config : PrioritizerConfig :=
  mk_PrioritizerConfig DEFAULT_WEIGHTS 5 5.

(** [postponed_count] and [created_at] are the attributes of the task
    that the orchestrator does not read. *)
Definition calculate_priority_score (cfg : PrioritizerConfig) (task : Task)
    (postponed_count : Z) (created_at : datetime) (current_datetime : datetime)
    (dependency_map : @Dict.t UUID (list UUID)) : outcome Q :=
  let max_prio_val := 5 in
  let priority_factor :=
    (inject_Z (TaskPriority_value (priority task)) / inject_Z max_prio_val)%Q in
  bind (time_urgency_factor (deadline task) created_at current_datetime)
    (fun deadline_factor =>
  let dependent_count :=
    Z.of_nat (List.length (Dict.get_default Z.eqb dependency_map (id task) [])) in
  let dependencies_factor :=
    Qmin 1 (inject_Z dependent_count
            / inject_Z (Z.max 1 (dependency_max_scale cfg)))%Q in
  let postponed_factor :=
    Qmin 1 (inject_Z postponed_count
            / inject_Z (Z.max 1 (postponed_max_scale cfg)))%Q in
  let score :=
    (Dict.get_default pystr_eqb (weights cfg) (str "priority") 0 * priority_factor
     + Dict.get_default pystr_eqb (weights cfg) (str "deadline") 0 * deadline_factor
     + Dict.get_default pystr_eqb (weights cfg) (str "dependencies") 0
       * dependencies_factor
     + Dict.get_default pystr_eqb (weights cfg) (str "postponed") 0
       * postponed_factor)%Q in
  Returned (Qmax 0 score)).

(** ** Energy patterns *)

(** A pattern whose hours are hours of the day and whose levels lie
    between 0 and 1. *)
Definition valid_pattern (pattern : @Dict.t Z Q) : Prop :=
  Forall (fun entry => 0 <= fst entry <= 23 /\ (0 <= snd entry <= 1)%Q) pattern.

(** [pattern.get(h, 0.5)] *)
Definition level (pattern : @Dict.t Z Q) (h : Z) : Q :=
  Dict.get_default Z.eqb pattern h (1 # 2)%Q.

End Prioritizing.

(* ------------------------------------------------------------------ *)
(** * scheduler.py: ranks and totals *)
(* ------------------------------------------------------------------ *)

Module Planning.
Import Py TimeUtils Clock ChronotypeM Sleep TaskPrioritizer ConstraintSolver Orchestrator.

(** The rank a block has in the conflict loop of [_process_core_schedule]. *)
Definition rank (b : block) : Z := priority_order (it_type (block_meta b)).

(** [sum(i["duration_minutes"] for i in items)] *)
Definition total_minutes (items : list item) : Z :=
  fold_right (fun i acc => it_duration_minutes i + acc) 0 items.

(** The [type] values that [_calculate_metrics] adds to one of its totals. *)
Definition break_type (i : item) : bool :=
  type_is "break" i || type_is "quick_break" i || type_is "short_break" i
  || type_is "relaxation" i || type_is "free_time" i.

Definition counted_type (i : item) : bool :=
  type_is "task" i || break_type i || type_is "fixed_event" i
  || type_is "meal" i || type_is "routine" i || type_is "activity" i.

(** A task, as the solver is given it, whose fields passed
    [SolverTask.__post_init__]. *)
Definition sound_task (st : SolverTask) : Prop :=
  0 < st_duration_minutes st /\
  match st_earliest_start_minutes st with Some es => 0 <= es | None => True end /\
  match st_latest_end_minutes st with Some le => le <= 1440 | None => True end /\
  match st_earliest_start_minutes st, st_latest_end_minutes st with
  | Some es, Some le => es + st_duration_minutes st <= le
  | _, _ => True
  end.

Definition sound_event (fe : FixedEventInterval) : Prop :=
  0 <= fe_start_minutes fe /\ fe_start_minutes fe < fe_end_minutes fe /\
  fe_end_minutes fe <= 1440.

(** An input without a user profile. *)
Definition anonymous_input : ScheduleInputData :=
  mk_ScheduleInputData 1 739253 [] []
    (mk_Preferences (Some (str "07:00")) None None None None []) None.

(** The profile [_prepare_profile] builds for a MEQ score of 55. *)
Definition intermediate_profile : ChronotypeProfile :=
  create_chronotype_profile DEFAULT_CHRONOTYPE_CONFIG 1 INTERMEDIATE (str "meq")
    None None (1 # 2)%Q 1%Q.

End Planning.

(* ------------------------------------------------------------------ *)
(** * sleep.py: wake times by sleep cycles *)
(* ------------------------------------------------------------------ *)

Module WakeTimes.
Import Py TimeUtils Clock FocusBlocks.

(** ** [suggest_wake_times_based_on_cycles]

    The two configuration values read by the function,
    [sleep_cycle_duration_minutes] and [sleep_onset_minutes], and the
    ordinal of [date.today()] are parameters.  The datetimes are naive and
    written as microseconds since the start of ordinal day 0. *)

(** [range(a, b)] *)
Definition range (a b : Z) : list Z :=
  map (fun k => a + Z.of_nat k) (seq 0 (Z.to_nat (b - a))).

(** Order of [datetime.time] values. *)
Definition time_leb (a b : time) : bool := us_of_time a <=? us_of_time b.

(** The loop over [num_cycles]. *)
Fixpoint wake_times_loop (sleep_cycle_duration_minutes sleep_start_dt : Z)
    (cycles : list Z) : outcome (list time) :=
  match cycles with
  | [] => Returned []
  | num_cycles :: rest =>
      bind (timedelta_of_minutes (num_cycles * sleep_cycle_duration_minutes))
        (fun total_sleep_duration =>
      bind (datetime_add sleep_start_dt total_sleep_duration) (fun wake_dt =>
      bind (wake_times_loop sleep_cycle_duration_minutes sleep_start_dt rest)
        (fun suggested_times =>
      Returned (time_of_us wake_dt :: suggested_times))))
  end.

Definition suggest_wake_times_based_on_cycles
    (sleep_cycle_duration_minutes sleep_onset_minutes : Z) (today : Z)
    (bedtime : time) (min_cycles max_cycles : Z) : outcome (list time) :=
  if negb ((1 <=? min_cycles) && (min_cycles <=? max_cycles) && (max_cycles <=? 10))
  then Returned []
  else
    let bedtime_dt := today * us_per_day + us_of_time bedtime in
    bind (timedelta_of_minutes sleep_onset_minutes) (fun onset =>
    bind (datetime_add bedtime_dt onset) (fun sleep_start_dt =>
    bind (wake_times_loop sleep_cycle_duration_minutes sleep_start_dt
            (range min_cycles (max_cycles + 1))) (fun suggested_times =>
    Returned (Sorting.sort time_leb suggested_times)))).

(** The wake time after [n] cycles, on the 24-hour clock. *)
Definition wake_after (sleep_cycle_duration_minutes sleep_onset_minutes : Z)
    (bedtime : time) (n : Z) : time :=
  time_of_us (us_of_time bedtime
              + (sleep_onset_minutes + n * sleep_cycle_duration_minutes)
                * us_per_minute).

End WakeTimes.

(* ================================================================== *)
(** * Properties *)
(* ================================================================== *)

Module PyFacts.
Import Py.

Lemma round_comp (p q : Q) : (p == q)%Q -> round p = round q.
Proof.
  intros H. unfold round.
  rewrite (Qfloor_comp _ _ H).
  assert (E : (p - inject_Z (Qfloor q) == q - inject_Z (Qfloor q))%Q)
    by (rewrite H; reflexivity).
  rewrite (Qcompare_comp _ _ E (1 # 2)%Q (1 # 2)%Q (Qeq_refl _)).
  reflexivity.
Qed.

Lemma round_inject_Z (z : Z) : round (inject_Z z) = z.
Proof.
  unfold round. rewrite Qfloor_Z.
  assert (E : (inject_Z z - inject_Z z == 0)%Q) by ring.
  rewrite (Qcompare_comp _ _ E (1 # 2)%Q (1 # 2)%Q (Qeq_refl _)).
  reflexivity.
Qed.

(** [round] stays within one of the floor. *)
Lemma round_floor_cases (q : Q) : round q = Qfloor q \/ round q = Qfloor q + 1.
Proof.
  unfold round.
  destruct (Qcompare (q - inject_Z (Qfloor q)) (1 # 2)); auto.
  destruct (Z.even (Qfloor q)); auto.
Qed.


Lemma code_digit_char (d : Z) : 0 <= d <= 9 -> code (digit_char d) = 48 + d.
Proof.
  intros H. unfold code, digit_char.
  rewrite nat_ascii_embedding by lia. lia.
Qed.

Lemma is_digit_digit_char (d : Z) : 0 <= d <= 9 -> is_digit (digit_char d) = true.
Proof.
  intros H. unfold is_digit. rewrite code_digit_char by exact H.
  apply andb_true_intro; split; apply Z.leb_le; lia.
Qed.

Lemma digit_val_digit_char (d : Z) : 0 <= d <= 9 -> digit_val (digit_char d) = d.
Proof.
  intros H. unfold digit_val. rewrite code_digit_char by exact H. lia.
Qed.

Lemma digits_val_snoc (l : pystr) (c : ascii) :
  digits_val (l ++ [c]) = 10 * digits_val l + digit_val c.
Proof. unfold digits_val. rewrite fold_left_app. reflexivity. Qed.

Lemma digits_fuel_acc (f : nat) :
  forall n acc, digits_fuel f n acc = digits_fuel f n [] ++ acc.
Proof.
  induction f as [| f IH]; intros n acc; simpl.
  - reflexivity.
  - destruct (n <? 10).
    + reflexivity.
    + rewrite IH. rewrite (IH _ [_]). rewrite <- app_assoc. reflexivity.
Qed.

(** The digits printed for [n] are digits, there is at least one, and
    they read back as [n]. *)
Lemma digits_fuel_spec (f : nat) :
  forall n, 0 <= n < 10 * 2 ^ Z.of_nat f ->
    let ds := digits_fuel f n [] in
    Forall (fun c => is_digit c = true) ds /\ ds <> [] /\ digits_val ds = n.
Proof.
  induction f as [| f IH]; intros n Hn; cbn zeta.
  - simpl in *. assert (D : 0 <= n mod 10 <= 9) by (pose proof (Z.mod_pos_bound n 10); lia).
    repeat split.
    + constructor; [apply is_digit_digit_char; exact D | constructor].
    + discriminate.
    + unfold digits_val. simpl. rewrite digit_val_digit_char by exact D.
      rewrite Z.mod_small; lia.
  - assert (D : 0 <= n mod 10 <= 9) by (pose proof (Z.mod_pos_bound n 10); lia).
    simpl digits_fuel. destruct (Z.ltb_spec n 10) as [L | G].
    + repeat split.
      * constructor; [apply is_digit_digit_char; exact D | constructor].
      * discriminate.
      * unfold digits_val. simpl. rewrite digit_val_digit_char by exact D.
        rewrite Z.mod_small; lia.
    + rewrite digits_fuel_acc.
      assert (B : 0 <= n / 10 < 10 * 2 ^ Z.of_nat f).
      { split; [apply Z.div_pos; lia |].
        apply Z.div_lt_upper_bound; [lia |].
        rewrite Nat2Z.inj_succ, Z.pow_succ_r in Hn by lia. lia. }
      destruct (IH _ B) as (Hd & Hne & Hv).
      repeat split.
      * apply Forall_app; split; [exact Hd |].
        constructor; [apply is_digit_digit_char; exact D | constructor].
      * intros E. apply app_eq_nil in E. destruct E as [_ E]. discriminate.
      * rewrite digits_val_snoc, Hv, digit_val_digit_char by exact D.
        pose proof (Z.div_mod n 10). lia.
Qed.

Lemma str_of_int_spec (n : Z) :
  0 <= n ->
  Forall (fun c => is_digit c = true) (str_of_int n) /\
  str_of_int n <> [] /\ digits_val (str_of_int n) = n.
Proof.
  intros Hn. unfold str_of_int.
  destruct (Z.ltb_spec n 0) as [L | _]; [lia |].
  unfold str_of_nonneg. apply digits_fuel_spec.
  split; [exact Hn |].
  rewrite Z2Nat.id by apply Z.log2_nonneg.
  destruct (Z.eq_dec n 0) as [-> | Hz]; [simpl; lia |].
  pose proof (Z.log2_spec n ltac:(lia)) as [_ U].
  rewrite Z.pow_succ_r in U by apply Z.log2_nonneg.
  pose proof (Z.pow_pos_nonneg 2 (Z.log2 n) ltac:(lia) (Z.log2_nonneg n)). lia.
Qed.

Lemma span_all (p : ascii -> bool) (ds rest : pystr) :
  Forall (fun c => p c = true) ds ->
  match rest with [] => True | c :: _ => p c = false end ->
  span p (ds ++ rest) = (ds, rest).
Proof.
  intros Hd Hr. induction Hd as [| c ds Hc _ IH]; simpl.
  - destruct rest as [| c r]; simpl; [reflexivity |].
    simpl in Hr. rewrite Hr. reflexivity.
  - rewrite Hc, IH. reflexivity.
Qed.

End PyFacts.

Module TimeUtilsFacts.
Import Py TimeUtils PyFacts.

(** ** Minutes to time *)

Lemma total_minutes_to_time_in_range (k : Z) :
  0 <= k < 1440 ->
  total_minutes_to_time (Some (PyInt k)) = Some (time_hm (k / 60) (k mod 60)).
Proof.
  intros H. unfold total_minutes_to_time. simpl float_of_num.
  rewrite round_inject_Z.
  replace (Z.max 0 (Z.min 1440 k)) with k by lia.
  destruct (Z.eqb_spec k 1440) as [E | _]; [lia | reflexivity].
Qed.




(** ** Formatting a whole number of minutes *)

Lemma format_whole_minutes (d : Z) (show_seconds : bool) :
  0 < d ->
  format_timedelta (Some (timedelta_minutes d)) show_seconds
  = join (str " ") (hours_part d ++ minutes_part d).
Proof.
  intros Hd. unfold format_timedelta, int_total_seconds, timedelta_minutes.
  cbn [total_microseconds].
  replace (d * 60000000) with (d * 60 * 1000000) by lia.
  rewrite Z.quot_mul by lia.
  destruct (Z.ltb_spec (d * 60) 0) as [L | _]; [lia |].
  rewrite Z.abs_eq by lia.
  assert (Eh : d * 60 / 3600 = d / 60).
  { replace 3600 with (60 * 60) by reflexivity.
    rewrite <- Z.div_div by lia. rewrite Z.div_mul by lia. reflexivity. }
  assert (Er : (d * 60) mod 3600 = (d mod 60) * 60).
  { replace 3600 with (60 * 60) by reflexivity.
    rewrite Z.mul_mod_distr_r by lia. reflexivity. }
  rewrite Eh, Er. rewrite Z.div_mul by lia.
  fold (hours_part d). fold (minutes_part d).
  pose proof (Z.div_mod d 60 ltac:(lia)) as DM.
  pose proof (Z.mod_pos_bound d 60 ltac:(lia)) as MB.
  assert (HP : 0 <= d / 60) by (apply Z.div_pos; lia).
  unfold hours_part, minutes_part.
  destruct (Z.ltb_spec 0 (d / 60)) as [H1 | H1];
    destruct (Z.ltb_spec 0 (d mod 60)) as [M1 | M1];
    try reflexivity.
  exfalso. lia.
Qed.

(** ** Scanning a formatted duration *)

Lemma is_unit_not_digit (u : ascii) : is_unit u = true -> is_digit u = false.
Proof.
  unfold is_unit. intros H.
  apply orb_true_iff in H. destruct H as [H | H].
  - apply orb_true_iff in H. destruct H as [H | H];
      apply Ascii.eqb_eq in H; subst; reflexivity.
  - apply Ascii.eqb_eq in H; subst; reflexivity.
Qed.

Lemma is_unit_facts (u : ascii) :
  is_unit u = true ->
  is_digit u = false /\ is_space u = false /\ Ascii.eqb u "."%char = false /\
  lower_char u = u /\ Ascii.eqb u " "%char = false.
Proof.
  unfold is_unit. intros H.
  apply orb_true_iff in H. destruct H as [H | H].
  - apply orb_true_iff in H. destruct H as [H | H];
      apply Ascii.eqb_eq in H; subst; repeat split; reflexivity.
  - apply Ascii.eqb_eq in H; subst; repeat split; reflexivity.
Qed.

Lemma match_at_token (ds : pystr) (u : ascii) (rest : pystr) :
  digits ds -> is_unit u = true ->
  match_at (ds ++ u :: rest) = Some ((ds, [u]), rest).
Proof.
  intros [Hd Hne] Hu.
  destruct (is_unit_facts u Hu) as (Ud & Us & Up & _ & _).
  unfold match_at.
  rewrite (span_all is_digit ds (u :: rest) Hd Ud).
  destruct ds as [| d0 ds']; [contradiction Hne; reflexivity |].
  rewrite Up. cbn [span]. rewrite Us, Hu. reflexivity.
Qed.

Lemma findall_fuel_token (f : nat) (ds : pystr) (u : ascii) (rest : pystr) :
  digits ds -> is_unit u = true ->
  findall_fuel (S f) (ds ++ u :: rest) = (ds, [u]) :: findall_fuel f rest.
Proof.
  intros Hd Hu. cbn [findall_fuel]. rewrite match_at_token by assumption.
  reflexivity.
Qed.

Lemma findall_fuel_space (f : nat) (rest : pystr) :
  findall_fuel (S f) (" "%char :: rest) = findall_fuel f rest.
Proof. reflexivity. Qed.

Lemma findall_fuel_nil (f : nat) : findall_fuel f [] = [].
Proof. destruct f; reflexivity. Qed.

Lemma float_of_digits (ds : pystr) :
  digits ds -> float_of_value_str ds = inject_Z (digits_val ds).
Proof.
  intros [Hd _]. unfold float_of_value_str.
  rewrite <- (app_nil_r ds) at 1.
  rewrite (span_all is_digit ds [] Hd I). reflexivity.
Qed.

(** A text made of digits, units and single blanks that starts with a
    digit and ends with a unit is left alone by [lower] and [strip]. *)
Lemma lower_digits (ds : pystr) :
  Forall (fun c => is_digit c = true) ds -> lower ds = ds.
Proof.
  intros H. induction H as [| c ds Hc _ IH]; [reflexivity |].
  unfold lower in *. simpl. rewrite IH. f_equal.
  unfold lower_char. unfold is_digit in Hc.
  apply andb_true_iff in Hc. destruct Hc as [A B].
  apply Z.leb_le in A, B.
  destruct (Z.leb_spec 65 (code c)); [lia | reflexivity].
Qed.

Lemma lower_token (ds : pystr) (u : ascii) :
  digits ds -> is_unit u = true -> lower (ds ++ [u]) = ds ++ [u].
Proof.
  intros [Hd _] Hu. unfold lower. rewrite map_app. fold (lower ds).
  rewrite lower_digits by exact Hd. simpl.
  destruct (is_unit_facts u Hu) as (_ & _ & _ & L & _). rewrite L. reflexivity.
Qed.

Lemma digit_not_space (c : ascii) : is_digit c = true -> is_space c = false.
Proof.
  unfold is_digit, is_space. intros H.
  apply andb_true_iff in H. destruct H as [A B]. apply Z.leb_le in A, B.
  apply orb_false_iff. split; apply andb_false_iff.
  - right. apply Z.leb_gt. lia.
  - right. apply Z.leb_gt. lia.
Qed.

Lemma digit_not_blank (c : ascii) :
  is_digit c = true -> Ascii.eqb c " "%char = false.
Proof.
  intros H. destruct (Ascii.eqb_spec c " "%char) as [-> | _]; [discriminate H | reflexivity].
Qed.

Lemma lstrip_nonspace (c : ascii) (r : pystr) :
  is_space c = false -> lstrip (c :: r) = c :: r.
Proof. intros H. simpl. rewrite H. reflexivity. Qed.

Lemma strip_framed (ds body : pystr) (u : ascii) :
  digits ds -> is_unit u = true ->
  strip (ds ++ body ++ [u]) = ds ++ body ++ [u].
Proof.
  intros [Hd Hne] Hu. unfold strip.
  destruct ds as [| d0 ds']; [contradiction Hne; reflexivity |].
  assert (S0 : is_space d0 = false)
    by (apply digit_not_space; inversion Hd; assumption).
  assert (L1 : lstrip ((d0 :: ds') ++ body ++ [u]) = (d0 :: ds') ++ body ++ [u]).
  { simpl. rewrite S0. reflexivity. }
  rewrite L1.
  assert (R : rev ((d0 :: ds') ++ body ++ [u]) = u :: rev ((d0 :: ds') ++ body)).
  { rewrite app_assoc. rewrite rev_app_distr. reflexivity. }
  rewrite R.
  destruct (is_unit_facts u Hu) as (_ & Us & _ & _ & _).
  rewrite (lstrip_nonspace _ _ Us).
  rewrite <- R. apply rev_involutive.
Qed.

Lemma remove_spaces_digits (ds : pystr) :
  Forall (fun c => is_digit c = true) ds -> remove_spaces ds = ds.
Proof.
  intros H. induction H as [| c ds Hc _ IH]; [reflexivity |].
  unfold remove_spaces in *. simpl. rewrite digit_not_blank by exact Hc.
  simpl. rewrite IH. reflexivity.
Qed.

Lemma remove_spaces_token (ds : pystr) (u : ascii) :
  digits ds -> is_unit u = true -> remove_spaces (ds ++ [u]) = ds ++ [u].
Proof.
  intros [Hd _] Hu. unfold remove_spaces. rewrite filter_app.
  fold (remove_spaces ds). rewrite remove_spaces_digits by exact Hd.
  simpl. destruct (is_unit_facts u Hu) as (_ & _ & _ & _ & B). rewrite B.
  reflexivity.
Qed.

Lemma digits_str_of_int (n : Z) : 0 <= n -> digits (str_of_int n).
Proof. intros H. destruct (str_of_int_spec n H) as (A & B & _). split; assumption. Qed.

Lemma sum_matches_h (ds : pystr) (rest : list (pystr * pystr)) (total : Q)
    (parts : pystr) :
  digits ds ->
  sum_matches ((ds, ["h"%char]) :: rest) total parts
  = sum_matches rest (total + inject_Z (digits_val ds) * 60)%Q
      (parts ++ ds ++ ["h"%char]).
Proof.
  intros Hd. cbn [sum_matches]. rewrite float_of_digits by exact Hd. reflexivity.
Qed.

Lemma sum_matches_m (ds : pystr) (rest : list (pystr * pystr)) (total : Q)
    (parts : pystr) :
  digits ds ->
  sum_matches ((ds, ["m"%char]) :: rest) total parts
  = sum_matches rest (total + inject_Z (digits_val ds))%Q
      (parts ++ ds ++ ["m"%char]).
Proof.
  intros Hd. cbn [sum_matches]. rewrite float_of_digits by exact Hd. reflexivity.
Qed.

Lemma parse_ok (text : pystr) (matches : list (pystr * pystr)) (total : Q)
    (parts : pystr) (d : Z) :
  strip text = text -> lower text = text -> text <> [] ->
  findall text = matches -> matches <> [] ->
  sum_matches matches 0 [] = (total, parts) ->
  remove_spaces parts = remove_spaces text ->
  (total == inject_Z d)%Q -> 0 <= d <= timedelta_max_minutes ->
  parse_duration_string (Some text) = Some (timedelta_minutes d).
Proof.
  intros Hs Hl Hne Hf Hm Hsum Hrs Ht Hd.
  unfold parse_duration_string. rewrite Hs, Hl, Hs.
  destruct text as [| c0 text']; [contradiction Hne; reflexivity |].
  rewrite Hf. destruct matches as [| m0 ms]; [contradiction Hm; reflexivity |].
  rewrite Hsum. rewrite Hrs. rewrite Nat.eqb_refl. cbn [negb andb].
  rewrite (round_comp _ _ Ht), round_inject_Z.
  destruct (Z.ltb_spec d 0); [lia |].
  destruct (Z.ltb_spec timedelta_max_minutes d); [lia | reflexivity].
Qed.

(** C6.  Round trips of the time helpers: a wall-clock time survives the
    conversion to minutes and back, and a positive whole-minute duration
    (any that a [timedelta] can hold) survives formatting and parsing. *)
Theorem time_and_duration_round_trip :
  (forall h m : Z, 0 <= h <= 23 -> 0 <= m <= 59 ->
     exists k, time_to_total_minutes (Some (time_hm h m)) = Some k /\
               total_minutes_to_time (Some (PyInt k)) = Some (time_hm h m)) /\
  (forall (d : Z) (show_seconds : bool), 0 < d <= timedelta_max_minutes ->
     parse_duration_string
       (Some (format_timedelta (Some (timedelta_minutes d)) show_seconds))
     = Some (timedelta_minutes d)).
Proof.
  split.
  - intros h m Hh Hm. exists (h * 60 + m). split; [reflexivity |].
    rewrite total_minutes_to_time_in_range by lia.
    f_equal. unfold time_hm. f_equal.
    + rewrite Z.div_add_l, Z.div_small by lia. lia.
    + rewrite Z.add_comm, Z.mod_add, Z.mod_small by lia. reflexivity.
  - intros d show_seconds [Hd Hmax].
    rewrite format_whole_minutes by exact Hd.
    pose proof (Z.div_mod d 60 ltac:(lia)) as DM.
    pose proof (Z.mod_pos_bound d 60 ltac:(lia)) as MB.
    assert (HP : 0 <= d / 60) by (apply Z.div_pos; lia).
    pose proof (digits_str_of_int _ HP) as DH.
    pose proof (digits_str_of_int (d mod 60) ltac:(lia)) as DMn.
    destruct (str_of_int_spec _ HP) as (_ & _ & VH).
    destruct (str_of_int_spec (d mod 60) ltac:(lia)) as (_ & _ & VM).
    set (H := str_of_int (d / 60)) in *.
    set (M := str_of_int (d mod 60)) in *.
    unfold hours_part, minutes_part. fold H M.
    destruct (Z.ltb_spec 0 (d / 60)) as [H1 | H1];
      destruct (Z.ltb_spec 0 (d mod 60)) as [M1 | M1]; cbn [app join].
    + (* "Xh Ym" *)
      change (str "h") with ["h"%char]. change (str "m") with ["m"%char].
      change (str " ") with [" "%char].
      apply parse_ok with
        (matches := [(H, ["h"%char]); (M, ["m"%char])])
        (total := (0 + inject_Z (digits_val H) * 60 + inject_Z (digits_val M))%Q)
        (parts := ([] ++ H ++ ["h"%char]) ++ M ++ ["m"%char]).
      * rewrite <- app_assoc. cbn [app].
        change (H ++ "h"%char :: " "%char :: M ++ ["m"%char])
          with (H ++ ("h"%char :: " "%char :: M) ++ ["m"%char]).
        apply strip_framed; [exact DH | reflexivity].
      * unfold lower. rewrite !map_app. cbn [map].
        fold (lower H). fold (lower M).
        rewrite !lower_digits by (apply DH || apply DMn). reflexivity.
      * destruct H; [destruct DH as [_ N]; contradiction N; reflexivity | discriminate].
      * unfold findall.
        rewrite <- app_assoc. cbn [app].
        rewrite findall_fuel_token by (exact DH || reflexivity).
        rewrite length_app. cbn [List.length].
        rewrite Nat.add_succ_r. rewrite findall_fuel_space.
        rewrite length_app. cbn [List.length].
        rewrite !Nat.add_succ_r.
        rewrite findall_fuel_token by (exact DMn || reflexivity).
        rewrite findall_fuel_nil. reflexivity.
      * discriminate.
      * rewrite sum_matches_h, sum_matches_m by assumption. reflexivity.
      * unfold remove_spaces. rewrite !filter_app. cbn [filter].
        reflexivity.
      * rewrite VH, VM. rewrite DM at 3. rewrite inject_Z_plus, inject_Z_mult.
        ring.
      * lia.
    + (* "Xh" *)
      change (str "h") with ["h"%char].
      assert (M0 : d mod 60 = 0) by lia.
      apply parse_ok with
        (matches := [(H, ["h"%char])])
        (total := (0 + inject_Z (digits_val H) * 60)%Q)
        (parts := [] ++ H ++ ["h"%char]).
      * apply (strip_framed H [] "h"%char); [exact DH | reflexivity].
      * apply lower_token; [exact DH | reflexivity].
      * destruct H; [destruct DH as [_ N]; contradiction N; reflexivity | discriminate].
      * unfold findall. rewrite findall_fuel_token by (exact DH || reflexivity).
        rewrite findall_fuel_nil. reflexivity.
      * discriminate.
      * rewrite sum_matches_h by assumption. reflexivity.
      * reflexivity.
      * rewrite VH. rewrite DM at 2. rewrite M0, inject_Z_plus, inject_Z_mult.
        change (inject_Z 0) with 0%Q. change (inject_Z 60) with 60%Q. ring.
      * lia.
    + (* "Ym" *)
      change (str "m") with ["m"%char].
      assert (H0 : d / 60 = 0) by lia.
      apply parse_ok with
        (matches := [(M, ["m"%char])])
        (total := (0 + inject_Z (digits_val M))%Q)
        (parts := [] ++ M ++ ["m"%char]).
      * apply (strip_framed M [] "m"%char); [exact DMn | reflexivity].
      * apply lower_token; [exact DMn | reflexivity].
      * destruct M; [destruct DMn as [_ N]; contradiction N; reflexivity | discriminate].
      * unfold findall. rewrite findall_fuel_token by (exact DMn || reflexivity).
        rewrite findall_fuel_nil. reflexivity.
      * discriminate.
      * rewrite sum_matches_m by assumption. reflexivity.
      * reflexivity.
      * rewrite VM. rewrite DM at 2. rewrite H0. 
        replace (60 * 0 + d mod 60) with (d mod 60) by lia. ring.
      * lia.
    + exfalso. lia.
Qed.

Lemma time_and_duration_round_trip_witness :
  (exists k, time_to_total_minutes (Some (time_hm 14 55)) = Some k /\
             total_minutes_to_time (Some (PyInt k)) = Some (time_hm 14 55)) /\
  parse_duration_string
    (Some (format_timedelta (Some (timedelta_minutes 135)) false))
  = Some (timedelta_minutes 135).
Proof.
  split.
  - apply (proj1 time_and_duration_round_trip); lia.
  - apply (proj2 time_and_duration_round_trip). unfold timedelta_max_minutes. lia.
Defined.

End TimeUtilsFacts.

Module QFacts.
Import Py.

Lemma Qmax_cases (a b : Q) :
  (Qmax a b = a /\ (b <= a)%Q) \/ (Qmax a b = b /\ (a <= b)%Q).
Proof.
  unfold Qmax. destruct (Qle_bool b a) eqn:E.
  - left. split; [reflexivity | apply Qle_bool_iff; exact E].
  - right. split; [reflexivity |].
    destruct (Qlt_le_dec a b) as [L | G]; [apply Qlt_le_weak; exact L |].
    apply Qle_bool_iff in G. congruence.
Qed.

Lemma Qmin_cases (a b : Q) :
  (Qmin a b = a /\ (a <= b)%Q) \/ (Qmin a b = b /\ (b <= a)%Q).
Proof.
  unfold Qmin. destruct (Qle_bool a b) eqn:E.
  - left. split; [reflexivity | apply Qle_bool_iff; exact E].
  - right. split; [reflexivity |].
    destruct (Qlt_le_dec b a) as [L | G]; [apply Qlt_le_weak; exact L |].
    apply Qle_bool_iff in G. congruence.
Qed.

(** [max(lo, min(hi, x))] lands in [[lo, hi]]. *)
Lemma clamp_bounds (lo hi x : Q) :
  (lo <= hi)%Q -> (lo <= Qmax lo (Qmin hi x) <= hi)%Q.
Proof.
  intros H.
  destruct (Qmax_cases lo (Qmin hi x)) as [[-> _] | [-> L]].
  - split; [apply Qle_refl | exact H].
  - split; [exact L |].
    destruct (Qmin_cases hi x) as [[-> _] | [-> G]]; [apply Qle_refl | exact G].
Qed.

Lemma Qle_bool_comp (a a' b b' : Q) :
  (a == a')%Q -> (b == b')%Q -> Qle_bool a b = Qle_bool a' b'.
Proof.
  intros Ha Hb.
  destruct (Qle_bool a b) eqn:E; symmetry.
  - apply Qle_bool_iff. rewrite <- Ha, <- Hb. apply Qle_bool_iff. exact E.
  - destruct (Qle_bool a' b') eqn:E'; [| reflexivity].
    apply Qle_bool_iff in E'. rewrite <- Ha, <- Hb in E'.
    apply Qle_bool_iff in E'. congruence.
Qed.

Lemma Qmax_comp (a a' b b' : Q) :
  (a == a')%Q -> (b == b')%Q -> (Qmax a b == Qmax a' b')%Q.
Proof.
  intros Ha Hb. unfold Qmax. rewrite (Qle_bool_comp b b' a a' Hb Ha).
  destruct (Qle_bool b' a'); assumption.
Qed.

Lemma Qmin_comp (a a' b b' : Q) :
  (a == a')%Q -> (b == b')%Q -> (Qmin a b == Qmin a' b')%Q.
Proof.
  intros Ha Hb. unfold Qmin. rewrite (Qle_bool_comp a a' b b' Ha Hb).
  destruct (Qle_bool a' b'); assumption.
Qed.

End QFacts.

Module ConstraintSolverFacts.
Import Py TimeUtils ConstraintSolver.

(** ** The energy table *)





(** ** Dictionaries and sorting keep their elements *)

Lemma dict_set_entries (d : @Dict.t Z nat) (k : Z) (v : nat) (a : Z) (b : nat) :
  In (a, b) (Dict.set Z.eqb d k v) -> (a = k /\ b = v) \/ In (a, b) d.
Proof.
  induction d as [| [k' v'] r IH]; simpl.
  - intros [E | []]. left. split; congruence.
  - destruct (Z.eqb_spec k k') as [-> | N]; simpl.
    + intros [E | H]; [left; split; congruence | right; right; exact H].
    + intros [E | H]; [right; left; exact E |].
      destruct (IH H) as [L | R]; [left; exact L | right; right; exact R].
Qed.

Lemma in_insert {A} (leb : A -> A -> bool) (x y : A) (l : list A) :
  In y (Sorting.insert leb x l) -> y = x \/ In y l.
Proof.
  induction l as [| z r IH]; simpl.
  - intros [E | []]. left. congruence.
  - destruct (leb x z); simpl.
    + intros [E | H]; [left; congruence | right; exact H].
    + intros [E | H]; [right; left; exact E |].
      destruct (IH H) as [L | R]; [left; exact L | right; right; exact R].
Qed.

Lemma in_sort {A} (leb : A -> A -> bool) (y : A) (l : list A) :
  In y (Sorting.sort leb l) -> In y l.
Proof.
  induction l as [| x r IH]; simpl; [tauto |].
  intros H. apply in_insert in H. destruct H as [-> | H]; [left; reflexivity |].
  right. apply IH. exact H.
Qed.

(** ** Tasks that do not fit their window *)

(** Such a task gets no variable: it is logged and the loop goes on. *)
Lemma impossible_task_is_skipped (day_start horizon : Z) (n : nat)
    (task : SolverTask) (s : var_state) :
  window_too_small day_start horizon task = true ->
  create_task_vars day_start horizon n task s
  = mk_var_state (vs_constraints s) (vs_task_vars s)
      (vs_log s ++ [LogTaskImpossible (st_id task)]).
Proof.
  unfold window_too_small, create_task_vars. intros H. rewrite H. reflexivity.
Qed.

Lemma create_all_vars_all_skipped (day_start horizon : Z) (tasks : list SolverTask) :
  forall n s,
    forallb (window_too_small day_start horizon) tasks = true ->
    vs_task_vars (create_all_vars day_start horizon n tasks s) = vs_task_vars s.
Proof.
  induction tasks as [| t r IH]; intros n s H; simpl.
  - reflexivity.
  - simpl in H. apply andb_true_iff in H. destruct H as [Ht Hr].
    rewrite IH by exact Hr.
    rewrite impossible_task_is_skipped by exact Ht. reflexivity.
Qed.

(** When no task fits, [solve] still answers with an empty schedule,
    never with "no solution", whatever the engine would say. *)
Lemma solve_with_only_impossible_tasks (engine : Engine) (cfg : SolverConfig)
    (solver_input : SolverInput) :
  forallb (window_too_small (si_day_start_minutes solver_input)
                            (si_day_end_minutes solver_input))
          (si_tasks solver_input) = true ->
  fst (solve engine cfg solver_input) = Some [].
Proof.
  intros H. unfold solve.
  destruct (si_tasks solver_input) as [| t r] eqn:E; [reflexivity |].
  rewrite (create_all_vars_all_skipped _ _ (t :: r) 0%nat _ H).
  reflexivity.
Qed.

Section Window.
Variables day_start horizon : Z.






End Window.


End ConstraintSolverFacts.

Module SleepFacts.
Import Py TimeUtils Clock ChronotypeM Sleep QFacts.

(** Absent physiological data scores the component 0. *)
Lemma physiological_score_without_data (cfg : SleepConfig)
    (hr : option (list (datetime * Z))) (hrv : option (list (datetime * Q))) :
  no_samples hr -> no_samples hrv ->
  calculate_physiological_score cfg hr hrv = 0%Q.
Proof.
  intros [-> | ->] [-> | ->]; reflexivity.
Qed.

Lemma duration_score_exact (cfg : SleepConfig) (d : timedelta) :
  0 <= duration_tolerance cfg ->
  calculate_duration_score cfg d d = 100%Q.
Proof.
  intros H. unfold calculate_duration_score.
  assert (E : Qle_bool (Qabs (total_seconds d - total_seconds d) / 60)
                       (inject_Z (duration_tolerance cfg)) = true).
  { apply Qle_bool_iff.
    assert (Z0 : (Qabs (total_seconds d - total_seconds d) / 60 == 0)%Q).
    { assert (D0 : (total_seconds d - total_seconds d == 0)%Q) by ring.
      rewrite D0. reflexivity. }
    rewrite Z0. change 0%Q with (inject_Z 0). rewrite <- Zle_Qle. exact H. }
  rewrite E. reflexivity.
Qed.

Lemma timing_score_exact (cfg : SleepConfig) (bed wake ibed iwake : time) :
  0 <= timing_tolerance cfg ->
  minutes_of bed = minutes_of ibed -> minutes_of wake = minutes_of iwake ->
  calculate_timing_score cfg bed wake ibed iwake = (100 / 2 + 100 / 2)%Q.
Proof.
  intros H Eb Ew. unfold calculate_timing_score. rewrite Eb, Ew.
  rewrite !Z.sub_diag. cbn [Z.abs]. change (Z.min 0 (1440 - 0)) with 0.
  unfold timing_part_score.
  destruct (Z.leb_spec 0 (timing_tolerance cfg)); [reflexivity | lia].
Qed.

(** C9 (counterexample).  Default weights, an actual sleep 23:00-07:00
    equal to the recommendation, no heart-rate and no HRV samples: the
    score is 70 (0.4 + 0.3 of 100), not 100. *)
Lemma perfect_sleep_without_physiology_scores_70 :
  let recommended :=
    SleepMetrics_new (timedelta_hours_int 8) (time_hm 23 0) (time_hm 7 0)
      None None None None in
  exists m s,
    analyze_sleep_quality DEFAULT_SLEEP_CONFIG utc recommended
      (mk_datetime (23 * us_per_hour) true) (mk_datetime (31 * us_per_hour) true)
      None (Some [])
    = Returned m /\
    sleep_quality_score m = Some s /\ (s == 70)%Q /\ ~ (s == 100)%Q.
Proof.
  cbv zeta. eexists. eexists. split; [vm_compute; reflexivity |].
  split; [reflexivity |]. split; [reflexivity | discriminate].
Qed.

(** C9 (amended).  The overall score is always within [0, 100].  Without
    heart-rate and HRV samples the physiological component is 0 and its
    weight is not handed to the other components: an actual sleep equal to
    the recommendation scores 100 times the duration weight plus 100 times
    the timing weight, clamped. *)
Theorem sleep_quality_score_bounds_and_missing_physiology
    (cfg : SleepConfig) (local_tz : tzinfo) (recommended : SleepMetrics)
    (sleep_start sleep_end : datetime)
    (hr : option (list (datetime * Z))) (hrv : option (list (datetime * Q)))
    (m : SleepMetrics) :
  analyze_sleep_quality cfg local_tz recommended sleep_start sleep_end hr hrv
  = Returned m ->
  exists s,
    sleep_quality_score m = Some s /\
    (0 <= s <= 100)%Q /\
    (no_samples hr -> no_samples hrv ->
     calculate_physiological_score cfg hr hrv = 0%Q /\
     (0 <= duration_tolerance cfg -> 0 <= timing_tolerance cfg ->
      dt_us sleep_end - dt_us sleep_start
        = total_microseconds (ideal_duration recommended) ->
      minutes_of (local_time local_tz sleep_start)
        = minutes_of (ideal_bedtime recommended) ->
      minutes_of (local_time local_tz sleep_end)
        = minutes_of (ideal_wake_time recommended) ->
      (s == Qmax 0 (Qmin 100
                (100 * Dict.get_default pystr_eqb (quality_weights cfg) (str "duration") 0
                 + 100 * Dict.get_default pystr_eqb (quality_weights cfg) (str "timing") 0)))%Q)).
Proof.
  unfold analyze_sleep_quality. intros H.
  destruct (datetime_le sleep_end sleep_start) as [b | e]; [| discriminate H].
  cbn [bind] in H. destruct b; [discriminate H |].
  injection H as <-. eexists. split; [reflexivity |].
  split; [apply clamp_bounds; discriminate |].
  intros Hhr Hhrv.
  pose proof (physiological_score_without_data cfg hr hrv Hhr Hhrv) as P.
  split; [exact P |].
  intros Td Tt Ed Eb Ew.
  rewrite P. rewrite Ed.
  replace (mk_timedelta (total_microseconds (ideal_duration recommended)))
    with (ideal_duration recommended) by (destruct (ideal_duration recommended); reflexivity).
  rewrite duration_score_exact by exact Td.
  rewrite (timing_score_exact cfg _ _ _ _ Tt Eb Ew).
  apply Qmax_comp; [reflexivity |].
  apply Qmin_comp; [reflexivity |].
  unfold str. cbn [list_ascii_of_string].
  assert (E100 : (100 / 2 + 100 / 2 == 100)%Q) by reflexivity.
  rewrite E100. ring.
Qed.

Lemma sleep_quality_score_bounds_and_missing_physiology_witness :
  exists s,
    (0 <= s <= 100)%Q /\
    (s == Qmax 0 (Qmin 100 (100 * (4 # 10) + 100 * (3 # 10))))%Q.
Proof.
  destruct (sleep_quality_score_bounds_and_missing_physiology
              DEFAULT_SLEEP_CONFIG utc
              (SleepMetrics_new (timedelta_hours_int 8) (time_hm 23 0) (time_hm 7 0)
                 None None None None)
              (mk_datetime (23 * us_per_hour) true)
              (mk_datetime (31 * us_per_hour) true)
              None (Some []) _ eq_refl) as (s & _ & B & R).
  exists s. split; [exact B |].
  destruct (R (or_introl eq_refl) (or_intror eq_refl)) as [_ R'].
  apply R'; reflexivity || (cbn; lia).
Defined.

End SleepFacts.

Module ChronotypeFacts.
Import Py TimeUtils Clock ChronotypeM QFacts.

Lemma clamp01_in_unit (x : Q) : in_unit (clamp01 x).
Proof. apply clamp_bounds. discriminate. Qed.

(** [__post_init__] clamps both scores. *)
Lemma new_profile_in_unit user chrono strength consistency bed wake hours exercise source :
  scores_in_unit (ChronotypeProfile_new user chrono strength consistency
                    bed wake hours exercise source).
Proof. split; apply clamp01_in_unit. Qed.

Section WithStdev.
Variable stdev : list Q -> Q.
Hypothesis stdev_nonneg : forall l, (0 <= stdev l)%Q.

Lemma confidence_in_unit (s scale : Q) :
  (0 <= s)%Q -> in_unit (Qmax 0 (1 - s / Qmax (1 # 10) scale)).
Proof.
  intros Hs.
  assert (D : (0 < Qmax (1 # 10) scale)%Q).
  { destruct (Qmax_cases (1 # 10) scale) as [[-> _] | [-> L]].
    - reflexivity.
    - eapply Qlt_le_trans; [| exact L]. reflexivity. }
  assert (N : (0 <= s / Qmax (1 # 10) scale)%Q).
  { apply Qle_shift_div_l; [exact D |]. rewrite Qmult_0_l. exact Hs. }
  destruct (Qmax_cases 0 (1 - s / Qmax (1 # 10) scale)) as [[-> _] | [-> L]].
  - split; discriminate.
  - split; [exact L |].
    rewrite <- (Qplus_0_r 1) at 2.
    apply Qplus_le_r.
    apply (Qopp_le_compat 0) in N. exact N.
Qed.

(** The confidence computed from sleep data lies in [0, 1]. *)
Lemma sleep_data_confidence_in_unit (cfg : ChronotypeConfig)
    (records : list (datetime * datetime)) (tz : tzinfo)
    (c : Chronotype) (confidence : Q) :
  determine_chronotype_from_sleep_data stdev cfg records tz
  = Returned (Some (c, confidence)) ->
  in_unit confidence.
Proof.
  unfold determine_chronotype_from_sleep_data. intros H.
  destruct (Z.of_nat (List.length records) <? sleep_data_min_records cfg);
    [discriminate H |].
  destruct records as [| r0 rs]; [discriminate H |].
  destruct (mid_sleep_hours tz (r0 :: rs)) as [hs | e]; [| discriminate H].
  cbn [bind] in H.
  destruct (Z.of_nat (List.length hs) <? sleep_data_min_records cfg);
    [discriminate H |].
  destruct hs as [| h0 hs']; [discriminate H |].
  injection H as _ <-.
  apply confidence_in_unit.
  match goal with
  | |- context [if ?b then _ else _] => destruct b
  end; [apply stdev_nonneg | discriminate].
Qed.

(** One update keeps both scores in [0, 1]; when it applies, the strength
    becomes the new confidence and the consistency is the clamped blend
    0.7 old + 0.3 confidence. *)
Lemma update_keeps_scores_in_unit (cfg : ChronotypeConfig)
    (p : ChronotypeProfile) (records : list (datetime * datetime)) (tz : tzinfo) :
  scores_in_unit p ->
  scores_in_unit (update_chronotype_profile stdev cfg p records tz).
Proof.
  intros Hp. unfold update_chronotype_profile.
  destruct records as [| r0 rs]; [exact Hp |].
  destruct (determine_chronotype_from_sleep_data stdev cfg (r0 :: rs) tz)
    as [[[c conf] |] | e] eqn:E; try exact Hp.
  pose proof (sleep_data_confidence_in_unit _ _ _ _ _ E) as Hc.
  destruct (negb (Qle_bool (update_profile_confidence_threshold cfg) conf));
    [exact Hp |].
  destruct (Dict.get Chronotype_eqb (default_productive_windows cfg) UNKNOWN);
    [destruct (Dict.get Chronotype_eqb (optimal_exercise_times cfg) UNKNOWN) |];
    (split; [exact Hc | apply clamp01_in_unit]).
Qed.

Lemma update_blends_consistency (cfg : ChronotypeConfig)
    (p : ChronotypeProfile) (records : list (datetime * datetime)) (tz : tzinfo) :
  let p' := update_chronotype_profile stdev cfg p records tz in
  p' = p \/
  exists confidence,
    chronotype_strength p' = confidence /\
    consistency_score p'
    = clamp01 (consistency_score p * (7 # 10) + confidence * (3 # 10))%Q.
Proof.
  cbv zeta. unfold update_chronotype_profile.
  destruct records as [| r0 rs]; [left; reflexivity |].
  destruct (determine_chronotype_from_sleep_data stdev cfg (r0 :: rs) tz)
    as [[[c conf] |] | e]; try (left; reflexivity).
  destruct (negb (Qle_bool (update_profile_confidence_threshold cfg) conf));
    [left; reflexivity |].
  right. exists conf.
  destruct (Dict.get Chronotype_eqb (default_productive_windows cfg) UNKNOWN);
    [destruct (Dict.get Chronotype_eqb (optimal_exercise_times cfg) UNKNOWN) |];
    split; reflexivity.
Qed.

Lemma updates_keep_scores_in_unit (cfg : ChronotypeConfig)
    (updates : list (list (datetime * datetime) * tzinfo)) :
  forall p, scores_in_unit p -> scores_in_unit (apply_updates stdev cfg p updates).
Proof.
  induction updates as [| u us IH]; intros p Hp; simpl.
  - exact Hp.
  - apply IH. apply update_keeps_scores_in_unit. exact Hp.
Qed.

End WithStdev.

(** C10.  Strength and consistency of a profile lie in [0, 1] when it is
    constructed and after any sequence of [update_chronotype_profile]
    calls, for any standard-deviation function that is never negative. *)
Theorem profile_scores_stay_in_unit_interval
    (stdev : list Q -> Q) (cfg : ChronotypeConfig)
    (user : UUID) (chrono : Chronotype) (strength consistency : Q)
    (bed wake : option time) (hours : list (time * time))
    (exercise : option time) (source : option pystr)
    (updates : list (list (datetime * datetime) * tzinfo)) :
  (forall l, (0 <= stdev l)%Q) ->
  let p0 := ChronotypeProfile_new user chrono strength consistency
              bed wake hours exercise source in
  scores_in_unit p0 /\
  scores_in_unit (apply_updates stdev cfg p0 updates).
Proof.
  intros Hs. cbv zeta. split.
  - apply new_profile_in_unit.
  - apply updates_keep_scores_in_unit; [exact Hs | apply new_profile_in_unit].
Qed.

End ChronotypeFacts.

Module OrchestratorFacts.
Import Py TimeUtils Clock ChronotypeM Sleep TaskPrioritizer ConstraintSolver Orchestrator.

(** ** [generate_schedule] never raises *)

Lemma create_empty_shape (input_data : ScheduleInputData) (ws : list pystr)
    (msg : pystr) :
  scheduled_items (create_empty input_data ws msg) = [] /\
  metrics_status (metrics (create_empty input_data ws msg)) = Some (str "failed") /\
  warnings (create_empty input_data ws msg) <> [].
Proof.
  repeat split. cbn [create_empty warnings].
  intros E. apply app_eq_nil in E. destruct E as [_ E]. discriminate E.
Qed.

(** C2.  [generate_schedule] always returns a schedule, whatever the
    components do; and when the solver reports no solution the schedule
    has no items, status "failed" and at least one warning. *)
Theorem generate_schedule_always_returns
    (self : Scheduler) (input_data : ScheduleInputData) :
  exists g,
    generate_schedule self input_data = Returned g /\
    (forall profile solver_input,
       prepare_profile self input_data = Returned profile ->
       prepare_solver_input self input_data profile
         (calculate_sleep self profile input_data) = Some solver_input ->
       fst (solve (engine self) (solver_config self) solver_input) = None ->
       scheduled_items g = [] /\
       metrics_status (metrics g) = Some (str "failed") /\
       warnings g <> []).
Proof.
  unfold generate_schedule, try_except.
  destruct (generate_schedule_body self input_data) as [g | e] eqn:B.
  - exists g. split; [reflexivity |].
    intros profile solver_input Hp Hi Hs.
    unfold generate_schedule_body in B. rewrite Hp in B. cbn [bind] in B.
    rewrite Hi, Hs in B. injection B as <-.
    apply create_empty_shape.
  - eexists. split; [reflexivity |].
    intros profile solver_input Hp Hi Hs.
    unfold generate_schedule_body in B. rewrite Hp in B. cbn [bind] in B.
    rewrite Hi, Hs in B. discriminate B.
Qed.

(** ** Fixed events *)





End OrchestratorFacts.

(** ** Coverage of the day by the gap filler *)

Module CoverageFacts.
Import Py TimeUtils ConstraintSolver Orchestrator PyFacts TimeUtilsFacts
       ConstraintSolverFacts.

(** ** Displayed times read back *)

Lemma two_digits_read (n : Z) :
  0 <= n <= 99 ->
  exists a b, two_digits n = [a; b] /\ is_digit a = true /\ is_digit b = true /\
              10 * digit_val a + digit_val b = n.
Proof.
  intros H. unfold two_digits.
  assert (A : 0 <= n / 10 <= 9).
  { split; [apply Z.div_pos; lia |].
    assert (n / 10 < 10) by (apply Z.div_lt_upper_bound; lia). lia. }
  assert (B : 0 <= n mod 10 <= 9) by (pose proof (Z.mod_pos_bound n 10); lia).
  exists (digit_char (n / 10)), (digit_char (n mod 10)).
  repeat split; try (apply is_digit_digit_char; assumption).
  rewrite !digit_val_digit_char by assumption.
  pose proof (Z.div_mod n 10). lia.
Qed.

Lemma hhmm_fmt (m : Z) : 0 <= m < 1440 -> hhmm_minutes (fmt_minutes m) = Some m.
Proof.
  intros H. unfold fmt_minutes, time_of_minutes.
  rewrite total_minutes_to_time_in_range by exact H.
  unfold strftime_HM, time_hm. cbn [hour minute].
  assert (Hh : 0 <= m / 60 <= 99).
  { split; [apply Z.div_pos; lia |].
    assert (m / 60 < 24) by (apply Z.div_lt_upper_bound; lia). lia. }
  assert (Hm : 0 <= m mod 60 <= 99) by (pose proof (Z.mod_pos_bound m 60); lia).
  destruct (two_digits_read _ Hh) as (a & b & -> & Da & Db & Vh).
  destruct (two_digits_read _ Hm) as (c & d & -> & Dc & Dd & Vm).
  change (str ":") with [":"%char]. cbn [app hhmm_minutes].
  rewrite Da, Db, Dc, Dd. cbn [andb Ascii.eqb Bool.eqb].
  f_equal. pose proof (Z.div_mod m 60). lia.
Qed.

Lemma hhmm_24 : hhmm_minutes (str "24:00") = Some 1440.
Proof. reflexivity. Qed.

(** ** Gap filling over blocks in sequence *)

Lemma strict_chain_app (l1 l2 : list item) (b c : Z) :
  forall a, strict_chain a b l1 -> strict_chain b c l2 -> strict_chain a c (l1 ++ l2).
Proof.
  induction l1 as [| i r IH]; intros a H1 H2; simpl in *.
  - subst. exact H2.
  - destruct H1 as (e & Hs & He & Hlt & Hr).
    exists e. repeat split; try assumption. apply IH; assumption.
Qed.

Lemma gap_item_span (prev start : Z) :
  0 <= prev < start -> start < 1440 ->
  strict_chain prev start [gap_item prev start].
Proof.
  intros H1 H2. simpl. exists start.
  unfold gap_item, item_start, item_end.
  repeat split; try lia.
  - destruct (120 <=? start - prev), (45 <=? start - prev), (15 <=? start - prev);
      cbn [it_start_time]; apply hhmm_fmt; lia.
  - destruct (120 <=? start - prev), (45 <=? start - prev), (15 <=? start - prev);
      cbn [it_end_time]; apply hhmm_fmt; lia.
Qed.

Lemma trailing_item_span (prev : Z) :
  0 <= prev < 1440 -> strict_chain prev 1440 [trailing_item prev].
Proof.
  intros H. simpl. exists 1440.
  unfold trailing_item, item_start, item_end.
  repeat split; try lia.
  - destruct (1440 - prev <=? 30); cbn [it_start_time]; apply hhmm_fmt; lia.
  - destruct (1440 - prev <=? 30); reflexivity.
Qed.

Lemma fill_step_in_sequence (bs : list block) :
  forall final prev from,
    0 <= from -> 0 <= prev <= 1440 ->
    strict_chain from prev final -> in_sequence prev bs ->
    exists final' prev',
      fold_left fill_step bs (final, prev) = (final', prev') /\
      prev <= prev' <= 1440 /\ strict_chain from prev' final'.
Proof.
  induction bs as [| b r IH]; intros final prev from Hf Hp Hc Hs.
  - exists final, prev. repeat split; try lia; assumption.
  - simpl in Hs. destruct Hs as (Hle & (B0 & B1 & B2) & (Ds & De) & Hr).
    cbn [fold_left]. unfold fill_step at 2.
    replace (Z.max prev (block_end b)) with (block_end b) by lia.
    assert (Hb : strict_chain (block_start b) (block_end b) [block_meta b]).
    { simpl. exists (block_end b). repeat split; assumption. }
    destruct (Z.ltb_spec prev (block_start b)) as [G | G].
    + destruct (IH ((final ++ [gap_item prev (block_start b)]) ++ [block_meta b])
                   (block_end b) from Hf ltac:(lia)) as (f' & p' & E & Hp' & Hc').
      * apply strict_chain_app with (b := block_start b); [| exact Hb].
        apply strict_chain_app with (b := prev); [exact Hc |].
        apply gap_item_span; lia.
      * exact Hr.
      * exists f', p'. repeat split; try lia; assumption.
    + assert (prev = block_start b) by lia. subst prev.
      destruct (IH (final ++ [block_meta b]) (block_end b) from Hf ltac:(lia))
        as (f' & p' & E & Hp' & Hc').
      * apply strict_chain_app with (b := block_start b); assumption.
      * exact Hr.
      * exists f', p'. repeat split; try lia; assumption.
Qed.

Lemma fill_gaps_strict_chain (bs : list block) :
  in_sequence 0 bs -> strict_chain 0 1440 (fill_gaps bs).
Proof.
  intros H. unfold fill_gaps.
  destruct (fill_step_in_sequence bs [] 0 0 ltac:(lia) ltac:(lia) eq_refl H)
    as (f' & p' & -> & Hp & Hc).
  destruct (Z.ltb_spec p' 1440) as [L | G].
  - apply strict_chain_app with (b := p'); [exact Hc |].
    apply trailing_item_span. lia.
  - replace 1440 with p' by lia. exact Hc.
Qed.

(** ** A strict chain is already sorted, and it tiles *)

Lemma strict_chain_chains (items : list item) :
  forall from upto, strict_chain from upto items -> chains from upto items = true.
Proof.
  induction items as [| i r IH]; intros from upto H; simpl in *.
  - apply Z.eqb_eq. exact H.
  - destruct H as (e & -> & -> & _ & Hr).
    rewrite Z.eqb_refl. simpl. apply IH. exact Hr.
Qed.

Lemma strict_chain_starts (items : list item) :
  forall from upto, strict_chain from upto items ->
    Forall (fun i => from <= get_or (item_start i) 0) items.
Proof.
  induction items as [| i r IH]; intros from upto H; simpl in *.
  - constructor.
  - destruct H as (e & Hs & He & Hlt & Hr).
    constructor.
    + rewrite Hs. simpl. lia.
    + eapply Forall_impl; [| apply (IH _ _ Hr)].
      intros x Hx. simpl in Hx. lia.
Qed.

Lemma sort_items_of_chain (items : list item) :
  forall from upto, strict_chain from upto items ->
    sort_items_by_start items = items.
Proof.
  unfold sort_items_by_start.
  induction items as [| i r IH]; intros from upto H; [reflexivity |].
  simpl in H. destruct H as (e & Hs & He & Hlt & Hr).
  cbn [Sorting.sort]. rewrite (IH _ _ Hr).
  destruct r as [| j r']; [reflexivity |].
  cbn [Sorting.insert].
  pose proof (strict_chain_starts _ _ _ Hr) as F. inversion F as [| ? ? Fj _]; subst.
  rewrite Hs. cbn [get_or].
  destruct (Z.leb_spec from (get_or (item_start j) 0)); [reflexivity | lia].
Qed.

Lemma strict_chain_tiles (items : list item) :
  strict_chain 0 1440 items -> tiles_day items = true.
Proof.
  intros H. unfold tiles_day.
  destruct items as [| i r]; [simpl in H; discriminate H |].
  rewrite (sort_items_of_chain _ _ _ H). apply strict_chain_chains. exact H.
Qed.

(** ** The conflict loop keeps the kept blocks apart *)

Lemma overlaps_sym (a b : block) : overlaps a b = overlaps b a.
Proof. unfold overlaps. rewrite Z.max_comm, Z.min_comm. reflexivity. Qed.

Lemma in_place (b x : block) (acc : list block) :
  In x (place b acc) -> x = b \/ In x acc.
Proof.
  induction acc as [| e r IH]; simpl.
  - intros [E | []]. left. congruence.
  - destruct (overlaps b e).
    + destruct (_ <? _); simpl.
      * intros [E | H]; [left; congruence | right; right; exact H].
      * intros [E | H]; [right; left; exact E | right; right; exact H].
    + simpl. intros [E | H]; [right; left; exact E |].
      destruct (IH H) as [L | R]; [left; exact L | right; right; exact R].
Qed.

(** Two kept blocks that both overlap a later block would overlap each
    other. *)
Lemma common_point (b e y : block) :
  block_start b < block_end b ->
  block_start e <= block_start b -> block_start y <= block_start b ->
  overlaps b e = true -> overlaps e y = false -> overlaps b y = false.
Proof.
  unfold overlaps. intros Hb He Hy Hbe Hey.
  apply Z.ltb_lt in Hbe. apply Z.ltb_ge in Hey. apply Z.ltb_ge. lia.
Qed.

Lemma place_keeps_apart (b : block) (acc : list block) :
  block_start b < block_end b ->
  Forall (fun e => block_start e <= block_start b) acc ->
  pairwise_apart acc -> pairwise_apart (place b acc).
Proof.
  intros Hb. induction acc as [| e r IH]; intros Hs Hp; simpl.
  - split; [constructor | exact I].
  - simpl in Hp. destruct Hp as [Her Hr].
    inversion Hs as [| ? ? He Hsr]; subst.
    destruct (overlaps b e) eqn:O.
    + destruct (_ <? _); simpl.
      * split; [| exact Hr].
        rewrite Forall_forall in *. intros y Hy.
        apply (common_point b e y); auto.
      * split; assumption.
    + simpl. split; [| apply IH; assumption].
      rewrite Forall_forall in *. intros y Hy.
      apply in_place in Hy. destruct Hy as [-> | Hy].
      * rewrite overlaps_sym. exact O.
      * apply Her. exact Hy.
Qed.

Lemma resolve_keeps_apart (blocks : list block) :
  forall acc,
    start_ordered blocks ->
    Forall (fun b => block_start b < block_end b) blocks ->
    Forall (fun e => Forall (fun b => block_start e <= block_start b) blocks) acc ->
    pairwise_apart acc ->
    pairwise_apart (fold_left (fun acc b => place b acc) blocks acc).
Proof.
  induction blocks as [| b r IH]; intros acc Ho Hpos Hacc Hp; simpl; [exact Hp |].
  simpl in Ho. destruct Ho as [Hbr Hor].
  inversion Hpos as [| ? ? Hb Hposr]; subst.
  apply IH; try assumption.
  - apply Forall_forall. intros x Hx.
    apply in_place in Hx. destruct Hx as [-> | Hx].
    + exact Hbr.
    + rewrite Forall_forall in Hacc.
      specialize (Hacc x Hx). inversion Hacc; assumption.
  - apply place_keeps_apart; [exact Hb | | exact Hp].
    apply Forall_forall. intros e He. rewrite Forall_forall in Hacc.
    specialize (Hacc e He). inversion Hacc; assumption.
Qed.

Lemma in_resolve (blocks : list block) :
  forall acc x, In x (fold_left (fun acc b => place b acc) blocks acc) ->
    In x blocks \/ In x acc.
Proof.
  induction blocks as [| b r IH]; intros acc x H; simpl in *; [right; exact H |].
  destruct (IH _ _ H) as [L | R]; [left; right; exact L |].
  apply in_place in R. destruct R as [-> | R]; [left; left; reflexivity | right; exact R].
Qed.

(** ** Sorting by start *)

Lemma insert_ordered (x : block) (l : list block) :
  start_ordered l -> start_ordered (Sorting.insert start_leb x l).
Proof.
  induction l as [| y r IH]; intros H; simpl.
  - split; [constructor | exact I].
  - simpl in H. destruct H as [Hy Hr]. unfold start_leb at 1.
    destruct (Z.leb_spec (block_start x) (block_start y)) as [L | G]; simpl.
    + split; [| split; assumption].
      constructor; [exact L |].
      eapply Forall_impl; [| exact Hy]. intros z Hz. simpl in Hz. lia.
    + split; [| apply IH; exact Hr].
      rewrite Forall_forall in *. intros z Hz.
      apply in_insert in Hz. destruct Hz as [-> | Hz]; [lia | apply Hy; exact Hz].
Qed.

Lemma sort_blocks_ordered (l : list block) : start_ordered (sort_blocks l).
Proof.
  unfold sort_blocks. fold start_leb.
  induction l as [| x r IH]; simpl; [exact I | apply insert_ordered; exact IH].
Qed.

Lemma insert_apart (x : block) (l : list block) :
  Forall (fun y => overlaps x y = false) l -> pairwise_apart l ->
  pairwise_apart (Sorting.insert start_leb x l).
Proof.
  induction l as [| y r IH]; intros Hx Hp; simpl.
  - split; [constructor | exact I].
  - simpl in Hp. destruct Hp as [Hy Hr].
    inversion Hx as [| ? ? Hxy Hxr]; subst.
    destruct (start_leb x y); simpl.
    + split; [exact Hx | split; assumption].
    + split; [| apply IH; assumption].
      rewrite Forall_forall in *. intros z Hz.
      apply in_insert in Hz. destruct Hz as [-> | Hz].
      * rewrite overlaps_sym. exact Hxy.
      * apply Hy. exact Hz.
Qed.

Lemma sort_blocks_apart (l : list block) :
  pairwise_apart l -> pairwise_apart (sort_blocks l).
Proof.
  unfold sort_blocks. fold start_leb.
  induction l as [| x r IH]; intros H; simpl; [exact I |].
  simpl in H. destruct H as [Hx Hr].
  apply insert_apart; [| apply IH; exact Hr].
  rewrite Forall_forall in *. intros y Hy. apply Hx.
  apply in_sort in Hy. exact Hy.
Qed.

Lemma in_sort_blocks (x : block) (l : list block) :
  In x (sort_blocks l) -> In x l.
Proof. apply in_sort. Qed.

(** Ordered, apart and inside the day: the blocks are in sequence. *)
Lemma ordered_apart_in_sequence (l : list block) :
  forall prev,
    start_ordered l -> pairwise_apart l ->
    Forall inside_day l -> Forall display_ok l ->
    Forall (fun b => prev <= block_start b) l ->
    in_sequence prev l.
Proof.
  induction l as [| x r IH]; intros prev Ho Hp Hi Hd Hprev; simpl; [exact I |].
  simpl in Ho, Hp. destruct Ho as [Hxo Hro]. destruct Hp as [Hxp Hrp].
  inversion Hi as [| ? ? Hxi Hri]; subst.
  inversion Hd as [| ? ? Hxd Hrd]; subst.
  inversion Hprev as [| ? ? Hxprev _]; subst.
  repeat split; try assumption; try apply Hxi; try apply Hxd.
  apply IH; try assumption.
  rewrite Forall_forall in *. intros y Hy.
  specialize (Hxo y Hy). specialize (Hxp y Hy). specialize (Hri y Hy).
  unfold overlaps in Hxp. apply Z.ltb_ge in Hxp.
  destruct Hxi as (? & ? & ?). destruct Hri as (? & ? & ?). lia.
Qed.

(** The deterministic gap filler tiles the day whenever every block put
    forward lies inside the day, has a positive length and displays its
    own bounds. *)
Theorem coverage_when_blocks_inside_day (blocks : list block) :
  Forall inside_day blocks -> Forall display_ok blocks ->
  tiles_day (fill_gaps (sort_blocks (resolve_conflicts (sort_blocks blocks)))) = true.
Proof.
  intros Hi Hd.
  apply strict_chain_tiles. apply fill_gaps_strict_chain.
  assert (S1 : forall x, In x (resolve_conflicts (sort_blocks blocks)) -> In x blocks).
  { intros x Hx. unfold resolve_conflicts in Hx.
    apply in_resolve in Hx. destruct Hx as [Hx | []].
    apply in_sort_blocks. exact Hx. }
  assert (S2 : forall x, In x (sort_blocks (resolve_conflicts (sort_blocks blocks))) ->
                         In x blocks).
  { intros x Hx. apply S1. apply in_sort_blocks. exact Hx. }
  apply ordered_apart_in_sequence.
  - apply sort_blocks_ordered.
  - apply sort_blocks_apart. unfold resolve_conflicts.
    apply resolve_keeps_apart.
    + apply sort_blocks_ordered.
    + rewrite Forall_forall in *. intros b Hb.
      apply in_sort_blocks in Hb. destruct (Hi b Hb) as (_ & L & _). exact L.
    + constructor.
    + exact I.
  - rewrite Forall_forall in *. intros x Hx. apply Hi. apply S2. exact Hx.
  - rewrite Forall_forall in *. intros x Hx. apply Hd. apply S2. exact Hx.
  - rewrite Forall_forall in *. intros x Hx.
    destruct (Hi x (S2 x Hx)) as (L & _). exact L.
Qed.

(** [_process_core_schedule] returns a tiling of the day whenever the
    blocks it puts forward (fixed events, solver tasks, routines, meals and
    activities) all lie inside the day, have a positive length and display
    their own bounds. *)
Theorem process_core_schedule_tiles (self : Scheduler)
    (core_schedule : list ScheduledTaskInfo) (input_data : ScheduleInputData)
    (sleep_metrics : Sleep.SleepMetrics) (blocks : list block) :
  candidate_blocks self core_schedule input_data sleep_metrics = Returned blocks ->
  Forall inside_day blocks -> Forall display_ok blocks ->
  exists items,
    process_core_schedule self core_schedule input_data sleep_metrics
    = Returned items /\ tiles_day items = true.
Proof.
  intros E Hi Hd. unfold process_core_schedule. rewrite E. cbn [bind].
  eexists. split; [reflexivity |].
  apply coverage_when_blocks_inside_day; assumption.
Qed.

End CoverageFacts.

Module ScenarioFacts.
Import Py TimeUtils Clock ChronotypeM Sleep TaskPrioritizer ConstraintSolver
       Orchestrator Scenarios OrchestratorFacts CoverageFacts.

(** The blocks of scenario S1 all lie inside the day, so its items tile the
    day by [process_core_schedule_tiles]. *)
Example s1_tiles_by_coverage :
  exists profile,
    prepare_profile (default_scheduler refusing_engine) s1_input = Returned profile /\
    exists items,
      process_core_schedule (default_scheduler refusing_engine) [] s1_input
        (calculate_sleep (default_scheduler refusing_engine) profile s1_input)
      = Returned items /\
      tiles_day items = true.
Proof.
  eexists. split; [vm_compute; reflexivity |].
  eapply process_core_schedule_tiles.
  - vm_compute. reflexivity.
  - repeat constructor; vm_compute; try reflexivity; try discriminate.
  - repeat constructor; vm_compute; reflexivity.
Defined.

(** Scenario S1 runs as the specification expects, and its items tile the
    day. *)
Example s1_schedule (engine : Engine) :
  exists g,
    generate_schedule (default_scheduler engine) s1_input = Returned g /\
    map shown (scheduled_items g)
    = [("fixed_event", "Sleep Next", "00:00", "07:00", 420);
       ("routine", "Morning Routine", "07:00", "07:30", 30);
       ("meal", "Breakfast", "07:30", "07:50", 20);
       ("free_time", "Free Time", "07:50", "12:30", 280);
       ("fixed_event", "Lunch", "12:30", "13:15", 45);
       ("free_time", "Free Time", "13:15", "19:00", 345);
       ("meal", "Dinner", "19:00", "19:30", 30);
       ("free_time", "Free Time", "19:30", "22:15", 165);
       ("routine", "Evening Routine", "22:15", "23:00", 45);
       ("fixed_event", "Sleep Prev", "23:00", "24:00", 60)]%string /\
    tiles_day (scheduled_items g) = true.
Proof.
  eexists. split; [vm_compute; reflexivity |].
  split; vm_compute; reflexivity.
Qed.

(** C1 (the code at the failing input).  With dinner asked for 23:45 the
    returned schedule is not a failed one, yet its last item is the
    30-minute dinner that starts at 23:45: it is shown as ending at
    "00:00", no item ends at 24:00, the durations add up to 1455 minutes,
    and the items do not tile the day. *)
Theorem late_dinner_breaks_coverage (engine : Engine) :
  exists g,
    generate_schedule (default_scheduler engine) late_dinner_input = Returned g /\
    metrics_status (metrics g) = None /\
    map shown (scheduled_items g)
    = [("relaxation", "Relaxation", "00:00", "00:45", 45);
       ("routine", "Evening Routine", "00:45", "01:30", 45);
       ("fixed_event", "Sleep", "01:30", "09:30", 480);
       ("routine", "Morning Routine", "09:30", "10:00", 30);
       ("free_time", "Free Time", "10:00", "12:30", 150);
       ("meal", "Lunch", "12:30", "13:15", 45);
       ("free_time", "Free Time", "13:15", "23:45", 630);
       ("meal", "Dinner", "23:45", "00:00", 30)]%string /\
    fold_right Z.add 0 (map it_duration_minutes (scheduled_items g)) = 1455 /\
    tiles_day (scheduled_items g) = false.
Proof.
  eexists. split; [vm_compute; reflexivity |].
  repeat split; vm_compute; reflexivity.
Qed.

(** A second way to the same failure.  The only feasible placement of
    [late_task] is 23:00-24:00; the solver reports its end as the time
    00:00, which the gap filler reads as minute 0: the task is shown with
    a duration of -1380 minutes and the free time after dinner is emitted
    twice, 19:30-23:00 and 19:30-24:00. *)
Example late_task_duplicates_free_time :
  (exists si vs,
     prepare_solver_input (default_scheduler late_task_engine) late_task_input
       (create_chronotype_profile DEFAULT_CHRONOTYPE_CONFIG 1 INTERMEDIATE
          (str "meq") None None (1 # 2) 1)
       (SleepMetrics_new (timedelta_hours_int 8) (time_hm 1 30) (time_hm 9 30)
          None None None None) = Some si /\
     vs = create_all_vars 0 1440 0 (si_tasks si) (mk_var_state [] [] []) /\
     In (NewIntVar (VStart 0) 1380 1380) (vs_constraints vs) /\
     feasible late_task_assignment
       (fst (build_model default_solver_config si vs)) = true) /\
  exists g,
    generate_schedule (default_scheduler late_task_engine) late_task_input
    = Returned g /\
    metrics_status (metrics g) = None /\
    skipn 8 (map shown (scheduled_items g))
    = [("free_time", "Free Time", "19:30", "23:00", 210);
       ("task", "Backup", "23:00", "00:00", -1380);
       ("free_time", "Free Time", "19:30", "24:00", 270)]%string /\
    tiles_day (scheduled_items g) = false.
Proof.
  split.
  - eexists. eexists. split; [vm_compute; reflexivity |].
    split; [reflexivity |].
    split; [vm_compute; left; reflexivity | vm_compute; reflexivity].
  - eexists. split; [vm_compute; reflexivity |].
    repeat split; vm_compute; reflexivity.
Qed.

(** ** A task whose own window is too small *)

Lemma solver_task_new_rejects_small_window (id : UUID) (d prio energy es le : Z)
    (deps : list UUID) :
  le < es + d ->
  exists e, SolverTask_new id d prio energy (Some es) (Some le) deps = Raised e.
Proof.
  intros H. unfold SolverTask_new, raise.
  destruct (d <=? 0); [eexists; reflexivity |].
  cbn [opt_test].
  destruct (es <? 0); [eexists; reflexivity |].
  destruct (1440 <? le); [eexists; reflexivity |].
  destruct (Z.ltb_spec le (es + d)) as [_ | G]; [eexists; reflexivity | lia].
Qed.

Lemma solver_tasks_of_raises (target : date) (tasks : list Task) (t : Task)
    (d : Z) (tm : time) (dl : datetime) :
  In t tasks -> completed t = false -> task_dur_min t = Some d ->
  earliest_start t = Some (EsTime tm) -> deadline t = Some dl ->
  (dt_us dl - day_start_us target) / us_per_minute < minutes_of tm + d ->
  exists e, solver_tasks_of target tasks = Raised e.
Proof.
  intros Hin Hc Hd Hes Hdl Hw.
  induction tasks as [| t0 rest IH]; [contradiction Hin |].
  cbn [solver_tasks_of].
  destruct Hin as [-> | Hin].
  - rewrite Hc, Hd. unfold solver_task_of. rewrite Hes, Hdl.
    destruct (solver_task_new_rejects_small_window (id t) d
                (TaskPriority_value (priority t))
                (EnergyLevel_value (energy_level t))
                (minutes_of tm)
                ((dt_us dl - day_start_us target) / us_per_minute)
                (dependencies t) Hw) as [e ->].
    exists e. reflexivity.
  - destruct (IH Hin) as [e E].
    destruct (completed t0); [exists e; exact E |].
    destruct (task_dur_min t0) as [d0 |]; [| exists e; exact E].
    destruct (solver_task_of target t0 d0) as [st | e0];
      [| exists e0; reflexivity].
    cbn [bind]. rewrite E. exists e. reflexivity.
Qed.

(** One such task among the input makes the whole generation return the
    failed schedule, whatever the other tasks, the engine and the
    configuration are. *)
Lemma small_window_fails_generation (self : Scheduler)
    (input_data : ScheduleInputData) (t : Task) (d : Z) (tm : time)
    (dl : datetime) :
  In t (in_tasks input_data) -> completed t = false -> task_dur_min t = Some d ->
  earliest_start t = Some (EsTime tm) -> deadline t = Some dl ->
  (dt_us dl - day_start_us (in_target_date input_data)) / us_per_minute
    < minutes_of tm + d ->
  exists g,
    generate_schedule self input_data = Returned g /\
    scheduled_items g = [] /\
    metrics_status (metrics g) = Some (str "failed").
Proof.
  intros Hin Hc Hd Hes Hdl Hw.
  destruct (solver_tasks_of_raises _ _ _ _ _ _ Hin Hc Hd Hes Hdl Hw) as [e E].
  unfold generate_schedule, try_except, generate_schedule_body.
  destruct (prepare_profile self input_data) as [profile | e0];
    [| eexists; repeat split; reflexivity].
  cbn [bind]. unfold prepare_solver_input, prepare_solver_input_body.
  rewrite E. cbn [bind].
  eexists. repeat split; reflexivity.
Qed.


(** Scenario S2: the overdue task is dropped inside the solver and the
    rest of the day is scheduled. *)
Example s2_schedule :
  (exists profile,
     prepare_profile (default_scheduler s2_engine) s2_input = Returned profile /\
     prepare_solver_input (default_scheduler s2_engine) s2_input profile
       (calculate_sleep (default_scheduler s2_engine) profile s2_input)
     = Some s2_solver_input) /\
  feasible s2_assignment
    (fst (build_model default_solver_config s2_solver_input
            (create_all_vars 0 1440 0 (si_tasks s2_solver_input)
               (mk_var_state [] [] [])))) = true /\
  exists g,
    generate_schedule (default_scheduler s2_engine) s2_input = Returned g /\
    metrics_status (metrics g) = None /\
    firstn 3 (map shown (scheduled_items g))
    = [("fixed_event", "Sleep Next", "00:00", "07:00", 420);
       ("task", "Email", "07:00", "07:30", 30);
       ("meal", "Breakfast", "07:30", "07:50", 20)]%string /\
    tiles_day (scheduled_items g) = true.
Proof.
  split; [eexists; split; vm_compute; reflexivity |].
  split; [vm_compute; reflexivity |].
  eexists. split; [vm_compute; reflexivity |].
  repeat split; vm_compute; reflexivity.
Qed.



Lemma generate_schedule_always_returns_witness :
  exists g,
    generate_schedule (default_scheduler refusing_engine) blocked_day_input
    = Returned g /\
    scheduled_items g = [] /\
    metrics_status (metrics g) = Some (str "failed") /\
    warnings g <> [].
Proof.
  destruct (generate_schedule_always_returns
              (default_scheduler refusing_engine) blocked_day_input)
    as (g & Hg & Hf).
  exists g. split; [exact Hg |].
  eapply Hf.
  - vm_compute. reflexivity.
  - vm_compute. reflexivity.
  - vm_compute. reflexivity.
Defined.

(** ** Chronotype updates on the module's example data *)

Lemma stdev_floor_nonneg (l : list Q) : (0 <= stdev_floor l)%Q.
Proof.
  unfold stdev_floor.
  apply Qle_shift_div_l; [reflexivity |].
  rewrite Qmult_0_l. change 0%Q with (inject_Z 0).
  rewrite <- Zle_Qle. apply Z.sqrt_nonneg.
Qed.

Lemma profile_scores_stay_in_unit_interval_witness :
  let p0 := ChronotypeProfile_new 1 EARLY_BIRD (65 # 100) (8 # 10)
              None None [] None None in
  scores_in_unit p0 /\
  scores_in_unit
    (apply_updates stdev_floor DEFAULT_CHRONOTYPE_CONFIG p0
       [(sleep_data_early, warsaw_summer)]).
Proof.
  apply (ChronotypeFacts.profile_scores_stay_in_unit_interval stdev_floor).
  exact stdev_floor_nonneg.
Defined.

(** On that data the update does apply: strength 0.9642... and
    consistency 0.7 * 0.8 + 0.3 * 0.9642... *)
Example example_update_applies :
  let p0 := ChronotypeProfile_new 1 EARLY_BIRD (65 # 100) (8 # 10)
              None None [] None None in
  let p1 := update_chronotype_profile stdev_floor DEFAULT_CHRONOTYPE_CONFIG p0
              sleep_data_early warsaw_summer in
  primary_chronotype p1 = INTERMEDIATE /\
  (chronotype_strength p1 == 3856813 # 4000000)%Q /\
  (consistency_score p1 == (8 # 10) * (7 # 10) + (3856813 # 4000000) * (3 # 10))%Q.
Proof. cbv zeta. repeat split; vm_compute; reflexivity. Qed.

End ScenarioFacts.

Module TimeCalcFacts.
Import Py TimeUtils Clock TimeCalc PyFacts TimeUtilsFacts.

(** ** Clock arithmetic *)

Lemma us_of_time_bounds (t : time) :
  time_valid t -> 0 <= us_of_time t < us_per_day.
Proof.
  unfold time_valid, us_of_time, us_per_day, us_per_hour, us_per_minute, us_per_second.
  lia.
Qed.

Lemma time_of_us_valid (us : Z) : time_valid (time_of_us us).
Proof.
  unfold time_valid, time_of_us, us_per_day, us_per_hour, us_per_minute, us_per_second.
  cbn [hour minute second microsecond].
  pose proof (Z.mod_pos_bound us 86400000000 ltac:(lia)) as B.
  set (tod := us mod 86400000000) in *.
  repeat split; try (apply Z.mod_pos_bound; lia);
    try (apply Z.div_pos; lia).
  - assert (tod / 3600000000 < 24) by (apply Z.div_lt_upper_bound; lia). lia.
  - pose proof (Z.mod_pos_bound (tod / 60000000) 60 ltac:(lia)). lia.
  - pose proof (Z.mod_pos_bound (tod / 1000000) 60 ltac:(lia)). lia.
  - pose proof (Z.mod_pos_bound tod 1000000 ltac:(lia)). lia.
Qed.

Lemma us_of_time_of_us (us : Z) : us_of_time (time_of_us us) = us mod us_per_day.
Proof.
  unfold us_of_time, time_of_us, us_per_day, us_per_hour, us_per_minute, us_per_second.
  cbn [hour minute second microsecond].
  set (tod := us mod 86400000000).
  Z.div_mod_to_equations. lia.
Qed.


(** ** [calculate_end_time] *)

(** For a duration of up to some two thousand years either way,
    [calculate_end_time] returns a valid time of day: the start moved by
    the duration on a 24-hour clock, wrapping at midnight.  For a whole
    number of minutes the seconds are kept and the minutes are added
    modulo 1440. *)
Theorem calculate_end_time_wraps_at_midnight (start : time) (d : timedelta) :
  time_valid start ->
  Z.abs (total_microseconds d) <= 730119 * us_per_day ->
  exists t,
    calculate_end_time (Some start) (Some d) = Some t /\
    time_valid t /\
    us_of_time t = (us_of_time start + total_microseconds d) mod us_per_day /\
    (forall m, total_microseconds d = m * us_per_minute ->
       minutes_of t = (minutes_of start + m) mod 1440 /\
       second t = second start /\ microsecond t = microsecond start).
Proof.
  intros V B. unfold calculate_end_time.
  pose proof (us_of_time_bounds start V) as SB.
  set (end_us := us_of_time start + total_microseconds d) in *.
  assert (R : (1 <=? ref_date_ordinal + end_us / us_per_day)
              && (ref_date_ordinal + end_us / us_per_day <=? max_date_ordinal)
              = true).
  { unfold ref_date_ordinal, max_date_ordinal, us_per_day in *.
    apply andb_true_iff. split; apply Z.leb_le.
    - assert (-730119 <= end_us / 86400000000)
        by (apply Z.div_le_lower_bound; lia). lia.
    - assert (end_us / 86400000000 < 730121)
        by (apply Z.div_lt_upper_bound; lia). lia. }
  rewrite R. exists (time_of_us end_us).
  split; [reflexivity |].
  split; [apply time_of_us_valid |].
  split; [apply us_of_time_of_us |].
  intros m Hm.
  pose proof (time_of_us_valid end_us) as TV.
  pose proof (us_of_time_of_us end_us) as TU.
  set (t := time_of_us end_us) in *.
  unfold end_us in TU. rewrite Hm in TU.
  unfold time_valid in V, TV.
  unfold us_of_time, minutes_of, us_per_day, us_per_hour, us_per_minute,
    us_per_second in *.
  Z.div_mod_to_equations. lia.
Qed.

Lemma calculate_end_time_wraps_at_midnight_witness :
  exists t,
    calculate_end_time (Some (time_hm 23 15)) (Some (timedelta_minutes 150)) = Some t /\
    time_valid t /\
    us_of_time t
    = (us_of_time (time_hm 23 15) + total_microseconds (timedelta_minutes 150))
      mod us_per_day /\
    (forall m, total_microseconds (timedelta_minutes 150) = m * us_per_minute ->
       minutes_of t = (minutes_of (time_hm 23 15) + m) mod 1440 /\
       second t = second (time_hm 23 15) /\
       microsecond t = microsecond (time_hm 23 15)).
Proof.
  apply (calculate_end_time_wraps_at_midnight (time_hm 23 15) (timedelta_minutes 150)).
  - unfold time_valid. cbn. lia.
  - vm_compute. discriminate.
Defined.


(** ** Parsing and formatting a time of day *)

Lemma first_success_found {A B} (f : A -> option B) (l : list A) (y : B) :
  first_success f l = Some y -> exists x, In x l /\ f x = Some y.
Proof.
  induction l as [| x r IH]; simpl; [discriminate |].
  destruct (f x) as [y' |] eqn:E.
  - intros H. injection H as <-. exists x. split; [left; reflexivity | exact E].
  - intros H. destruct (IH H) as (x' & Hin & Hx). exists x'.
    split; [right; exact Hin | exact Hx].
Qed.

Lemma digit_val_bounds (c : ascii) : is_digit c = true -> 0 <= digit_val c <= 9.
Proof.
  unfold is_digit, digit_val. intros H.
  apply andb_true_iff in H. destruct H as [A B]. apply Z.leb_le in A, B. lia.
Qed.

Lemma digit_in_bounds (c : ascii) (lo hi : Z) :
  digit_in c lo hi = true -> is_digit c = true /\ lo <= digit_val c <= hi.
Proof.
  unfold digit_in. intros H.
  apply andb_true_iff in H. destruct H as [H C].
  apply andb_true_iff in H. destruct H as [A B].
  apply Z.leb_le in B, C. split; [exact A | lia].
Qed.

Lemma alternatives_H_bounds (s : pystr) (h : Z) (r : pystr) :
  In (h, r) (alternatives_H s) -> 0 <= h <= 23.
Proof.
  unfold alternatives_H. intros H.
  apply in_app_or in H. destruct H as [H | H]; [| apply in_app_or in H; destruct H as [H | H]].
  - destruct s as [| a [| b r']]; try destruct H.
    destruct (Ascii.eqb a "2"%char && digit_in b 0 3) eqn:E; [| destruct H].
    destruct H as [H | []]. apply pair_equal_spec in H. destruct H as [<- _].
    apply andb_true_iff in E. destruct E as [_ E].
    apply digit_in_bounds in E. lia.
  - destruct s as [| a [| b r']]; try destruct H.
    destruct (digit_in a 0 1 && is_digit b) eqn:E; [| destruct H].
    destruct H as [H | []]. apply pair_equal_spec in H. destruct H as [<- _].
    apply andb_true_iff in E. destruct E as [E1 E2].
    apply digit_in_bounds in E1. apply digit_val_bounds in E2. lia.
  - destruct s as [| a r']; try destruct H.
    destruct (is_digit a) eqn:E; [| destruct H].
    destruct H as [H | []]. apply pair_equal_spec in H. destruct H as [<- _].
    apply digit_val_bounds in E. lia.
Qed.

Lemma alternatives_M_bounds (s : pystr) (m : Z) (r : pystr) :
  In (m, r) (alternatives_M s) -> 0 <= m <= 59.
Proof.
  unfold alternatives_M. intros H.
  apply in_app_or in H. destruct H as [H | H].
  - destruct s as [| a [| b r']]; try destruct H.
    destruct (digit_in a 0 5 && is_digit b) eqn:E; [| destruct H].
    destruct H as [H | []]. apply pair_equal_spec in H. destruct H as [<- _].
    apply andb_true_iff in E. destruct E as [E1 E2].
    apply digit_in_bounds in E1. apply digit_val_bounds in E2. lia.
  - destruct s as [| a r']; try destruct H.
    destruct (is_digit a) eqn:E; [| destruct H].
    destruct H as [H | []]. apply pair_equal_spec in H. destruct H as [<- _].
    apply digit_val_bounds in E. lia.
Qed.

(** Whatever text it is given, [parse_time_string] returns either [None]
    or a valid time of day with no seconds: hours above 23 and minutes
    above 59 are never accepted. *)
Theorem parse_time_string_returns_valid_times (s : pystr) (t : time) :
  parse_time_string (Some s) = Some t ->
  time_valid t /\ second t = 0 /\ microsecond t = 0.
Proof.
  unfold parse_time_string, strptime_HM.
  destruct (match_HM (strip s)) as [[[h m] rest] |] eqn:E; [| discriminate].
  destruct rest; [| discriminate]. intros H. injection H as <-.
  unfold match_HM in E. apply first_success_found in E.
  destruct E as ([h' r] & Hh & E). cbn [fst snd] in E.
  destruct r as [| c r]; [discriminate |].
  destruct (Ascii.eqb c ":"%char); [| discriminate].
  apply first_success_found in E. destruct E as ([m' r'] & Hm & E).
  cbn [fst snd] in E. injection E as -> -> _.
  apply alternatives_H_bounds in Hh. apply alternatives_M_bounds in Hm.
  unfold time_valid, time_hm. cbn. lia.
Qed.

Lemma parse_time_string_returns_valid_times_witness :
  time_valid (time_hm 7 5) /\ second (time_hm 7 5) = 0 /\ microsecond (time_hm 7 5) = 0.
Proof.
  apply (parse_time_string_returns_valid_times (str " 7:5 ")). reflexivity.
Defined.

Lemma strip_unframed (a b : ascii) (body : pystr) :
  is_space a = false -> is_space b = false ->
  strip (a :: body ++ [b]) = a :: body ++ [b].
Proof.
  intros Ha Hb. unfold strip.
  rewrite (lstrip_nonspace _ _ Ha).
  assert (R : rev (a :: body ++ [b]) = b :: rev (a :: body)).
  { change (a :: body ++ [b]) with ((a :: body) ++ [b]).
    rewrite rev_app_distr. reflexivity. }
  rewrite R, (lstrip_nonspace _ _ Hb), <- R. apply rev_involutive.
Qed.

(** A valid time printed by [format_time_object] is read back by
    [parse_time_string] with its hour and minute (the format shows no
    seconds). *)
Theorem format_then_parse_time (t : time) :
  time_valid t ->
  parse_time_string (Some (format_time_object (Some t)))
  = Some (time_hm (hour t) (minute t)).
Proof.
  intros (Hh & Hm & _). unfold format_time_object, strftime_HM, two_digits.
  set (h := hour t) in *. set (m := minute t) in *.
  assert (Bh1 : 0 <= h / 10 <= 2).
  { split; [apply Z.div_pos; lia |].
    assert (h / 10 < 3) by (apply Z.div_lt_upper_bound; lia). lia. }
  assert (Bh2 : 0 <= h mod 10 <= 9) by (pose proof (Z.mod_pos_bound h 10); lia).
  assert (Bm1 : 0 <= m / 10 <= 5).
  { split; [apply Z.div_pos; lia |].
    assert (m / 10 < 6) by (apply Z.div_lt_upper_bound; lia). lia. }
  assert (Bm2 : 0 <= m mod 10 <= 9) by (pose proof (Z.mod_pos_bound m 10); lia).
  pose proof (Z.div_mod h 10 ltac:(lia)) as Dh.
  pose proof (Z.div_mod m 10 ltac:(lia)) as Dm.
  change (str ":") with [":"%char]. cbn [app].
  unfold parse_time_string.
  change ([digit_char (h / 10); digit_char (h mod 10); ":"%char;
           digit_char (m / 10); digit_char (m mod 10)])
    with (digit_char (h / 10)
          :: [digit_char (h mod 10); ":"%char; digit_char (m / 10)]
             ++ [digit_char (m mod 10)]).
  rewrite strip_unframed
    by (apply digit_not_space; apply is_digit_digit_char; lia).
  cbn [app]. unfold strptime_HM, match_HM.
  assert (M : alternatives_M [digit_char (m / 10); digit_char (m mod 10)]
              = (m, []) :: (if is_digit (digit_char (m / 10))
                            then [(digit_val (digit_char (m / 10)),
                                   [digit_char (m mod 10)])] else [])).
  { unfold alternatives_M, digit_in.
    rewrite !is_digit_digit_char, !digit_val_digit_char by lia.
    destruct (Z.leb_spec 0 (m / 10)); [| lia].
    destruct (Z.leb_spec (m / 10) 5); [| lia].
    cbn [andb app]. repeat f_equal. lia. }
  assert (T : forall v rest,
            first_success
              (fun hr : Z * pystr =>
                 match snd hr with
                 | c :: r =>
                     if Ascii.eqb c ":"%char
                     then first_success
                            (fun mr : Z * pystr => Some (fst hr, fst mr, snd mr))
                            (alternatives_M r)
                     else None
                 | [] => None
                 end)
              ((v, [":"%char; digit_char (m / 10); digit_char (m mod 10)]) :: rest)
            = Some (v, m, [])).
  { intros v rest. cbn [first_success fst snd Ascii.eqb Bool.eqb].
    rewrite M. reflexivity. }
  assert (C : h / 10 = 0 \/ h / 10 = 1 \/ h / 10 = 2) by lia.
  unfold alternatives_H, digit_in.
  rewrite !is_digit_digit_char, !digit_val_digit_char by lia.
  destruct C as [C | [C | C]]; rewrite C in *.
  - change (Ascii.eqb (digit_char 0) "2"%char) with false.
    cbn [andb]. change ((0 <=? 0) && (0 <=? 1)) with true.
    cbn [andb app]. rewrite T. repeat f_equal. lia.
  - change (Ascii.eqb (digit_char 1) "2"%char) with false.
    cbn [andb]. change ((0 <=? 1) && (1 <=? 1)) with true.
    cbn [andb app]. rewrite T. repeat f_equal. lia.
  - change (Ascii.eqb (digit_char 2) "2"%char) with true.
    destruct (Z.leb_spec 0 (h mod 10)); [| lia].
    destruct (Z.leb_spec (h mod 10) 3); [| lia].
    cbn [andb app]. rewrite T. repeat f_equal. lia.
Qed.

Lemma format_then_parse_time_witness :
  parse_time_string (Some (format_time_object (Some (mk_time 16 5 30 0))))
  = Some (time_hm 16 5).
Proof.
  apply (format_then_parse_time (mk_time 16 5 30 0)).
  unfold time_valid. cbn. lia.
Defined.

End TimeCalcFacts.

Module DurationFacts.
Import Py TimeUtils PyFacts TimeUtilsFacts TimeCalcFacts.

(** ** Sign of a printed duration *)

(** A negative duration of a second or more prints as ["-"] followed by
    the text of the same duration taken positive. *)
Theorem format_timedelta_of_negative (us : Z) (show_seconds : bool) :
  1000000 <= us ->
  format_timedelta (Some (mk_timedelta (- us))) show_seconds
  = "-"%char :: format_timedelta (Some (mk_timedelta us)) show_seconds.
Proof.
  intros H. unfold format_timedelta, int_total_seconds. cbn [total_microseconds].
  rewrite Z.quot_opp_l by lia.
  assert (P : 1 <= Z.quot us 1000000).
  { apply Z.quot_le_lower_bound; lia. }
  set (s := Z.quot us 1000000) in *.
  destruct (Z.ltb_spec (- s) 0) as [_ | C]; [| lia].
  destruct (Z.ltb_spec s 0) as [C | _]; [lia |].
  rewrite Z.abs_opp.
  set (parts := match _ ++ _ with [] => _ | _ => _ end).
  destruct parts as [| p ps].
  - destruct (Z.eqb_spec (Z.abs s) 0) as [C | _]; [lia |].
    destruct (Z.ltb_spec 0 (Z.abs s)) as [_ | C]; [reflexivity | lia].
  - reflexivity.
Qed.

Lemma format_timedelta_of_negative_witness :
  format_timedelta (Some (mk_timedelta (- 5400000000))) false
  = "-"%char :: format_timedelta (Some (mk_timedelta 5400000000)) false.
Proof. apply (format_timedelta_of_negative 5400000000 false). lia. Defined.


(** ** Texts that hold no digit *)

Lemma match_at_without_digit (c : ascii) (r : pystr) :
  is_digit c = false -> match_at (c :: r) = None.
Proof. intros H. unfold match_at. cbn [span]. rewrite H. reflexivity. Qed.

Lemma findall_fuel_without_digit (f : nat) (s : pystr) :
  Forall (fun c => is_digit c = false) s -> findall_fuel f s = [].
Proof.
  revert s. induction f as [| f IH]; intros s H; [reflexivity |].
  destruct s as [| c r]; [reflexivity |].
  inversion H as [| ? ? Hc Hr]; subst.
  cbn [findall_fuel]. rewrite (match_at_without_digit c r Hc). apply IH. exact Hr.
Qed.

Lemma lower_char_not_digit (c : ascii) :
  is_digit c = false -> is_digit (lower_char c) = false.
Proof.
  intros H. unfold lower_char.
  destruct ((65 <=? code c) && (code c <=? 90)) eqn:U; [| exact H].
  apply andb_true_iff in U. destruct U as [A B]. apply Z.leb_le in A, B.
  unfold is_digit, code. rewrite nat_ascii_embedding.
  - apply andb_false_iff. right. apply Z.leb_gt. unfold code in *. lia.
  - unfold code in *. lia.
Qed.

Lemma lstrip_keeps {P : ascii -> Prop} (s : pystr) :
  Forall P s -> Forall P (lstrip s).
Proof.
  induction s as [| c r IH]; intros H; [constructor |].
  inversion H; subst. simpl. destruct (is_space c); [apply IH; assumption | exact H].
Qed.

Lemma strip_keeps {P : ascii -> Prop} (s : pystr) :
  Forall P s -> Forall P (strip s).
Proof.
  intros H. unfold strip.
  apply Forall_rev. apply lstrip_keeps. apply Forall_rev. apply lstrip_keeps. exact H.
Qed.

(** A text without a single digit is never read as a duration. *)
Theorem parse_duration_string_needs_a_digit (s : pystr) :
  Forall (fun c => is_digit c = false) s ->
  parse_duration_string (Some s) = None.
Proof.
  intros H. unfold parse_duration_string.
  destruct (strip s); [reflexivity |].
  unfold findall. rewrite findall_fuel_without_digit; [reflexivity |].
  apply strip_keeps. unfold lower. apply Forall_map.
  eapply Forall_impl; [| exact H]. intros c Hc. apply lower_char_not_digit. exact Hc.
Qed.

Lemma parse_duration_string_needs_a_digit_witness :
  parse_duration_string (Some (str "two hours")) = None.
Proof.
  apply (parse_duration_string_needs_a_digit (str "two hours")).
  repeat constructor.
Defined.

(** ** A number with one unit, or none *)

Lemma match_at_plain (ds : pystr) :
  digits ds -> match_at ds = Some ((ds, []), []).
Proof.
  intros [Hd Hne]. unfold match_at.
  rewrite <- (app_nil_r ds) at 1.
  rewrite (span_all is_digit ds [] Hd I).
  destruct ds as [| d0 ds']; [contradiction Hne; reflexivity |].
  reflexivity.
Qed.

Lemma strip_digits (ds : pystr) :
  Forall (fun c => is_digit c = true) ds -> strip ds = ds.
Proof.
  intros H. unfold strip.
  assert (L : forall l, Forall (fun c => is_digit c = true) l -> lstrip l = l).
  { intros l Hl. destruct l as [| c r]; [reflexivity |].
    inversion Hl; subst. apply lstrip_nonspace. apply digit_not_space. assumption. }
  rewrite (L ds H). rewrite (L (rev ds)) by (apply Forall_rev; exact H).
  apply rev_involutive.
Qed.

(** A run of digits [ds] of value [v] is read as [v] minutes when it
    stands alone or is followed by [m], as [60 v] minutes when followed by
    [h], and as a zero duration when followed by [s]: seconds are
    dropped, not rejected. *)
Theorem parse_duration_string_units (ds : pystr) :
  digits ds -> 60 * digits_val ds <= timedelta_max_minutes ->
  parse_duration_string (Some ds) = Some (timedelta_minutes (digits_val ds)) /\
  parse_duration_string (Some (ds ++ str "m"))
  = Some (timedelta_minutes (digits_val ds)) /\
  parse_duration_string (Some (ds ++ str "h"))
  = Some (timedelta_minutes (60 * digits_val ds)) /\
  parse_duration_string (Some (ds ++ str "s")) = Some (timedelta_minutes 0).
Proof.
  intros D B.
  assert (V : 0 <= digits_val ds).
  { destruct D as [Hd _]. unfold digits_val.
    assert (G : forall l a, Forall (fun c => is_digit c = true) l -> 0 <= a ->
                0 <= fold_left (fun a c => 10 * a + digit_val c) l a).
    { induction l as [| c r IH]; intros a Hl Ha; [exact Ha |].
      inversion Hl as [| ? ? Hc Hr]; subst. cbn [fold_left]. apply IH; [exact Hr |].
      pose proof (digit_val_bounds c Hc). lia. }
    apply G; [exact Hd | lia]. }
  assert (NE : forall tail, ds ++ tail <> []).
  { intros tail C. destruct D as [_ N]. destruct ds; [apply N; reflexivity | discriminate C]. }
  change (str "m") with ["m"%char]. change (str "h") with ["h"%char].
  change (str "s") with ["s"%char].
  repeat split.
  - apply parse_ok with (matches := [(ds, [])])
      (total := (0 + inject_Z (digits_val ds))%Q) (parts := [] ++ ds ++ []).
    + apply strip_digits. apply D.
    + apply lower_digits. apply D.
    + rewrite <- (app_nil_r ds). apply NE.
    + unfold findall. cbn [findall_fuel]. rewrite match_at_plain by exact D.
      rewrite findall_fuel_nil. reflexivity.
    + discriminate.
    + cbn [sum_matches]. rewrite float_of_digits by exact D. reflexivity.
    + rewrite app_nil_r. reflexivity.
    + ring.
    + lia.
  - apply parse_ok with (matches := [(ds, ["m"%char])])
      (total := (0 + inject_Z (digits_val ds))%Q) (parts := [] ++ ds ++ ["m"%char]).
    + apply (strip_framed ds [] "m"%char); [exact D | reflexivity].
    + apply lower_token; [exact D | reflexivity].
    + apply NE.
    + unfold findall. rewrite findall_fuel_token by (exact D || reflexivity).
      rewrite findall_fuel_nil. reflexivity.
    + discriminate.
    + rewrite sum_matches_m by exact D. reflexivity.
    + reflexivity.
    + ring.
    + lia.
  - apply parse_ok with (matches := [(ds, ["h"%char])])
      (total := (0 + inject_Z (digits_val ds) * 60)%Q) (parts := [] ++ ds ++ ["h"%char]).
    + apply (strip_framed ds [] "h"%char); [exact D | reflexivity].
    + apply lower_token; [exact D | reflexivity].
    + apply NE.
    + unfold findall. rewrite findall_fuel_token by (exact D || reflexivity).
      rewrite findall_fuel_nil. reflexivity.
    + discriminate.
    + rewrite sum_matches_h by exact D. reflexivity.
    + reflexivity.
    + rewrite inject_Z_mult. ring.
    + lia.
  - apply parse_ok with (matches := [(ds, ["s"%char])])
      (total := 0%Q) (parts := [] ++ ds ++ ["s"%char]).
    + apply (strip_framed ds [] "s"%char); [exact D | reflexivity].
    + apply lower_token; [exact D | reflexivity].
    + apply NE.
    + unfold findall. rewrite findall_fuel_token by (exact D || reflexivity).
      rewrite findall_fuel_nil. reflexivity.
    + discriminate.
    + reflexivity.
    + reflexivity.
    + reflexivity.
    + unfold timedelta_max_minutes. lia.
Qed.

Lemma parse_duration_string_units_witness :
  parse_duration_string (Some (str "45")) = Some (timedelta_minutes (digits_val (str "45"))) /\
  parse_duration_string (Some (str "45" ++ str "m"))
  = Some (timedelta_minutes (digits_val (str "45"))) /\
  parse_duration_string (Some (str "45" ++ str "h"))
  = Some (timedelta_minutes (60 * digits_val (str "45"))) /\
  parse_duration_string (Some (str "45" ++ str "s")) = Some (timedelta_minutes 0).
Proof.
  apply (parse_duration_string_units (str "45")).
  - split; [repeat constructor | discriminate].
  - vm_compute. discriminate.
Defined.


(** ** Minutes to a time and back *)


End DurationFacts.

Module RoundingFacts.
Import Py PyFacts QFacts.

Lemma round_mono (p q : Q) : (p <= q)%Q -> round p <= round q.
Proof.
  intros H.
  pose proof (Qfloor_resp_le _ _ H) as F.
  destruct (Z.eq_dec (Qfloor p) (Qfloor q)) as [E | N].
  - unfold round. rewrite <- E.
    destruct (Qcompare (p - inject_Z (Qfloor p)) (1 # 2)) eqn:Cp;
      destruct (Qcompare (q - inject_Z (Qfloor p)) (1 # 2)) eqn:Cq;
      try (destruct (Z.even (Qfloor p))); try lia; exfalso;
      repeat match goal with
             | C : (_ ?= _)%Q = Eq |- _ => apply Qeq_alt in C
             | C : (_ ?= _)%Q = Lt |- _ => apply Qlt_alt in C
             | C : (_ ?= _)%Q = Gt |- _ => apply Qgt_alt in C
             end; lra.
  - destruct (round_floor_cases p) as [Rp | Rp];
      destruct (round_floor_cases q) as [Rq | Rq]; lia.
Qed.

Lemma round_between (lo hi : Z) (q : Q) :
  (inject_Z lo <= q <= inject_Z hi)%Q -> lo <= round q <= hi.
Proof.
  intros [L H].
  pose proof (round_mono _ _ L) as A. pose proof (round_mono _ _ H) as B.
  rewrite round_inject_Z in A, B. lia.
Qed.

Lemma Qmax_mono (a b b' : Q) : (b <= b')%Q -> (Qmax a b <= Qmax a b')%Q.
Proof.
  intros H.
  destruct (Qmax_cases a b) as [[-> A] | [-> A]];
    destruct (Qmax_cases a b') as [[-> B] | [-> B]].
  - apply Qle_refl.
  - exact B.
  - eapply Qle_trans; [exact H | exact B].
  - exact H.
Qed.

Lemma Qmin_mono (a b b' : Q) : (b <= b')%Q -> (Qmin a b <= Qmin a b')%Q.
Proof.
  intros H.
  destruct (Qmin_cases a b) as [[-> A] | [-> A]];
    destruct (Qmin_cases a b') as [[-> B] | [-> B]].
  - apply Qle_refl.
  - eapply Qle_trans; [exact A | exact H].
  - exact A.
  - exact H.
Qed.

Lemma Qmax_lower (a b : Q) : (a <= Qmax a b)%Q /\ (b <= Qmax a b)%Q.
Proof.
  destruct (Qmax_cases a b) as [[-> A] | [-> A]]; split;
    try apply Qle_refl; assumption.
Qed.

Lemma Qmin_upper (a b : Q) : (Qmin a b <= a)%Q /\ (Qmin a b <= b)%Q.
Proof.
  destruct (Qmin_cases a b) as [[-> A] | [-> A]]; split;
    try apply Qle_refl; assumption.
Qed.

End RoundingFacts.

Module SleepWindowFacts.
Import Py TimeUtils Clock ChronotypeM Sleep PyFacts QFacts RoundingFacts TimeCalcFacts.

(** ** Recommended duration *)

Lemma timedelta_hours_mono (a b : Q) :
  (a <= b)%Q ->
  total_microseconds (timedelta_hours a) <= total_microseconds (timedelta_hours b).
Proof.
  intros H. unfold timedelta_hours. cbn [total_microseconds].
  apply round_mono. apply Qmult_le_compat_r; [exact H | discriminate].
Qed.

(** With the default configuration every age from 0 to 120 gets a
    recommendation between six and a half and ten hours, whatever the
    sleep-need scale; any other age is refused with [ValueError]. *)
Theorem recommended_duration_default_bounds (age : Z) (scale : option Q) :
  (0 <= age <= 120 ->
   exists d, get_recommended_sleep_duration DEFAULT_SLEEP_CONFIG (Some age) scale
             = Returned d /\
             23400000000 <= total_microseconds d <= 36000000000) /\
  (~ 0 <= age <= 120 ->
   exists msg, get_recommended_sleep_duration DEFAULT_SLEEP_CONFIG (Some age) scale
               = Raised (mk_exn ValueError msg)).
Proof.
  split.
  - intros A. unfold get_recommended_sleep_duration.
    destruct (Z.leb_spec 0 age); [| lia]. destruct (Z.leb_spec age 120); [| lia].
    cbn [andb negb].
    set (adj := match scale with
                | Some s => if Qle_bool 0 s && Qle_bool s 100
                            then (((s - 50) / 50) * max_sleep_need_adj DEFAULT_SLEEP_CONFIG)%Q
                            else 0%Q
                | None => 0%Q
                end).
    assert (Badj : (-1 <= adj <= 1)%Q).
    { unfold adj. destruct scale as [s |]; [| split; discriminate].
      destruct (Qle_bool 0 s && Qle_bool s 100) eqn:E; [| split; discriminate].
      apply andb_true_iff in E. destruct E as [E1 E2].
      apply Qle_bool_iff in E1, E2. cbn [max_sleep_need_adj DEFAULT_SLEEP_CONFIG].
      assert (E : ((s - 50) / 50 * 1 == (s - 50) * (1 # 50))%Q) by field.
      rewrite E. split; lra. }
    assert (G : forall min_h max_h : Q,
              (7 <= min_h)%Q -> (max_h <= 10)%Q -> (min_h <= max_h)%Q ->
              (15 <= min_h + max_h <= 18)%Q ->
              (inject_Z 23400000000
               <= Qmax (Qmax 4 (min_h - 1)) (Qmin (Qmin 12 (max_h + 1))
                                               ((min_h + max_h) / 2 + adj))
                  * inject_Z 3600000000
               <= inject_Z 36000000000)%Q).
    { intros min_h max_h H1 H2 H3 H4.
      set (x := ((min_h + max_h) / 2 + adj)%Q).
      assert (Bx : (13 # 2 <= x <= 10)%Q).
      { unfold x.
        assert (E : ((min_h + max_h) / 2 == (min_h + max_h) * (1 # 2))%Q) by field.
        rewrite E. split; lra. }
      destruct (Qmax_cases 4 (min_h - 1)) as [[-> L1] | [-> L1]];
        destruct (Qmin_cases 12 (max_h + 1)) as [[-> L2] | [-> L2]];
        match goal with
        | |- context [Qmax ?a (Qmin ?b x)] =>
            destruct (Qmin_cases b x) as [[-> L3] | [-> L3]];
            match goal with
            | |- context [Qmax ?c ?d] =>
                destruct (Qmax_cases c d) as [[-> L4] | [-> L4]]
            end
        end;
        change (inject_Z 23400000000) with (23400000000 # 1)%Q;
        change (inject_Z 36000000000) with (36000000000 # 1)%Q;
        change (inject_Z 3600000000) with (3600000000 # 1)%Q;
        split; lra. }
    cbn [guideline_teen guideline_young_adult guideline_adult guideline_senior
         DEFAULT_SLEEP_CONFIG].
    destruct (age <? 18); [| destruct (age <? 26); [| destruct (age <? 65)]];
      eexists; (split; [reflexivity |]);
      unfold timedelta_hours; cbn [total_microseconds];
      apply round_between; apply G; lra.
  - intros A. unfold get_recommended_sleep_duration.
    destruct (Z.leb_spec 0 age); destruct (Z.leb_spec age 120);
      try lia; cbn [andb negb]; eexists; reflexivity.
Qed.

Lemma recommended_duration_default_bounds_witness :
  (exists d, get_recommended_sleep_duration DEFAULT_SLEEP_CONFIG (Some 30) (Some 75%Q)
             = Returned d /\
             23400000000 <= total_microseconds d <= 36000000000) /\
  (exists msg, get_recommended_sleep_duration DEFAULT_SLEEP_CONFIG (Some 130) (Some 75%Q)
               = Raised (mk_exn ValueError msg)).
Proof.
  split.
  - apply (proj1 (recommended_duration_default_bounds 30 (Some 75%Q))). lia.
  - apply (proj2 (recommended_duration_default_bounds 130 (Some 75%Q))). lia.
Defined.


(** For one age and one configuration whose adjustment span is not
    negative, asking for more sleep on the 0..100 scale never shortens
    the recommendation. *)
Theorem recommended_duration_grows_with_scale (cfg : SleepConfig) (age : Z)
    (s1 s2 : Q) (d1 d2 : timedelta) :
  (0 <= max_sleep_need_adj cfg)%Q ->
  (0 <= s1)%Q -> (s1 <= s2)%Q -> (s2 <= 100)%Q ->
  get_recommended_sleep_duration cfg (Some age) (Some s1) = Returned d1 ->
  get_recommended_sleep_duration cfg (Some age) (Some s2) = Returned d2 ->
  total_microseconds d1 <= total_microseconds d2.
Proof.
  intros Hadj H1 H12 H2. unfold get_recommended_sleep_duration.
  destruct (negb ((0 <=? age) && (age <=? 120))); [discriminate |].
  set (g := if age <? 18 then guideline_teen cfg
            else if age <? 26 then guideline_young_adult cfg
            else if age <? 65 then guideline_adult cfg
            else guideline_senior cfg).
  destruct g as [min_h max_h].
  assert (S1 : Qle_bool 0 s1 && Qle_bool s1 100 = true).
  { apply andb_true_iff. split; apply Qle_bool_iff; lra. }
  assert (S2 : Qle_bool 0 s2 && Qle_bool s2 100 = true).
  { apply andb_true_iff. split; apply Qle_bool_iff; lra. }
  rewrite S1, S2. intros E1 E2. injection E1 as <-. injection E2 as <-.
  apply timedelta_hours_mono. apply Qmax_mono. apply Qmin_mono.
  apply Qplus_le_r.
  assert (E : forall s, ((s - 50) / 50 * max_sleep_need_adj cfg
                         == (s - 50) * ((1 # 50) * max_sleep_need_adj cfg))%Q)
    by (intros s; field).
  rewrite !E. apply Qmult_le_compat_r; [lra |].
  apply Qmult_le_0_compat; [discriminate | exact Hadj].
Qed.

Lemma recommended_duration_grows_with_scale_witness :
  total_microseconds (timedelta_hours (15 # 2)) <= total_microseconds (timedelta_hours (17 # 2)).
Proof.
  apply (recommended_duration_grows_with_scale DEFAULT_SLEEP_CONFIG 30 25 75);
    try reflexivity; discriminate.
Defined.

(** ** Recommended window *)

Lemma time_of_us_of_time (t : time) : time_valid t -> time_of_us (us_of_time t) = t.
Proof.
  intros V. destruct t as [h m s u]. unfold time_valid in V. cbn in V.
  unfold time_of_us, us_of_time, us_per_day, us_per_hour, us_per_minute, us_per_second.
  cbn [hour minute second microsecond].
  set (us := h * 3600000000 + m * 60000000 + s * 1000000 + u).
  assert (B : 0 <= us < 86400000000) by (unfold us; lia).
  rewrite (Z.mod_small us) by exact B.
  f_equal; unfold us; Z.div_mod_to_equations; lia.
Qed.

(** For every age from 0 to 120 a window is returned; its two times are
    valid times of day, and the bedtime moved forward by the recommended
    duration lands, on the 24-hour clock, on the wake time.  With the
    chronotype scale at its neutral 50 and a preferred wake time given,
    the recommended wake time is that preferred time. *)
Theorem sleep_window_is_consistent (cfg : SleepConfig) (age : Z)
    (chronotype : Chronotype) (target_wake_time : option time)
    (sleep_need_scale chronotype_scale : option Q) :
  0 <= age <= 120 ->
  exists m,
    calculate_sleep_window cfg (Some age) chronotype target_wake_time
      sleep_need_scale chronotype_scale = Returned m /\
    time_valid (ideal_bedtime m) /\ time_valid (ideal_wake_time m) /\
    (us_of_time (ideal_bedtime m) + total_microseconds (ideal_duration m))
      mod us_per_day
    = us_of_time (ideal_wake_time m) /\
    (forall w, target_wake_time = Some w -> time_valid w ->
               chronotype_scale = Some 50%Q -> ideal_wake_time m = w).
Proof.
  intros A. unfold calculate_sleep_window.
  destruct (get_recommended_sleep_duration cfg (Some age) sleep_need_scale)
    as [d | e] eqn:E.
  2:{ exfalso. unfold get_recommended_sleep_duration in E.
      destruct (Z.leb_spec 0 age); [| lia]. destruct (Z.leb_spec age 120); [| lia].
      cbn [andb negb] in E.
      destruct (if age <? 18 then _ else _) as [a b]. discriminate E. }
  cbn [bind]. eexists. split; [reflexivity |].
  unfold SleepMetrics_new. cbn [ideal_bedtime ideal_wake_time ideal_duration].
  split; [apply time_of_us_valid |]. split; [apply time_of_us_valid |].
  split.
  - rewrite !us_of_time_of_us. rewrite Zplus_mod_idemp_l. f_equal. lia.
  - intros w -> V ->.
    change (Qle_bool 0 50 && Qle_bool 50 100) with true. cbv iota.
    assert (Z0 : total_microseconds
                   (timedelta_hours ((50 - 50) / 50 * max_chrono_adj cfg)) = 0).
    { unfold timedelta_hours. cbn [total_microseconds].
      rewrite (round_comp _ (inject_Z 0)); [apply round_inject_Z |].
      change (inject_Z 0) with 0%Q. field. }
    rewrite Z0, Z.add_0_r. apply time_of_us_of_time. exact V.
Qed.

Lemma sleep_window_is_consistent_witness :
  exists m,
    calculate_sleep_window DEFAULT_SLEEP_CONFIG (Some 30) INTERMEDIATE
      (Some (time_hm 7 0)) (Some 50%Q) (Some 50%Q) = Returned m /\
    time_valid (ideal_bedtime m) /\ time_valid (ideal_wake_time m) /\
    (us_of_time (ideal_bedtime m) + total_microseconds (ideal_duration m))
      mod us_per_day
    = us_of_time (ideal_wake_time m) /\
    (forall w, Some (time_hm 7 0) = Some w -> time_valid w ->
               Some 50%Q = Some 50%Q -> ideal_wake_time m = w).
Proof.
  apply (sleep_window_is_consistent DEFAULT_SLEEP_CONFIG 30 INTERMEDIATE
           (Some (time_hm 7 0)) (Some 50%Q) (Some 50%Q)).
  lia.
Defined.

End SleepWindowFacts.

Module SleepScoreFacts.
Import Py TimeUtils Clock ChronotypeM Sleep PyFacts QFacts RoundingFacts.

Lemma per_unit_nonneg (x : Q) (k : Z) :
  (0 <= x)%Q -> (0 <= x / inject_Z (Z.max 1 k))%Q.
Proof.
  intros H. apply Qle_shift_div_l.
  - change 0%Q with (inject_Z 0). rewrite <- Zlt_Qlt. lia.
  - lra.
Qed.

(** [max(0, top - penalty)] with a penalty that is not negative. *)
Lemma penalised_bounds (top penalty : Q) :
  (0 <= top)%Q -> (0 <= penalty)%Q -> (0 <= Qmax 0 (top - penalty) <= top)%Q.
Proof.
  intros Ht Hp. destruct (Qmax_cases 0 (top - penalty)) as [[-> _] | [-> L]]; lra.
Qed.

Lemma duration_score_bounds (cfg : SleepConfig) (actual ideal : timedelta) :
  (0 <= calculate_duration_score cfg actual ideal <= 100)%Q.
Proof.
  unfold calculate_duration_score.
  set (diff := (Qabs (total_seconds actual - total_seconds ideal) / 60)%Q).
  destruct (Qle_bool diff (inject_Z (duration_tolerance cfg))) eqn:E; [lra |].
  assert (G : (inject_Z (duration_tolerance cfg) < diff)%Q).
  { destruct (Qlt_le_dec (inject_Z (duration_tolerance cfg)) diff) as [L | L];
      [exact L |]. apply Qle_bool_iff in L. congruence. }
  apply penalised_bounds; [lra |].
  apply Qmult_le_0_compat; [lra |]. apply per_unit_nonneg. lra.
Qed.

Lemma timing_part_bounds (cfg : SleepConfig) (diff_m : Z) :
  (0 <= timing_part_score cfg diff_m <= 50)%Q.
Proof.
  unfold timing_part_score.
  assert (H50 : (100 / 2 == 50)%Q) by reflexivity.
  destruct (Z.leb_spec diff_m (timing_tolerance cfg)) as [L | G]; [lra |].
  assert (P : (0 <= inject_Z (diff_m - timing_tolerance cfg)
                    * (100 / 2 / inject_Z (Z.max 1 (timing_penalty_range cfg))))%Q).
  { apply Qmult_le_0_compat.
    - change 0%Q with (inject_Z 0). rewrite <- Zle_Qle. lia.
    - apply per_unit_nonneg. lra. }
  destruct (penalised_bounds (100 / 2) _ ltac:(lra) P). lra.
Qed.

Lemma heart_rate_part_bounds (top : Q) (gap k : Z) :
  (0 <= top)%Q -> 0 <= gap ->
  (0 <= Qmax 0 (top - inject_Z gap * (top / inject_Z (Z.max 1 k))) <= top)%Q.
Proof.
  intros Ht Hg. apply penalised_bounds; [exact Ht |].
  apply Qmult_le_0_compat.
  - change 0%Q with (inject_Z 0). rewrite <- Zle_Qle. exact Hg.
  - apply per_unit_nonneg. exact Ht.
Qed.

(** Each of the three components of the sleep-quality score lies between
    0 and 100: duration and timing for every configuration, and the
    physiological one whenever its two sub-weights are not negative and
    add up to at most 1. *)
Theorem score_components_within_0_100 (cfg : SleepConfig)
    (actual ideal : timedelta) (actual_bed actual_wake ideal_bed ideal_wake : time)
    (heart_rate_data : option (list (datetime * Z)))
    (hrv_data : option (list (datetime * Q))) :
  (0 <= calculate_duration_score cfg actual ideal <= 100)%Q /\
  (0 <= calculate_timing_score cfg actual_bed actual_wake ideal_bed ideal_wake
     <= 100)%Q /\
  ((0 <= Dict.get_default pystr_eqb (physio_weights cfg) (str "hr") (5 # 10))%Q ->
   (0 <= Dict.get_default pystr_eqb (physio_weights cfg) (str "hrv") (5 # 10))%Q ->
   (Dict.get_default pystr_eqb (physio_weights cfg) (str "hr") (5 # 10)
    + Dict.get_default pystr_eqb (physio_weights cfg) (str "hrv") (5 # 10) <= 1)%Q ->
   (0 <= calculate_physiological_score cfg heart_rate_data hrv_data <= 100)%Q).
Proof.
  split; [apply duration_score_bounds |]. split.
  - unfold calculate_timing_score.
    match goal with
    | |- (0 <= timing_part_score cfg ?a + timing_part_score cfg ?b <= 100)%Q =>
        pose proof (timing_part_bounds cfg a); pose proof (timing_part_bounds cfg b)
    end. lra.
  - intros W1 W2 W3. unfold calculate_physiological_score.
    set (w1 := Dict.get_default pystr_eqb (physio_weights cfg) (str "hr") (5 # 10)) in *.
    set (w2 := Dict.get_default pystr_eqb (physio_weights cfg) (str "hrv") (5 # 10)) in *.
    set (hr_list := match heart_rate_data with Some l => l | None => [] end).
    set (hrv_list := match hrv_data with Some l => l | None => [] end).
    set (has_hr := match hr_list with [] => false | _ => true end).
    set (has_hrv := match hrv_list with [] => false | _ => true end).
    destruct (negb has_hr && negb has_hrv) eqn:N; [lra |].
    set (hw := if has_hr && negb has_hrv then 1%Q
               else if negb has_hr && has_hrv then 0%Q else w1).
    set (vw := if has_hr && negb has_hrv then 0%Q
               else if negb has_hr && has_hrv then 1%Q else w2).
    assert (HW : (0 <= hw)%Q /\ (0 <= vw)%Q /\ (hw + vw <= 1)%Q).
    { unfold hw, vw. destruct has_hr, has_hrv; cbn [andb negb]; repeat split; lra. }
    destruct HW as (HW1 & HW2 & HW3).
    assert (A : forall h : Q, (0 <= h <= 100 * hw)%Q ->
                forall v : Q, (0 <= v <= 100 * vw)%Q -> (0 <= h + v <= 100)%Q)
      by (intros; lra).
    apply A.
    + destruct (filter (fun hr => 0 <? hr) (map snd hr_list)) as [| h hs]; [lra |].
      set (min_hr := list_min h hs).
      destruct ((hr_target_min cfg <=? min_hr) && (min_hr <=? hr_target_max cfg)) eqn:T;
        [lra |].
      destruct (Z.ltb_spec min_hr (hr_target_min cfg)) as [L | G].
      * apply heart_rate_part_bounds; [lra | lia].
      * apply heart_rate_part_bounds; [lra |].
        apply andb_false_iff in T. destruct T as [T | T].
        -- apply Z.leb_gt in T. lia.
        -- apply Z.leb_gt in T. lia.
    + destruct (filter (fun v => negb (Qle_bool v 0)) (map snd hrv_list)); [lra |].
      apply clamp_bounds. lra.
Qed.

Lemma score_components_within_0_100_witness :
  (0 <= calculate_physiological_score DEFAULT_SLEEP_CONFIG
          (Some [(mk_datetime 0 true, 38%Z)]) (Some [(mk_datetime 0 true, 42%Q)])
     <= 100)%Q.
Proof.
  apply (score_components_within_0_100 DEFAULT_SLEEP_CONFIG
           (timedelta_hours_int 7) (timedelta_hours_int 8)
           (time_hm 23 0) (time_hm 7 0) (time_hm 23 0) (time_hm 7 0)).
  - vm_compute. discriminate.
  - vm_compute. discriminate.
  - vm_compute. discriminate.
Defined.

End SleepScoreFacts.

Module SolutionFacts.
Import Py TimeUtils ConstraintSolver SolverSchedule PyFacts TimeUtilsFacts
       ConstraintSolverFacts.

(** ** Generic facts on sorting and dictionaries *)

Lemma insert_perm_in {A} (leb : A -> A -> bool) (x y : A) (l : list A) :
  In y (x :: l) -> In y (Sorting.insert leb x l).
Proof.
  induction l as [| z r IH]; simpl.
  - tauto.
  - destruct (leb x z); simpl; [tauto |].
    intros [E | [E | H]]; [right; apply IH; left; exact E | left; exact E |].
    right. apply IH. right. exact H.
Qed.

Lemma sort_perm_in {A} (leb : A -> A -> bool) (y : A) (l : list A) :
  In y l -> In y (Sorting.sort leb l).
Proof.
  induction l as [| x r IH]; simpl; [tauto |].
  intros [E | H]; apply insert_perm_in; [left; exact E | right; apply IH; exact H].
Qed.

Section ByKey.
Context {A : Type} (key : A -> Z).

Let leb (a b : A) : bool := key a <=? key b.

Lemma insert_key_ordered (x : A) (l : list A) :
  key_ordered key l -> key_ordered key (Sorting.insert leb x l).
Proof.
  induction l as [| y r IH]; intros H; simpl.
  - split; [constructor | exact I].
  - simpl in H. destruct H as [Hy Hr]. unfold leb at 1.
    destruct (Z.leb_spec (key x) (key y)) as [L | G]; simpl.
    + split; [| split; assumption].
      constructor; [exact L |].
      eapply Forall_impl; [| exact Hy]. intros z Hz. simpl in Hz. lia.
    + split; [| apply IH; exact Hr].
      apply Forall_forall. intros z Hz. rewrite Forall_forall in Hy.
      apply in_insert in Hz. destruct Hz as [-> | Hz]; [lia | apply Hy; exact Hz].
Qed.

Lemma sort_key_ordered (l : list A) : key_ordered key (Sorting.sort leb l).
Proof.
  induction l as [| x r IH]; simpl; [exact I | apply insert_key_ordered; exact IH].
Qed.

End ByKey.


(** ** Pairwise disjoint intervals *)

Lemma disjoint_sym (x y : Z * Z) : disjoint x y = disjoint y x.
Proof. unfold disjoint. apply orb_comm. Qed.

Lemma pairwise_disjoint_app (l1 l2 : list (Z * Z)) :
  pairwise_disjoint (l1 ++ l2) = true ->
  pairwise_disjoint l1 = true /\
  forall x y, In x l1 -> In y l2 -> disjoint x y = true.
Proof.
  induction l1 as [| a r IH]; simpl.
  - intros _. split; [reflexivity | intros x y []].
  - intros H. apply andb_true_iff in H. destruct H as [Ha Hr].
    rewrite forallb_app in Ha. apply andb_true_iff in Ha. destruct Ha as [Ha1 Ha2].
    destruct (IH Hr) as [P Q]. split.
    + rewrite Ha1, P. reflexivity.
    + intros x y [<- | Hx] Hy.
      * rewrite forallb_forall in Ha2. apply Ha2. exact Hy.
      * apply Q; assumption.
Qed.

Lemma pairwise_disjoint_insert {A} (f : A -> Z * Z) (leb : A -> A -> bool)
    (x : A) (l : list A) :
  forallb (disjoint (f x)) (map f l) = true ->
  pairwise_disjoint (map f l) = true ->
  pairwise_disjoint (map f (Sorting.insert leb x l)) = true.
Proof.
  induction l as [| y r IH]; simpl; intros Hx Hp.
  - reflexivity.
  - apply andb_true_iff in Hx. destruct Hx as [Hxy Hxr].
    apply andb_true_iff in Hp. destruct Hp as [Hy Hr].
    destruct (leb x y); simpl.
    + rewrite Hxy, Hxr, Hy, Hr. reflexivity.
    + rewrite (IH Hxr Hr), andb_true_r.
      apply forallb_forall. intros z Hz.
      apply in_map_iff in Hz. destruct Hz as [w [<- Hw]].
      apply in_insert in Hw. destruct Hw as [-> | Hw].
      * rewrite disjoint_sym. exact Hxy.
      * rewrite forallb_forall in Hy. apply Hy. apply in_map. exact Hw.
Qed.

Lemma pairwise_disjoint_sort {A} (f : A -> Z * Z) (leb : A -> A -> bool)
    (l : list A) :
  pairwise_disjoint (map f l) = true ->
  pairwise_disjoint (map f (Sorting.sort leb l)) = true.
Proof.
  induction l as [| x r IH]; simpl; intros H; [reflexivity |].
  apply andb_true_iff in H. destruct H as [Hx Hr].
  apply pairwise_disjoint_insert; [| apply IH; exact Hr].
  apply forallb_forall. intros z Hz.
  apply in_map_iff in Hz. destruct Hz as [w [<- Hw]].
  apply in_sort in Hw.
  rewrite forallb_forall in Hx. apply Hx. apply in_map. exact Hw.
Qed.

(** Ordered by start, pairwise disjoint and of positive length: each
    interval ends before the later ones start. *)
Lemma ordered_disjoint_sequenced (l : list (Z * Z)) :
  key_ordered fst l -> pairwise_disjoint l = true ->
  Forall (fun x => fst x < snd x) l -> sequenced l.
Proof.
  induction l as [| x r IH]; simpl; intros Ho Hp Hl; [exact I |].
  destruct Ho as [Hxo Hro]. apply andb_true_iff in Hp. destruct Hp as [Hxp Hrp].
  inversion Hl as [| ? ? Hx Hr]; subst.
  split; [exact Hx |]. split; [| apply IH; assumption].
  apply Forall_forall. intros y Hy.
  rewrite Forall_forall in Hxo, Hr. rewrite forallb_forall in Hxp.
  specialize (Hxo y Hy). specialize (Hr y Hy). specialize (Hxp y Hy).
  unfold disjoint in Hxp. apply orb_true_iff in Hxp.
  destruct Hxp as [H | H]; apply Z.leb_le in H; lia.
Qed.

(** ** The variables of the tasks that fit *)

Section Model.
Variables day_start horizon : Z.
Variable all : list SolverTask.

Lemma create_task_vars_declared (n : nat) (task : SolverTask) (s : var_state) :
  nth_error all n = Some task -> vars_declared day_start horizon all s ->
  vars_declared day_start horizon all (create_task_vars day_start horizon n task s).
Proof.
  intros Hn Hs id k. unfold create_task_vars.
  destruct (_ <? _); cbn [vs_task_vars vs_constraints].
  - apply Hs.
  - intros H. apply dict_set_entries in H. destruct H as [[-> ->] | H].
    + exists task. split; [exact Hn |]. split; [reflexivity |].
      repeat split; apply in_or_app; right; simpl; tauto.
    + destruct (Hs _ _ H) as (t & H1 & H2 & H3 & H4 & H5).
      exists t. repeat split; try assumption; apply in_or_app; left; assumption.
Qed.

Lemma create_all_vars_declared (tasks : list SolverTask) :
  forall n s,
    (forall i t, nth_error tasks i = Some t -> nth_error all (n + i) = Some t) ->
    vars_declared day_start horizon all s ->
    vars_declared day_start horizon all (create_all_vars day_start horizon n tasks s).
Proof.
  induction tasks as [| t r IH]; intros n s Hi Hs; simpl; [exact Hs |].
  apply IH.
  - intros i u Hu. replace (S n + i)%nat with (n + S i)%nat by lia.
    apply Hi. exact Hu.
  - apply create_task_vars_declared; [| exact Hs].
    replace n with (n + 0)%nat by lia. apply Hi. reflexivity.
Qed.

End Model.


(** ** What [solve] returns *)

Lemma minutes_of_time_of_minutes (v : Z) :
  0 <= v < 1440 -> minutes_of (time_of_minutes v) = v.
Proof.
  intros H. unfold time_of_minutes.
  rewrite total_minutes_to_time_in_range by exact H.
  unfold minutes_of, time_hm. cbn [hour minute].
  pose proof (Z.div_mod v 60). lia.
Qed.

Lemma minutes_of_end_of_day : minutes_of (time_of_minutes 1440) = 0.
Proof. reflexivity. Qed.

Lemma solve_reads_the_answer (engine : Engine) (cfg : SolverConfig)
    (solver_input : SolverInput) (schedule : list ScheduledTaskInfo) :
  fst (solve engine cfg solver_input) = Some schedule ->
  schedule
  = read_solution (si_target_date solver_input)
      (snd (solver_answer engine cfg solver_input))
      (vs_task_vars
         (create_all_vars (si_day_start_minutes solver_input)
            (si_day_end_minutes solver_input) 0 (si_tasks solver_input)
            (mk_var_state [] [] []))).
Proof.
  unfold solve, solver_answer, solver_model.
  destruct (si_tasks solver_input) as [| t0 r] eqn:T.
  - cbn. intros E. injection E as <-. reflexivity.
  - set (vs := create_all_vars _ _ 0 (t0 :: r) _).
    destruct (vs_task_vars vs) as [| e0 es] eqn:V.
    + cbn. intros E. injection E as <-. reflexivity.
    + destruct (build_model cfg solver_input vs) as [model dep_log] eqn:M.
      cbn [fst].
      destruct (engine model (solver_time_limit_seconds cfg)) as [status a] eqn:En.
      cbn [snd].
      destruct status; cbn [fst]; intros E; try discriminate E;
        injection E as <-; reflexivity.
Qed.

Lemma feasible_holds (a : assignment) (m : CpModel) (c : constraint) :
  feasible a m = true -> In c (cp_constraints m) -> holds a c = true.
Proof.
  unfold feasible. intros F Hin. rewrite forallb_forall in F. apply F. exact Hin.
Qed.

Lemma model_has_var_constraints (cfg : SolverConfig) (solver_input : SolverInput)
    (vs : var_state) (c : constraint) :
  In c (vs_constraints vs) ->
  In c (cp_constraints (fst (build_model cfg solver_input vs))).
Proof.
  intros H. unfold build_model. cbn [fst cp_constraints].
  apply in_or_app. left. exact H.
Qed.

Section Answer.
Variables (engine : Engine) (cfg : SolverConfig) (solver_input : SolverInput).

Let day_start := si_day_start_minutes solver_input.
Let horizon := si_day_end_minutes solver_input.
Let tasks := si_tasks solver_input.
Let vs := create_all_vars day_start horizon 0 tasks (mk_var_state [] [] []).
Let a := snd (solver_answer engine cfg solver_input).

Hypothesis day_start_nonneg : 0 <= day_start.
Hypothesis horizon_in_day : horizon <= 1440.
Hypothesis durations_positive :
  Forall (fun t => 0 < st_duration_minutes t) tasks.
Hypothesis answer_feasible :
  feasible a (solver_model cfg solver_input) = true.

Lemma vs_declared : vars_declared day_start horizon tasks vs.
Proof.
  apply create_all_vars_declared.
  - intros i t H. exact H.
  - intros id k [].
Qed.

(** The values of the two variables of a kept task. *)
Lemma kept_task_values (id : UUID) (k : nat) :
  In (id, k) (vs_task_vars vs) ->
  exists t, nth_error tasks k = Some t /\ st_id t = id /\
    lo_start day_start t <= a (VStart k) /\
    a (VStart k) + st_duration_minutes t = a (VEnd k) /\
    a (VEnd k) <= hi_end horizon t.
Proof.
  intros H. destruct (vs_declared id k H) as (t & Hn & Hid & C1 & C2 & C3).
  exists t. split; [exact Hn |]. split; [exact Hid |].
  pose proof (feasible_holds _ _ _ answer_feasible
                (model_has_var_constraints cfg solver_input vs _ C1)) as H1.
  pose proof (feasible_holds _ _ _ answer_feasible
                (model_has_var_constraints cfg solver_input vs _ C2)) as H2.
  pose proof (feasible_holds _ _ _ answer_feasible
                (model_has_var_constraints cfg solver_input vs _ C3)) as H3.
  cbn [holds] in H1, H2, H3.
  apply andb_true_iff in H1. destruct H1 as [H1a H1b].
  apply andb_true_iff in H2. destruct H2 as [H2a H2b].
  apply Z.leb_le in H1a, H1b, H2a, H2b. apply Z.eqb_eq in H3.
  lia.
Qed.

Lemma kept_task_in_day (id : UUID) (k : nat) :
  In (id, k) (vs_task_vars vs) ->
  0 <= a (VStart k) < 1440 /\ a (VStart k) < a (VEnd k) <= 1440.
Proof.
  intros H. destruct (kept_task_values id k H) as (t & Hn & _ & L & E & U).
  assert (D : 0 < st_duration_minutes t).
  { unfold tasks in *. rewrite Forall_forall in durations_positive.
    apply durations_positive. eapply nth_error_In. exact Hn. }
  unfold lo_start, hi_end in *. lia.
Qed.

Let info_of := placement_of (si_target_date solver_input) a.

Lemma span_of_kept (id : UUID) (k : nat) :
  In (id, k) (vs_task_vars vs) ->
  sti_span (info_of (id, k)) = (a (VStart k), a (VEnd k)).
Proof.
  intros H. destruct (kept_task_in_day id k H) as [Hs He].
  unfold sti_span, info_of, placement_of. cbn [sti_start_time sti_end_time].
  rewrite minutes_of_time_of_minutes by exact Hs.
  destruct (Z.eq_dec (a (VEnd k)) 1440) as [E | N].
  - rewrite E. cbn. reflexivity.
  - rewrite minutes_of_time_of_minutes by lia.
    destruct (Z.eqb_spec (a (VEnd k)) 0); [lia | reflexivity].
Qed.


Lemma schedule_is_sorted_placements (schedule : list ScheduledTaskInfo) :
  fst (solve engine cfg solver_input) = Some schedule ->
  schedule
  = Sorting.sort (fun x y => time_key (sti_start_time x) <=? time_key (sti_start_time y))
      (map info_of (vs_task_vars vs)).
Proof.
  intros E. rewrite (solve_reads_the_answer _ _ _ _ E). reflexivity.
Qed.

Lemma in_schedule (schedule : list ScheduledTaskInfo) (x : ScheduledTaskInfo) :
  fst (solve engine cfg solver_input) = Some schedule -> In x schedule ->
  exists id k, In (id, k) (vs_task_vars vs) /\ x = info_of (id, k).
Proof.
  intros E Hx. rewrite (schedule_is_sorted_placements _ E) in Hx.
  apply in_sort in Hx. apply in_map_iff in Hx.
  destruct Hx as [[id k] [<- Hin]]. exists id, k. split; [exact Hin | reflexivity].
Qed.

Lemma spans_of_kept :
  map sti_span (map info_of (vs_task_vars vs))
  = map (interval_bounds a) (map TaskInterval (Dict.values (vs_task_vars vs))).
Proof.
  unfold Dict.values. rewrite !map_map. apply map_ext_in.
  intros [id k] H. rewrite (span_of_kept id k H). reflexivity.
Qed.

Lemma no_overlap_in_model :
  In (AddNoOverlap (map TaskInterval (Dict.values (vs_task_vars vs))))
     (cp_constraints (solver_model cfg solver_input)).
Proof.
  unfold solver_model, build_model. cbn [fst cp_constraints].
  apply in_or_app. right. apply in_or_app. left. left. reflexivity.
Qed.

Lemma kept_spans_disjoint :
  pairwise_disjoint (map sti_span (map info_of (vs_task_vars vs))) = true.
Proof.
  rewrite spans_of_kept.
  exact (feasible_holds _ _ _ answer_feasible no_overlap_in_model).
Qed.

Lemma fixed_no_overlap_in_model (event : FixedEventInterval) :
  In event (si_fixed_events solver_input) ->
  fst (clipped solver_input event) < snd (clipped solver_input event) ->
  exists fixed,
    In (AddNoOverlap (map TaskInterval (Dict.values (vs_task_vars vs)) ++ fixed))
       (cp_constraints (solver_model cfg solver_input)) /\
    In (FixedInterval (fst (clipped solver_input event))
          (snd (clipped solver_input event) - fst (clipped solver_input event)))
       fixed.
Proof.
  intros Hin Hpos.
  set (fixed := flat_map (fixed_interval_of day_start horizon)
                  (si_fixed_events solver_input)).
  assert (F : In (FixedInterval (fst (clipped solver_input event))
                    (snd (clipped solver_input event)
                     - fst (clipped solver_input event))) fixed).
  { unfold fixed. apply in_flat_map. exists event. split; [exact Hin |].
    unfold fixed_interval_of, clipped in *. cbn [fst snd] in *.
    fold day_start horizon in Hpos |- *.
    destruct (Z.ltb_spec 0 (Z.min horizon (fe_end_minutes event)
                            - Z.max day_start (fe_start_minutes event))); [| lia].
    left. reflexivity. }
  exists fixed. split; [| exact F].
  unfold solver_model, build_model. cbn [fst cp_constraints].
  fold day_start horizon tasks vs fixed.
  apply in_or_app. right. apply in_or_app. left. right.
  destruct fixed as [| f0 fr]; [destruct F |]. left. reflexivity.
Qed.

End Answer.


(** In every schedule returned for a feasible answer of the engine, the
    placements come in time order, each of positive length and ending
    before the next one starts, and none of them meets a fixed event. *)
Theorem placements_do_not_overlap (engine : Engine) (cfg : SolverConfig)
    (solver_input : SolverInput) (schedule : list ScheduledTaskInfo) :
  0 <= si_day_start_minutes solver_input ->
  si_day_end_minutes solver_input <= 1440 ->
  Forall (fun t => 0 < st_duration_minutes t) (si_tasks solver_input) ->
  feasible (snd (solver_answer engine cfg solver_input))
           (solver_model cfg solver_input) = true ->
  fst (solve engine cfg solver_input) = Some schedule ->
  sequenced (map sti_span schedule) /\
  (forall x event,
     In x schedule -> In event (si_fixed_events solver_input) ->
     fst (clipped solver_input event) < snd (clipped solver_input event) ->
     disjoint (sti_span x) (clipped solver_input event) = true).
Proof.
  intros H0 H1 HD HF E. split.
  - assert (In_kept : forall x, In x schedule ->
              exists id k,
                In (id, k) (vs_task_vars
                   (create_all_vars (si_day_start_minutes solver_input)
                      (si_day_end_minutes solver_input) 0 (si_tasks solver_input)
                      (mk_var_state [] [] []))) /\
                x = placement_of (si_target_date solver_input)
                      (snd (solver_answer engine cfg solver_input)) (id, k)).
    { intros x Hx. exact (in_schedule engine cfg solver_input schedule x E Hx). }
    apply ordered_disjoint_sequenced.
    + rewrite (schedule_is_sorted_placements engine cfg solver_input schedule E) in *.
      set (sorted := Sorting.sort _ _) in *.
      assert (K : key_ordered (fun x => time_key (sti_start_time x)) sorted)
        by apply sort_key_ordered.
      clearbody sorted. clear E.
      induction sorted as [| x r IH]; [exact I |].
      cbn [key_ordered] in K. destruct K as [Kx Kr]. cbn [map key_ordered]. split.
      * apply Forall_forall. intros y Hy. apply in_map_iff in Hy.
        destruct Hy as [z [<- Hz]].
        rewrite Forall_forall in Kx. specialize (Kx z Hz).
        destruct (In_kept x (or_introl eq_refl)) as (idx & kx & Hkx & ->).
        destruct (In_kept z (or_intror Hz)) as (idz & kz & Hkz & ->).
        rewrite (span_of_kept engine cfg solver_input H0 H1 HD HF idx kx Hkx).
        rewrite (span_of_kept engine cfg solver_input H0 H1 HD HF idz kz Hkz).
        destruct (kept_task_in_day engine cfg solver_input H0 H1 HD HF idx kx Hkx) as [Bx _].
        destruct (kept_task_in_day engine cfg solver_input H0 H1 HD HF idz kz Hkz) as [Bz _].
        cbn [fst]. unfold placement_of, time_key in Kx. cbn [sti_start_time] in Kx.
        unfold time_of_minutes in Kx.
        rewrite !total_minutes_to_time_in_range in Kx by assumption.
        unfold time_hm in Kx. cbn [hour minute second microsecond] in Kx.
        pose proof (Z.div_mod (snd (solver_answer engine cfg solver_input) (VStart kx)) 60).
        pose proof (Z.div_mod (snd (solver_answer engine cfg solver_input) (VStart kz)) 60).
        lia.
      * apply IH; [| exact Kr]. intros y Hy. apply In_kept. right. exact Hy.
    + rewrite (schedule_is_sorted_placements engine cfg solver_input schedule E).
      apply pairwise_disjoint_sort.
      exact (kept_spans_disjoint engine cfg solver_input H0 H1 HD HF).
    + apply Forall_forall. intros p Hp. apply in_map_iff in Hp.
      destruct Hp as [x [<- Hx]].
      destruct (In_kept x Hx) as (id & k & Hk & ->).
      rewrite (span_of_kept engine cfg solver_input H0 H1 HD HF id k Hk).
      destruct (kept_task_in_day engine cfg solver_input H0 H1 HD HF id k Hk) as [_ B].
      cbn [fst snd]. lia.
  - intros x event Hx Hev Hpos.
    destruct (in_schedule engine cfg solver_input schedule x E Hx)
      as (id & k & Hk & ->).
    destruct (fixed_no_overlap_in_model cfg solver_input event Hev Hpos)
      as (fixed & Hc & Hf).
    pose proof (feasible_holds _ _ _ HF Hc) as P. cbn [holds] in P.
    rewrite map_app in P. apply pairwise_disjoint_app in P. destruct P as [_ P].
    rewrite (span_of_kept engine cfg solver_input H0 H1 HD HF id k Hk).
    specialize (P (interval_bounds (snd (solver_answer engine cfg solver_input))
                     (TaskInterval k))
                  (interval_bounds (snd (solver_answer engine cfg solver_input))
                     (FixedInterval (fst (clipped solver_input event))
                        (snd (clipped solver_input event)
                         - fst (clipped solver_input event))))).
    cbn [interval_bounds] in P.
    replace (fst (clipped solver_input event)
             + (snd (clipped solver_input event) - fst (clipped solver_input event)))
      with (snd (clipped solver_input event)) in P by lia.
    rewrite <- surjective_pairing in P. apply P.
    + apply in_map_iff. exists (TaskInterval k). split; [reflexivity |].
      apply in_map. unfold Dict.values. apply in_map_iff.
      exists (id, k). split; [reflexivity | exact Hk].
    + apply in_map_iff. eexists. split; [| exact Hf]. cbn [interval_bounds].
      destruct (clipped solver_input event) as [cs ce]. cbn [fst snd].
      f_equal. lia.
Qed.


(** ** Dictionaries keyed by task id *)

Section DictZ.
Context {V : Type}.

Lemma dict_set_keys_nodup (d : @Dict.t Z V) (k : Z) (v : V) :
  NoDup (Dict.keys d) -> NoDup (Dict.keys (Dict.set Z.eqb d k v)).
Proof.
  unfold Dict.keys.
  induction d as [| [k' v'] r IH]; simpl; intros H.
  - constructor; [intros [] | constructor].
  - inversion H as [| ? ? Hn Hr]; subst.
    destruct (Z.eqb_spec k k') as [-> | N]; simpl.
    + constructor; assumption.
    + constructor; [| apply IH; exact Hr].
      intros Hin. apply in_map_iff in Hin. destruct Hin as [[k2 v2] [E Hin]].
      simpl in E. subst k2.
      assert (In k' (map fst r) \/ k' = k) as [C | C].
      { clear - Hin. induction r as [| [k3 v3] r IH]; simpl in *.
        - destruct Hin as [E | []]. right. congruence.
        - destruct (Z.eqb_spec k k3) as [-> | N]; simpl in Hin.
          + destruct Hin as [E | Hin]; [left; left; congruence |].
            left. right. apply in_map_iff. exists (k', v2). split; [reflexivity | exact Hin].
          + destruct Hin as [E | Hin]; [left; left; congruence |].
            destruct (IH Hin) as [L | R]; [left; right; exact L | right; exact R]. }
      * apply Hn. exact C.
      * apply N. symmetry. exact C.
Qed.

Lemma dict_get_of_entry (d : @Dict.t Z V) (k : Z) (v : V) :
  NoDup (Dict.keys d) -> In (k, v) d -> Dict.get Z.eqb d k = Some v.
Proof.
  unfold Dict.keys.
  induction d as [| [k' v'] r IH]; simpl; intros H Hin; [destruct Hin |].
  inversion H as [| ? ? Hn Hr]; subst.
  destruct Hin as [E | Hin].
  - injection E as -> ->. rewrite Z.eqb_refl. reflexivity.
  - destruct (Z.eqb_spec k k') as [-> | N].
    + exfalso. apply Hn. apply in_map_iff. exists (k', v). split; [reflexivity | exact Hin].
    + apply IH; assumption.
Qed.

Lemma dict_set_fresh (d : @Dict.t Z V) (k : Z) (v : V) :
  ~ In k (Dict.keys d) -> Dict.set Z.eqb d k v = d ++ [(k, v)].
Proof.
  unfold Dict.keys.
  induction d as [| [k' v'] r IH]; simpl; intros H; [reflexivity |].
  destruct (Z.eqb_spec k k') as [-> | N]; [exfalso; apply H; left; reflexivity |].
  rewrite IH; [reflexivity |]. intros C. apply H. right. exact C.
Qed.

End DictZ.

Lemma build_task_map_distinct_ids (tasks : list SolverTask) :
  NoDup (map st_id tasks) ->
  build_task_map tasks = map (fun t => (st_id t, t)) tasks.
Proof.
  unfold build_task_map.
  assert (G : forall acc : @Dict.t UUID SolverTask,
            NoDup (Dict.keys acc ++ map st_id tasks) ->
            fold_left (fun d t => Dict.set Z.eqb d (st_id t) t) tasks acc
            = acc ++ map (fun t => (st_id t, t)) tasks).
  { induction tasks as [| t r IH]; intros acc H; simpl.
    - rewrite app_nil_r. reflexivity.
    - simpl in H. rewrite dict_set_fresh.
      + rewrite IH.
        * rewrite <- app_assoc. reflexivity.
        * unfold Dict.keys in *. rewrite map_app. simpl.
          rewrite <- app_assoc. simpl.
          apply NoDup_remove_1 in H as H'.
          apply NoDup_remove_2 in H.
          clear IH. 
          apply (NoDup_Add (a := st_id t) (l := map fst acc ++ map st_id r)).
          -- apply Add_app.
          -- split; [exact H' | exact H].
      + apply NoDup_remove_2 in H. intros C. apply H. apply in_or_app. left. exact C. }
  intros H. apply (G []). exact H.
Qed.

Lemma create_all_vars_keys_nodup (day_start horizon : Z) (tasks : list SolverTask) :
  forall n s, NoDup (Dict.keys (vs_task_vars s)) ->
    NoDup (Dict.keys (vs_task_vars (create_all_vars day_start horizon n tasks s))).
Proof.
  induction tasks as [| t r IH]; intros n s H; simpl; [exact H |].
  apply IH. unfold create_task_vars.
  destruct (_ <? _); cbn [vs_task_vars]; [exact H |].
  apply dict_set_keys_nodup. exact H.
Qed.

Lemma dependency_constraint_added (task_vars : @Dict.t UUID nat)
    (t : SolverTask) (n dn : nat) (dep : UUID) :
  Dict.get Z.eqb task_vars (st_id t) = Some n ->
  In dep (st_dependencies t) ->
  Dict.get Z.eqb task_vars dep = Some dn ->
  In (AddGe (VStart n) (VEnd dn))
     (fst (dependency_constraints task_vars (st_id t, t))).
Proof.
  intros Hn Hdep Hdn. unfold dependency_constraints. rewrite Hn.
  generalize (@nil constraint, @nil log_record).
  induction (st_dependencies t) as [| d r IH]; [destruct Hdep |].
  intros acc. simpl. destruct Hdep as [-> | Hdep].
  - rewrite Hdn.
    assert (G : forall l (acc0 : list constraint * list log_record),
              In (AddGe (VStart n) (VEnd dn)) (fst acc0) ->
              In (AddGe (VStart n) (VEnd dn))
                 (fst (fold_left
                    (fun acc1 dep_id =>
                       match Dict.get Z.eqb task_vars dep_id with
                       | Some d0 => (fst acc1 ++ [AddGe (VStart n) (VEnd d0)], snd acc1)
                       | None => (fst acc1, snd acc1 ++ [LogDependencyNotFound (st_id t) dep_id])
                       end) l acc0))).
    { induction l as [| x l IHl]; intros acc0 H0; simpl; [exact H0 |].
      apply IHl. destruct (Dict.get Z.eqb task_vars x); cbn [fst];
        [apply in_or_app; left; exact H0 | exact H0]. }
    apply G. cbn [fst]. apply in_or_app. right. left. reflexivity.
  - apply IH. exact Hdep.
Qed.

(** In every schedule returned for a feasible answer of the engine, over
    tasks with distinct ids, a task that lists another placed task as a
    dependency starts no earlier than that task ends. *)
Theorem dependencies_are_respected (engine : Engine) (cfg : SolverConfig)
    (solver_input : SolverInput) (schedule : list ScheduledTaskInfo)
    (t d : SolverTask) (x y : ScheduledTaskInfo) :
  0 <= si_day_start_minutes solver_input ->
  si_day_end_minutes solver_input <= 1440 ->
  Forall (fun t => 0 < st_duration_minutes t) (si_tasks solver_input) ->
  NoDup (map st_id (si_tasks solver_input)) ->
  feasible (snd (solver_answer engine cfg solver_input))
           (solver_model cfg solver_input) = true ->
  fst (solve engine cfg solver_input) = Some schedule ->
  In t (si_tasks solver_input) -> In (st_id d) (st_dependencies t) ->
  In x schedule -> sti_task_id x = st_id t ->
  In y schedule -> sti_task_id y = st_id d ->
  snd (sti_span y) <= fst (sti_span x).
Proof.
  intros H0 H1 HD HN HF E Ht Hdep Hx Hxid Hy Hyid.
  destruct (in_schedule engine cfg solver_input schedule x E Hx)
    as (idx & kx & Hkx & ->).
  destruct (in_schedule engine cfg solver_input schedule y E Hy)
    as (idy & ky & Hky & ->).
  cbn [placement_of sti_task_id] in Hxid, Hyid. subst idx idy.
  rewrite (span_of_kept engine cfg solver_input H0 H1 HD HF _ kx Hkx).
  rewrite (span_of_kept engine cfg solver_input H0 H1 HD HF _ ky Hky).
  cbn [fst snd].
  set (vs := create_all_vars (si_day_start_minutes solver_input)
               (si_day_end_minutes solver_input) 0 (si_tasks solver_input)
               (mk_var_state [] [] [])) in *.
  assert (K : NoDup (Dict.keys (vs_task_vars vs))).
  { apply create_all_vars_keys_nodup. constructor. }
  pose proof (dict_get_of_entry _ _ _ K Hkx) as Gx.
  pose proof (dict_get_of_entry _ _ _ K Hky) as Gy.
  assert (C : In (AddGe (VStart kx) (VEnd ky))
                 (cp_constraints (solver_model cfg solver_input))).
  { unfold solver_model, build_model. cbn [fst cp_constraints]. fold vs.
    apply in_or_app. right. apply in_or_app. right. apply in_or_app. left.
    apply in_flat_map. exists (dependency_constraints (vs_task_vars vs) (st_id t, t)).
    split.
    - apply in_map. rewrite (build_task_map_distinct_ids _ HN).
      apply in_map_iff. exists t. split; [reflexivity | exact Ht].
    - apply dependency_constraint_added with (dep := st_id d); assumption. }
  pose proof (feasible_holds _ _ _ HF C) as P. cbn [holds] in P.
  apply Z.leb_le in P. exact P.
Qed.



Lemma placements_do_not_overlap_witness :
  sequenced (map sti_span
    [mk_ScheduledTaskInfo 1 (time_hm 7 0) (time_hm 7 30) 739253;
     mk_ScheduledTaskInfo 2 (time_hm 7 30) (time_hm 8 30) 739253]) /\
  (forall x event,
     In x [mk_ScheduledTaskInfo 1 (time_hm 7 0) (time_hm 7 30) 739253;
           mk_ScheduledTaskInfo 2 (time_hm 7 30) (time_hm 8 30) 739253] ->
     In event (si_fixed_events chained_solver_input) ->
     fst (clipped chained_solver_input event)
     < snd (clipped chained_solver_input event) ->
     disjoint (sti_span x) (clipped chained_solver_input event) = true).
Proof.
  apply (placements_do_not_overlap chained_engine default_solver_config
           chained_solver_input).
  - cbn. lia.
  - cbn. lia.
  - repeat constructor.
  - vm_compute. reflexivity.
  - vm_compute. reflexivity.
Defined.

Lemma dependencies_are_respected_witness :
  snd (sti_span (mk_ScheduledTaskInfo 1 (time_hm 7 0) (time_hm 7 30) 739253))
  <= fst (sti_span (mk_ScheduledTaskInfo 2 (time_hm 7 30) (time_hm 8 30) 739253)).
Proof.
  apply (dependencies_are_respected chained_engine default_solver_config
           chained_solver_input
           [mk_ScheduledTaskInfo 1 (time_hm 7 0) (time_hm 7 30) 739253;
            mk_ScheduledTaskInfo 2 (time_hm 7 30) (time_hm 8 30) 739253]
           (mk_SolverTask 2 60 4 2 None None [1])
           (mk_SolverTask 1 30 3 2 None None [])).
  - cbn. lia.
  - cbn. lia.
  - repeat constructor.
  - repeat constructor; cbn; intuition discriminate.
  - vm_compute. reflexivity.
  - vm_compute. reflexivity.
  - cbn. tauto.
  - cbn. tauto.
  - cbn. tauto.
  - reflexivity.
  - cbn. tauto.
  - reflexivity.
Defined.

End SolutionFacts.

Module ChronotypeMoreFacts.
Import Py TimeUtils Clock ChronotypeM SleepRecords Scenarios PyFacts QFacts
       ChronotypeFacts TimeCalcFacts.

(** ** The questionnaire score *)

(** With the default ranges a score from 16 to 41 is a night owl, from 42
    to 58 intermediate and from 59 to 86 an early bird; any other score
    is refused with [ValueError].  The ranges leave no gap, so the
    fallback to intermediate is never taken. *)
Theorem meq_classification_with_default_ranges (meq_score : Z) :
  (16 <= meq_score <= 41 ->
   determine_chronotype_from_meq DEFAULT_CHRONOTYPE_CONFIG meq_score
   = Returned NIGHT_OWL) /\
  (42 <= meq_score <= 58 ->
   determine_chronotype_from_meq DEFAULT_CHRONOTYPE_CONFIG meq_score
   = Returned INTERMEDIATE) /\
  (59 <= meq_score <= 86 ->
   determine_chronotype_from_meq DEFAULT_CHRONOTYPE_CONFIG meq_score
   = Returned EARLY_BIRD) /\
  (meq_score < 16 \/ 86 < meq_score ->
   exists msg,
     determine_chronotype_from_meq DEFAULT_CHRONOTYPE_CONFIG meq_score
     = Raised (mk_exn ValueError msg)).
Proof.
  unfold determine_chronotype_from_meq.
  cbn [meq_ranges DEFAULT_CHRONOTYPE_CONFIG DEFAULT_MEQ_RANGES flat_map app fst snd
       fold_left find].
  change (Z.min (Z.min (Z.min (Z.min (Z.min (Z.min (Z.min (Z.min
            (Z.min 16 30) 31) 41) 42) 58) 59) 69) 70) 86) with 16.
  change (Z.max (Z.max (Z.max (Z.max (Z.max (Z.max (Z.max (Z.max
            (Z.max 16 30) 31) 41) 42) 58) 59) 69) 70) 86) with 86.
  repeat split; intros H;
    repeat match goal with
           | |- context [?a <=? ?b] => destruct (Z.leb_spec a b); try lia
           end;
    cbn [andb negb]; try reflexivity; try (eexists; reflexivity).
Qed.

Lemma meq_classification_with_default_ranges_witness :
  determine_chronotype_from_meq DEFAULT_CHRONOTYPE_CONFIG 63 = Returned EARLY_BIRD /\
  exists msg,
    determine_chronotype_from_meq DEFAULT_CHRONOTYPE_CONFIG 90
    = Raised (mk_exn ValueError msg).
Proof.
  split.
  - apply (proj1 (proj2 (proj2 (meq_classification_with_default_ranges 63)))). lia.
  - apply (proj2 (proj2 (proj2 (meq_classification_with_default_ranges 90)))). lia.
Defined.


(** ** Natural sleep times of a new profile *)

(** Natural bed and wake times are kept only when both are supplied.
    When either is missing both are inferred, a supplied one being
    discarded: the wake time is 07:30 moved by the chronotype's adjustment
    and the bedtime lies eight hours before it on the 24-hour clock. *)
Theorem create_profile_natural_times (cfg : ChronotypeConfig) (user : UUID)
    (chronotype : Chronotype) (source : pystr) (bed wake : option time)
    (strength consistency : Q) :
  let p := create_chronotype_profile cfg user chronotype source bed wake
             strength consistency in
  (forall b w, bed = Some b -> wake = Some w ->
     natural_bedtime p = Some b /\ natural_wake_time p = Some w) /\
  (bed = None \/ wake = None ->
   exists b w,
     natural_bedtime p = Some b /\ natural_wake_time p = Some w /\
     time_valid b /\ time_valid w /\
     w = time_of_us
           (us_of_time (time_hm 7 30)
            + total_microseconds
                (timedelta_hours
                   (Dict.get_default Chronotype_eqb
                      (chronotype_sleep_time_adjustments cfg) chronotype 0%Q))) /\
     (us_of_time b + 8 * us_per_hour) mod us_per_day = us_of_time w).
Proof.
  cbv zeta. unfold create_chronotype_profile. split.
  - intros b w -> ->. split; reflexivity.
  - intros H.
    set (iw := us_of_time (time_hm 7 30)
               + total_microseconds
                   (timedelta_hours
                      (Dict.get_default Chronotype_eqb
                         (chronotype_sleep_time_adjustments cfg) chronotype 0%Q))).
    exists (time_of_us (iw - 8 * us_per_hour)), (time_of_us iw).
    assert (E : (us_of_time (time_of_us (iw - 8 * us_per_hour)) + 8 * us_per_hour)
                  mod us_per_day = us_of_time (time_of_us iw)).
    { rewrite !us_of_time_of_us, Zplus_mod_idemp_l. f_equal. lia. }
    destruct bed as [b |], wake as [w |];
      try (destruct H as [H | H]; discriminate H);
      (split; [reflexivity |]); (split; [reflexivity |]);
      (split; [apply time_of_us_valid |]); (split; [apply time_of_us_valid |]);
      (split; [reflexivity | exact E]).
Qed.

Lemma create_profile_natural_times_witness :
  exists b w,
    natural_bedtime
      (create_chronotype_profile DEFAULT_CHRONOTYPE_CONFIG 1 NIGHT_OWL (str "meq")
         (Some (time_hm 22 0)) None (1 # 2) 1) = Some b /\
    natural_wake_time
      (create_chronotype_profile DEFAULT_CHRONOTYPE_CONFIG 1 NIGHT_OWL (str "meq")
         (Some (time_hm 22 0)) None (1 # 2) 1) = Some w /\
    time_valid b /\ time_valid w /\
    w = time_of_us
          (us_of_time (time_hm 7 30)
           + total_microseconds
               (timedelta_hours
                  (Dict.get_default Chronotype_eqb
                     (chronotype_sleep_time_adjustments DEFAULT_CHRONOTYPE_CONFIG)
                     NIGHT_OWL 0%Q))) /\
    (us_of_time b + 8 * us_per_hour) mod us_per_day = us_of_time w.
Proof.
  apply (proj2 (create_profile_natural_times DEFAULT_CHRONOTYPE_CONFIG 1 NIGHT_OWL
                  (str "meq") (Some (time_hm 22 0)) None (1 # 2) 1)).
  right. reflexivity.
Defined.

(** ** Sleep records *)

Section Records.
Variable stdev : list Q -> Q.

Lemma mid_sleep_hour_of_record (tz : tzinfo) (rec : datetime * datetime) :
  mixed_awareness rec = false ->
  exists h, mid_sleep_hour tz rec = Returned h /\
            (usable_night rec = true <-> h <> None).
Proof.
  destruct rec as [[su sa] [eu ea]]. unfold mixed_awareness, mid_sleep_hour, datetime_le,
    usable_night. cbn [fst snd dt_aware dt_us].
  intros M. apply negb_false_iff in M.
  rewrite M. cbn [bind].
  destruct (Z.leb_spec eu su) as [L | G].
  - eexists. split; [reflexivity |].
    destruct (Z.ltb_spec su eu); [lia |].
    rewrite !andb_false_r. cbn [andb]. split; [discriminate | intros C; contradiction C; reflexivity].
  - destruct (Z.ltb_spec su eu); [| lia].
    apply Bool.eqb_prop in M. subst ea.
    destruct sa; cbn [negb orb andb].
    + destruct ((3 * us_per_hour <=? eu - su) && (eu - su <=? 14 * us_per_hour)) eqn:D;
        cbn [negb].
      * eexists. split; [reflexivity |]. split; [discriminate | reflexivity].
      * eexists. split; [reflexivity |].
        split; [discriminate | intros C; contradiction C; reflexivity].
    + eexists. split; [reflexivity |].
      split; [discriminate | intros C; contradiction C; reflexivity].
Qed.

Lemma mid_sleep_hours_count (tz : tzinfo) (recs : list (datetime * datetime))
    (hs : list Q) :
  mid_sleep_hours tz recs = Returned hs ->
  List.length hs = List.length (filter usable_night recs).
Proof.
  revert hs. induction recs as [| r rest IH]; intros hs H.
  - injection H as <-. reflexivity.
  - cbn [mid_sleep_hours] in H.
    destruct (mixed_awareness r) eqn:M.
    + exfalso. destruct r as [[su sa] [eu ea]].
      unfold mixed_awareness in M. cbn [fst snd dt_aware] in M.
      apply negb_true_iff in M.
      unfold mid_sleep_hour, datetime_le in H. cbn [dt_aware] in H.
      rewrite M in H. discriminate H.
    + destruct (mid_sleep_hour_of_record tz r M) as (h & E & U).
      rewrite E in H. cbn [bind] in H.
      destruct (mid_sleep_hours tz rest) as [hs' |] eqn:R; [| discriminate H].
      cbn [bind] in H. injection H as <-.
      specialize (IH hs' eq_refl). cbn [filter].
      destruct h as [x |].
      * rewrite (proj2 U) by discriminate. cbn [List.length]. rewrite IH. reflexivity.
      * destruct (usable_night r) eqn:Un; [| exact IH].
        exfalso. apply (proj1 U); reflexivity.
Qed.

(** A chronotype is read off sleep data only when at least
    [sleep_data_min_records] of the records are usable nights (aware at
    both ends, the end after the start, three to fourteen hours long);
    with fewer records, or fewer usable ones, the answer is [None]. *)
Theorem sleep_data_needs_enough_usable_nights (cfg : ChronotypeConfig)
    (recs : list (datetime * datetime)) (tz : tzinfo) :
  (forall c confidence,
     determine_chronotype_from_sleep_data stdev cfg recs tz
     = Returned (Some (c, confidence)) ->
     sleep_data_min_records cfg
     <= Z.of_nat (List.length (filter usable_night recs))) /\
  (forallb (fun r => negb (mixed_awareness r)) recs = true ->
   Z.of_nat (List.length (filter usable_night recs)) < sleep_data_min_records cfg ->
   determine_chronotype_from_sleep_data stdev cfg recs tz = Returned None).
Proof.
  split.
  - intros c confidence H. unfold determine_chronotype_from_sleep_data in H.
    destruct (Z.of_nat (List.length recs) <? sleep_data_min_records cfg);
      [discriminate H |].
    destruct recs as [| r0 rs]; [discriminate H |].
    destruct (mid_sleep_hours tz (r0 :: rs)) as [hs | e] eqn:M; [| discriminate H].
    cbn [bind] in H.
    destruct (Z.ltb_spec (Z.of_nat (List.length hs)) (sleep_data_min_records cfg));
      [discriminate H |].
    rewrite <- (mid_sleep_hours_count tz _ hs M). lia.
  - intros A F. unfold determine_chronotype_from_sleep_data.
    destruct (Z.of_nat (List.length recs) <? sleep_data_min_records cfg);
      [reflexivity |].
    destruct recs as [| r0 rs]; [reflexivity |].
    assert (R : exists hs, mid_sleep_hours tz (r0 :: rs) = Returned hs).
    { clear F. induction (r0 :: rs) as [| r rest IH]; [eexists; reflexivity |].
      cbn [forallb] in A. apply andb_true_iff in A. destruct A as [A1 A2].
      apply negb_true_iff in A1.
      destruct (mid_sleep_hour_of_record tz r A1) as (h & E & _).
      destruct (IH A2) as (hs & Hs).
      cbn [mid_sleep_hours]. rewrite E, Hs. cbn [bind]. eexists. reflexivity. }
    destruct R as (hs & Hs). rewrite Hs. cbn [bind].
    rewrite (mid_sleep_hours_count tz _ hs Hs).
    destruct (Z.ltb_spec (Z.of_nat (List.length (filter usable_night (r0 :: rs))))
                (sleep_data_min_records cfg)); [reflexivity | lia].
Qed.

(** A record that pairs a naive with an aware datetime cannot be
    compared: with enough records to start the scan the analysis raises
    [TypeError], and [update_chronotype_profile], which catches it,
    returns the profile as it was. *)
Theorem mixed_record_stops_the_analysis (cfg : ChronotypeConfig)
    (profile : ChronotypeProfile) (recs : list (datetime * datetime)) (tz : tzinfo) :
  existsb mixed_awareness recs = true ->
  sleep_data_min_records cfg <= Z.of_nat (List.length recs) ->
  (exists msg, determine_chronotype_from_sleep_data stdev cfg recs tz
               = Raised (mk_exn TypeError msg)) /\
  update_chronotype_profile stdev cfg profile recs tz = profile.
Proof.
  intros M L.
  assert (R : exists msg, mid_sleep_hours tz recs = Raised (mk_exn TypeError msg)).
  { clear L. induction recs as [| r rest IH]; [discriminate M |].
    cbn [existsb] in M. cbn [mid_sleep_hours].
    destruct (mixed_awareness r) eqn:Mr.
    - destruct r as [[su sa] [eu ea]].
      unfold mixed_awareness in Mr. cbn [fst snd dt_aware] in Mr.
      apply negb_true_iff in Mr.
      unfold mid_sleep_hour, datetime_le. cbn [dt_aware].
      rewrite Mr. eexists. reflexivity.
    - cbn [orb] in M. destruct (IH M) as (msg & E).
      destruct (mid_sleep_hour_of_record tz r Mr) as (h & Eh & _).
      rewrite Eh, E. cbn [bind]. eexists. reflexivity. }
  destruct R as (msg & R).
  assert (D : determine_chronotype_from_sleep_data stdev cfg recs tz
              = Raised (mk_exn TypeError msg)).
  { unfold determine_chronotype_from_sleep_data.
    destruct (Z.ltb_spec (Z.of_nat (List.length recs)) (sleep_data_min_records cfg));
      [lia |].
    destruct recs as [| r0 rs]; [discriminate M |].
    rewrite R. reflexivity. }
  split; [exists msg; exact D |].
  unfold update_chronotype_profile.
  destruct recs as [| r0 rs]; [reflexivity |]. rewrite D. reflexivity.
Qed.

(** An update either leaves the profile as it was or is backed by a
    confidence of at least the configured threshold, which becomes the
    new strength; the user id and the natural sleep times are never
    touched, and the source is then ["sleep_data_update"]. *)
Theorem update_is_all_or_confident (cfg : ChronotypeConfig)
    (profile : ChronotypeProfile) (recs : list (datetime * datetime)) (tz : tzinfo) :
  let p' := update_chronotype_profile stdev cfg profile recs tz in
  user_id p' = user_id profile /\
  natural_bedtime p' = natural_bedtime profile /\
  natural_wake_time p' = natural_wake_time profile /\
  (p' = profile \/
   ((update_profile_confidence_threshold cfg <= chronotype_strength p')%Q /\
    source_of_determination p' = Some (str "sleep_data_update") /\
    exists c, determine_chronotype_from_sleep_data stdev cfg recs tz
              = Returned (Some (primary_chronotype p', c)) /\
              chronotype_strength p' = c)).
Proof.
  cbv zeta. unfold update_chronotype_profile.
  destruct recs as [| r0 rs]; [repeat split; left; reflexivity |].
  destruct (determine_chronotype_from_sleep_data stdev cfg (r0 :: rs) tz)
    as [[[c conf] |] | e]; try (repeat split; left; reflexivity).
  destruct (Qle_bool (update_profile_confidence_threshold cfg) conf) eqn:T;
    cbn [negb]; [| repeat split; left; reflexivity].
  apply Qle_bool_iff in T.
  destruct (Dict.get Chronotype_eqb (default_productive_windows cfg) UNKNOWN);
    [destruct (Dict.get Chronotype_eqb (optimal_exercise_times cfg) UNKNOWN) |];
    cbn [user_id natural_bedtime natural_wake_time chronotype_strength
         source_of_determination primary_chronotype];
    (split; [reflexivity |]); (split; [reflexivity |]); (split; [reflexivity |]);
    right; (split; [exact T |]); (split; [reflexivity |]);
    exists conf; split; reflexivity.
Qed.

End Records.


Lemma sleep_data_needs_enough_usable_nights_witness :
  determine_chronotype_from_sleep_data stdev_floor DEFAULT_CHRONOTYPE_CONFIG
    (firstn 3 sleep_data_early
     ++ map (fun d => (mk_datetime (d * us_per_day) true,
                       mk_datetime (d * us_per_day + us_per_hour) true))
            [10; 11; 12; 13; 14])
    warsaw_summer
  = Returned None.
Proof.
  apply (proj2 (sleep_data_needs_enough_usable_nights stdev_floor
                  DEFAULT_CHRONOTYPE_CONFIG _ warsaw_summer)).
  - vm_compute. reflexivity.
  - vm_compute. reflexivity.
Defined.

Lemma mixed_record_stops_the_analysis_witness :
  (exists msg,
     determine_chronotype_from_sleep_data stdev_floor DEFAULT_CHRONOTYPE_CONFIG
       (sleep_data_early ++ [(mk_datetime 0 false, mk_datetime (8 * us_per_hour) true)])
       warsaw_summer
     = Raised (mk_exn TypeError msg)) /\
  update_chronotype_profile stdev_floor DEFAULT_CHRONOTYPE_CONFIG
    (create_chronotype_profile DEFAULT_CHRONOTYPE_CONFIG 1 INTERMEDIATE (str "meq")
       None None (1 # 2) 1)
    (sleep_data_early ++ [(mk_datetime 0 false, mk_datetime (8 * us_per_hour) true)])
    warsaw_summer
  = create_chronotype_profile DEFAULT_CHRONOTYPE_CONFIG 1 INTERMEDIATE (str "meq")
      None None (1 # 2) 1.
Proof.
  apply (mixed_record_stops_the_analysis stdev_floor DEFAULT_CHRONOTYPE_CONFIG).
  - vm_compute. reflexivity.
  - vm_compute. discriminate.
Defined.

End ChronotypeMoreFacts.

Module FocusBlocksFacts.
Import Py TimeUtils Clock ChronotypeM FocusBlocks SolverSchedule SolutionFacts
       ConstraintSolverFacts.

Lemma datetime_add_returned (dt td r : Z) :
  datetime_add dt td = Returned r -> r = dt + td.
Proof.
  unfold datetime_add. destruct (_ && _); [| discriminate].
  intros H. injection H as <-. reflexivity.
Qed.

Lemma ranges_today_returned (target_date : Z) (hours : list (time * time)) :
  forall ranges, ranges_today target_date hours = Returned ranges ->
    ranges = map (range_of target_date) hours.
Proof.
  induction hours as [| [s e] rest IH]; intros ranges H.
  - injection H as <-. reflexivity.
  - cbn [ranges_today] in H. cbn [map]. unfold range_of at 1. cbn [fst snd].
    destruct (combine target_date e <=? combine target_date s).
    + destruct (datetime_add (combine target_date e) us_per_day) as [e' |] eqn:A;
        [| discriminate H].
      apply datetime_add_returned in A. subst e'. cbn [bind] in H.
      destruct (ranges_today target_date rest) as [r |]; [| discriminate H].
      cbn [bind] in H. injection H as <-. rewrite (IH r eq_refl). reflexivity.
    + cbn [bind] in H.
      destruct (ranges_today target_date rest) as [r |]; [| discriminate H].
      cbn [bind] in H. injection H as <-. rewrite (IH r eq_refl). reflexivity.
Qed.

Lemma blocks_in_range_returned (block_duration min_break_td range_end : Z)
    (remaining : nat) :
  0 < block_duration -> 0 <= min_break_td ->
  forall start blocks,
    blocks_in_range remaining block_duration min_break_td range_end start
    = Returned blocks ->
    (List.length blocks <= remaining)%nat /\
    Forall (fun b => snd b = fst b + block_duration /\
                     start <= fst b /\ snd b <= range_end) blocks.
Proof.
  intros Hd Hb. induction remaining as [| k IH]; intros start blocks H.
  - injection H as <-. split; [apply Nat.le_refl | constructor].
  - cbn [blocks_in_range] in H.
    destruct (datetime_add start block_duration) as [e |] eqn:A; [| discriminate H].
    apply datetime_add_returned in A. cbn [bind] in H.
    destruct (Z.leb_spec e range_end) as [L | G].
    + destruct (datetime_add e min_break_td) as [n |] eqn:B; [| discriminate H].
      apply datetime_add_returned in B. cbn [bind] in H.
      destruct (blocks_in_range k block_duration min_break_td range_end n)
        as [rest |] eqn:R; [| discriminate H].
      cbn [bind] in H. injection H as <-.
      destruct (IH n rest R) as [Len F]. split; [cbn; lia |].
      constructor; [cbn [fst snd]; lia |].
      eapply Forall_impl; [| exact F]. cbn beta. intros b Hbk. lia.
    + injection H as <-. split; [cbn; lia | constructor].
Qed.

Lemma over_ranges_returned (max_blocks block_duration min_break_td : Z)
    (P : Z * Z -> Prop) (all : list (Z * Z)) :
  0 < block_duration -> 0 <= min_break_td ->
  (forall r b, In r all -> snd b = fst b + block_duration ->
               fst r <= fst b -> snd b <= snd r -> P b) ->
  forall ranges acc blocks,
    incl ranges all -> Forall P acc ->
    Z.of_nat (List.length acc) <= Z.max 0 max_blocks ->
    over_ranges max_blocks block_duration min_break_td ranges acc = Returned blocks ->
    Forall P blocks /\ Z.of_nat (List.length blocks) <= Z.max 0 max_blocks.
Proof.
  intros Hd Hb HP.
  induction ranges as [| [rs re] rest IH]; intros acc blocks Hi Hacc Hlen H.
  - injection H as <-. split; assumption.
  - cbn [over_ranges] in H.
    destruct (blocks_in_range _ block_duration min_break_td re rs) as [added |] eqn:A;
      [| discriminate H].
    cbn [bind] in H.
    destruct (blocks_in_range_returned _ _ _ _ Hd Hb _ _ A) as [Len F].
    assert (Facc : Forall P (acc ++ added)).
    { apply Forall_app. split; [exact Hacc |].
      eapply Forall_impl; [| exact F]. cbn beta. intros b (B1 & B2 & B3).
      apply (HP (rs, re)); [apply Hi; left; reflexivity | exact B1 | exact B2 | exact B3]. }
    assert (Lacc : Z.of_nat (List.length (acc ++ added)) <= Z.max 0 max_blocks).
    { rewrite length_app. lia. }
    destruct (max_blocks <=? Z.of_nat (List.length (acc ++ added))).
    + injection H as <-. split; assumption.
    + apply (IH (acc ++ added) blocks); try assumption.
      intros x Hx. apply Hi. right. exact Hx.
Qed.

Lemma in_firstn {A} (n : nat) (l : list A) (x : A) :
  In x (firstn n l) -> In x l.
Proof.
  revert l. induction n as [| n IH]; intros l H; [destruct H |].
  destruct l as [| y r]; [destruct H |].
  cbn [firstn] in H. destruct H as [E | H]; [left; exact E | right; apply IH; exact H].
Qed.

Lemma slice_to_incl {A} (n : Z) (l : list A) (x : A) :
  In x (slice_to n l) -> In x l.
Proof.
  unfold slice_to. destruct (0 <=? n); intros H; eapply in_firstn; exact H.
Qed.

Lemma slice_to_length {A} (n : Z) (l : list A) :
  Z.of_nat (List.length l) <= Z.max 0 n ->
  Z.of_nat (List.length (slice_to n l)) <= Z.max 0 n.
Proof.
  unfold slice_to. intros H.
  destruct (0 <=? n); rewrite length_firstn; lia.
Qed.

Lemma sort_length {A} (leb : A -> A -> bool) (l : list A) :
  List.length (Sorting.sort leb l) = List.length l.
Proof.
  induction l as [| x r IH]; [reflexivity |]. cbn [Sorting.sort].
  assert (I : forall y s, List.length (Sorting.insert leb y s) = S (List.length s)).
  { intros y s. induction s as [| z s IHs]; [reflexivity |].
    cbn [Sorting.insert]. destruct (leb y z); cbn [List.length]; [reflexivity |].
    rewrite IHs. reflexivity. }
  rewrite I, IH. reflexivity.
Qed.

(** Whenever [get_optimal_focus_blocks] returns, with a break that is not
    negative, it returns at most [max_blocks] blocks, each exactly
    [block_duration] long and lying inside one of the profile's preferred
    productive ranges of the target day (a range that ends at or before
    its start running into the next day). *)
Theorem focus_blocks_fit_the_preferred_hours (min_break : Z)
    (profile : ChronotypeProfile) (target_date : Z) (block_duration : timedelta)
    (min_blocks max_blocks : Z) (blocks : list (Z * Z)) :
  0 <= min_break ->
  get_optimal_focus_blocks min_break profile target_date block_duration
    min_blocks max_blocks = Returned blocks ->
  Z.of_nat (List.length blocks) <= Z.max 0 max_blocks /\
  Forall (fits_preferred_hours target_date (total_microseconds block_duration)
            (preferred_productive_hours profile)) blocks.
Proof.
  intros Hb H. unfold get_optimal_focus_blocks in H.
  destruct (Z.leb_spec (total_microseconds block_duration) 0) as [| Hd];
    [discriminate H |].
  destruct (timedelta_of_minutes min_break) as [td |] eqn:T; [| discriminate H].
  assert (Htd : 0 <= td).
  { unfold timedelta_of_minutes in T. destruct (_ && _); [| discriminate T].
    injection T as <-. unfold us_per_minute. lia. }
  cbn [bind] in H.
  destruct (preferred_productive_hours profile) as [| h0 hs] eqn:PH.
  - injection H as <-. split; [cbn; lia | constructor].
  - destruct (ranges_today target_date (h0 :: hs)) as [ranges |] eqn:R;
      [| discriminate H].
    apply ranges_today_returned in R. cbn [bind] in H.
    destruct (over_ranges max_blocks (total_microseconds block_duration) td
                (Sorting.sort pair_leb ranges) []) as [focus |] eqn:O;
      [| discriminate H].
    cbn [bind] in H. injection H as <-.
    destruct (over_ranges_returned max_blocks (total_microseconds block_duration) td
                (fits_preferred_hours target_date (total_microseconds block_duration)
                   (h0 :: hs))
                (Sorting.sort pair_leb ranges) Hd Htd) with
      (ranges := Sorting.sort pair_leb ranges) (acc := @nil (Z * Z)) (blocks := focus)
      as [F L].
    + intros r b Hr B1 B2 B3. split; [exact B1 |].
      apply in_sort in Hr. rewrite R in Hr. apply in_map_iff in Hr.
      destruct Hr as [hours [<- Hin]]. exists hours. repeat split; assumption.
    + apply incl_refl.
    + constructor.
    + cbn. lia.
    + exact O.
    + split.
      * apply slice_to_length. rewrite sort_length. exact L.
      * apply Forall_forall. intros b Hbk. apply slice_to_incl in Hbk.
        apply in_sort in Hbk. rewrite Forall_forall in F. apply F. exact Hbk.
Qed.

Lemma focus_blocks_fit_the_preferred_hours_witness :
  Z.of_nat (List.length
    [(739253 * us_per_day + 9 * us_per_hour,
      739253 * us_per_day + 9 * us_per_hour + 90 * us_per_minute);
     (739253 * us_per_day + 14 * us_per_hour,
      739253 * us_per_day + 14 * us_per_hour + 90 * us_per_minute);
     (739253 * us_per_day + 14 * us_per_hour + 105 * us_per_minute,
      739253 * us_per_day + 14 * us_per_hour + 195 * us_per_minute)])
  <= Z.max 0 4 /\
  Forall (fits_preferred_hours 739253 (total_microseconds (timedelta_minutes 90))
            (preferred_productive_hours
               (create_chronotype_profile DEFAULT_CHRONOTYPE_CONFIG 1 INTERMEDIATE
                  (str "meq") None None (1 # 2) 1)))
    [(739253 * us_per_day + 9 * us_per_hour,
      739253 * us_per_day + 9 * us_per_hour + 90 * us_per_minute);
     (739253 * us_per_day + 14 * us_per_hour,
      739253 * us_per_day + 14 * us_per_hour + 90 * us_per_minute);
     (739253 * us_per_day + 14 * us_per_hour + 105 * us_per_minute,
      739253 * us_per_day + 14 * us_per_hour + 195 * us_per_minute)].
Proof.
  apply (focus_blocks_fit_the_preferred_hours 15
           (create_chronotype_profile DEFAULT_CHRONOTYPE_CONFIG 1 INTERMEDIATE
              (str "meq") None None (1 # 2) 1)
           739253 (timedelta_minutes 90) 2 4).
  - lia.
  - vm_compute. reflexivity.
Defined.

End FocusBlocksFacts.

Module PrioritizingFacts.
Import Py TimeUtils Clock ChronotypeM TaskPrioritizer Prioritizing PyFacts QFacts
       RoundingFacts.

(** ** Urgency *)

Lemma total_seconds_pos (d : timedelta) :
  Qle_bool (total_seconds d) 0 = false -> 0 < total_microseconds d.
Proof.
  unfold total_seconds. intros H.
  destruct (Z_lt_le_dec 0 (total_microseconds d)) as [L | G]; [exact L | exfalso].
  assert (C : (inject_Z (total_microseconds d) / inject_Z 1000000 <= 0)%Q).
  { apply Qle_shift_div_r; [reflexivity |]. rewrite Qmult_0_l.
    change 0%Q with (inject_Z 0). rewrite <- Zle_Qle. exact G. }
  apply Qle_bool_iff in C. congruence.
Qed.

Lemma seconds_ratio (a b : Z) :
  0 < b ->
  (total_seconds (mk_timedelta a) / total_seconds (mk_timedelta b)
   == inject_Z a / inject_Z b)%Q.
Proof.
  intros H. unfold total_seconds. cbn [total_microseconds].
  assert (N : ~ (inject_Z b == 0)%Q).
  { intros C. unfold Qeq in C. cbn in C. lia. }
  field. exact N.
Qed.

Lemma ratio_mono (a a' b : Z) :
  0 < b -> a <= a' -> (inject_Z a / inject_Z b <= inject_Z a' / inject_Z b)%Q.
Proof.
  intros Hb H. unfold Qdiv. apply Qmult_le_compat_r.
  - rewrite <- Zle_Qle. exact H.
  - apply Qlt_le_weak. apply Qinv_lt_0_compat.
    change 0%Q with (inject_Z 0). rewrite <- Zlt_Qlt. exact Hb.
Qed.

Lemma ratio_below_one (a b : Z) :
  0 < b -> a <= b -> (inject_Z a / inject_Z b <= 1)%Q.
Proof.
  intros Hb H. apply Qle_shift_div_r.
  - change 0%Q with (inject_Z 0). rewrite <- Zlt_Qlt. exact Hb.
  - rewrite Qmult_1_l. rewrite <- Zle_Qle. exact H.
Qed.

Lemma square_mono (x y : Q) : (0 <= x)%Q -> (x <= y)%Q -> (x * x <= y * y)%Q.
Proof.
  intros Hx H. apply Qle_trans with (y * x)%Q.
  - apply Qmult_le_compat_r; assumption.
  - rewrite (Qmult_comm y x). apply Qmult_le_compat_r; [exact H | lra].
Qed.

Lemma urgency_of_bounds (since total : Z) : (0 <= urgency_of since total <= 1)%Q.
Proof.
  unfold urgency_of. cbv zeta.
  match goal with
  | |- (0 <= Qmin 1 (Qmax 0 ?s) <= 1)%Q =>
      destruct (Qmin_cases 1 (Qmax 0 s)) as [[-> _] | [-> L]]; [lra |];
      destruct (Qmax_lower 0 s); lra
  end.
Qed.

Lemma urgency_of_mono (since since' total : Z) :
  0 < total -> since <= since' ->
  (urgency_of since total <= urgency_of since' total)%Q.
Proof.
  intros Ht H. unfold urgency_of. cbv zeta.
  apply Qmin_mono. apply Qmax_mono.
  assert (R : (Qmax 0 (total_seconds (mk_timedelta since)
                       / total_seconds (mk_timedelta total))
               <= Qmax 0 (total_seconds (mk_timedelta since')
                          / total_seconds (mk_timedelta total)))%Q).
  { apply Qmax_mono. rewrite !seconds_ratio by exact Ht. apply ratio_mono; assumption. }
  apply square_mono; [apply Qmax_lower | exact R].
Qed.


Lemma urgency_with_aware_creation (d created_at now : datetime) :
  dt_aware created_at = true ->
  time_urgency_factor (Some d) created_at now
  = Returned (if dt_us d <=? dt_us now then 1%Q
              else if Qle_bool (total_seconds
                                  (mk_timedelta (dt_us d - dt_us created_at))) 0
                   then 1%Q
                   else urgency_of (dt_us now - dt_us created_at)
                          (dt_us d - dt_us created_at)).
Proof.
  intros A. unfold time_urgency_factor, datetime_sub, assume_utc.
  cbn [dt_us dt_aware]. rewrite A. cbn [Bool.eqb bind].
  destruct (dt_us d <=? dt_us now); [reflexivity |].
  destruct (Qle_bool _ 0); reflexivity.
Qed.

(** For a task whose creation time is timezone-aware the urgency factor
    is always returned and lies between 0 and 1; it is 0 without a
    deadline, 1 once the deadline is reached, and it never decreases as
    the reference time moves on. *)
Theorem urgency_factor_bounds_and_growth (deadline : option datetime)
    (created_at now later : datetime) :
  dt_aware created_at = true ->
  dt_us now <= dt_us later ->
  exists u u',
    time_urgency_factor deadline created_at now = Returned u /\
    time_urgency_factor deadline created_at later = Returned u' /\
    (0 <= u <= 1)%Q /\ (u <= u')%Q /\ (u' <= 1)%Q /\
    (deadline = None -> u = 0%Q) /\
    (forall d, deadline = Some d -> dt_us d <= dt_us now -> u = 1%Q).
Proof.
  intros A L. destruct deadline as [d |].
  - rewrite !urgency_with_aware_creation by exact A.
    eexists. eexists. split; [reflexivity |]. split; [reflexivity |].
    destruct (Z.leb_spec (dt_us d) (dt_us now)) as [P | F].
    + destruct (Z.leb_spec (dt_us d) (dt_us later)); [| lia].
      repeat split; try lra; try discriminate.
    + destruct (Qle_bool (total_seconds (mk_timedelta (dt_us d - dt_us created_at))) 0)
        eqn:T.
      * destruct (dt_us d <=? dt_us later);
          repeat split; try lra; try discriminate;
            intros d0 E Hd; injection E as <-; first [reflexivity | exfalso; lia].
      * apply total_seconds_pos in T. cbn [total_microseconds] in T.
        pose proof (urgency_of_bounds (dt_us now - dt_us created_at)
                      (dt_us d - dt_us created_at)) as B.
        pose proof (urgency_of_bounds (dt_us later - dt_us created_at)
                      (dt_us d - dt_us created_at)) as B'.
        pose proof (urgency_of_mono (dt_us now - dt_us created_at)
                      (dt_us later - dt_us created_at)
                      (dt_us d - dt_us created_at) T ltac:(lia)) as M.
        destruct (dt_us d <=? dt_us later);
          repeat split; try lra; try discriminate;
            intros d0 E Hd; injection E as <-; first [reflexivity | exfalso; lia].
  - exists 0%Q, 0%Q. repeat split; try lra; try reflexivity; discriminate.
Qed.

Lemma urgency_factor_bounds_and_growth_witness :
  exists u u',
    time_urgency_factor (Some (mk_datetime 1000 true)) (mk_datetime 0 true)
      (mk_datetime 250 true) = Returned u /\
    time_urgency_factor (Some (mk_datetime 1000 true)) (mk_datetime 0 true)
      (mk_datetime 500 true) = Returned u' /\
    (0 <= u <= 1)%Q /\ (u <= u')%Q /\ (u' <= 1)%Q /\
    (Some (mk_datetime 1000 true) = None -> u = 0%Q) /\
    (forall d, Some (mk_datetime 1000 true) = Some d ->
               dt_us d <= dt_us (mk_datetime 250 true) -> u = 1%Q).
Proof.
  apply (urgency_factor_bounds_and_growth (Some (mk_datetime 1000 true))
           (mk_datetime 0 true) (mk_datetime 250 true) (mk_datetime 500 true)).
  - reflexivity.
  - cbn. lia.
Defined.


(** ** Priority score *)

Lemma urgency_in_unit (deadline : option datetime) (created_at now : datetime) (u : Q) :
  time_urgency_factor deadline created_at now = Returned u -> (0 <= u <= 1)%Q.
Proof.
  unfold time_urgency_factor. destruct deadline as [d |].
  - destruct (_ <=? _); [intros H; injection H as <-; lra |].
    destruct (datetime_sub (assume_utc d) created_at) as [total |]; [| discriminate].
    cbn [bind]. destruct (Qle_bool _ 0); [intros H; injection H as <-; lra |].
    destruct (datetime_sub (assume_utc now) created_at) as [since |]; [| discriminate].
    cbn [bind]. intros H. injection H as <-.
    destruct since as [a], total as [b]. apply (urgency_of_bounds a b).
  - intros H. injection H as <-. lra.
Qed.

Lemma capped_share (n k : Z) : 0 <= n ->
  (0 <= Qmin 1 (inject_Z n / inject_Z (Z.max 1 k)) <= 1)%Q.
Proof.
  intros H.
  assert (P : (0 <= inject_Z n / inject_Z (Z.max 1 k))%Q).
  { apply Qle_shift_div_l.
    - change 0%Q with (inject_Z 0). rewrite <- Zlt_Qlt. lia.
    - rewrite Qmult_0_l. change 0%Q with (inject_Z 0). rewrite <- Zle_Qle. exact H. }
  destruct (Qmin_cases 1 (inject_Z n / inject_Z (Z.max 1 k))) as [[-> _] | [-> L]]; lra.
Qed.

Lemma priority_factor_bounds (p : TaskPriority) :
  (1 # 5 <= inject_Z (TaskPriority_value p) / inject_Z 5 <= 1)%Q.
Proof. destruct p; split; vm_compute; discriminate. Qed.

(** With the default weights the priority score, whenever it is
    returned, lies between 0 and 1, whatever the task, its history and
    the dependency map. *)
Theorem priority_score_within_unit (task : Task) (postponed_count : Z)
    (created_at now : datetime) (dependency_map : @Dict.t UUID (list UUID))
    (score : Q) :
  calculate_priority_score default_prioritizer_config task postponed_count
    created_at now dependency_map = Returned score ->
  (0 <= score <= 1)%Q.
Proof.
  unfold calculate_priority_score.
  destruct (time_urgency_factor (deadline task) created_at now) as [u |] eqn:U;
    [| discriminate].
  apply urgency_in_unit in U. cbn [bind]. intros H. injection H as <-.
  pose proof (priority_factor_bounds (priority task)) as P.
  set (pf := (inject_Z (TaskPriority_value (priority task)) / inject_Z 5)%Q) in *.
  pose proof (capped_share
                (Z.of_nat (List.length
                   (Dict.get_default Z.eqb dependency_map (id task) [])))
                (dependency_max_scale default_prioritizer_config)
                ltac:(lia)) as D.
  set (df := Qmin 1 (inject_Z (Z.of_nat _) / _)) in *.
  assert (PO : (Qmin 1 (inject_Z postponed_count
                        / inject_Z (Z.max 1 (postponed_max_scale
                                               default_prioritizer_config))) <= 1)%Q)
    by apply Qmin_upper.
  set (po := Qmin 1 (inject_Z postponed_count / _)) in *.
  repeat match goal with
         | |- context [Dict.get_default pystr_eqb DEFAULT_WEIGHTS ?k ?d] =>
             let v := eval vm_compute in
                        (Dict.get_default pystr_eqb DEFAULT_WEIGHTS k d) in
             change (Dict.get_default pystr_eqb DEFAULT_WEIGHTS k d) with v
         end.
  clearbody pf df po.
  match goal with
  | |- (0 <= Qmax 0 ?s <= 1)%Q =>
      destruct (Qmax_cases 0 s) as [[-> _] | [-> L]]; lra
  end.
Qed.

Lemma priority_score_within_unit_witness :
  calculate_priority_score default_prioritizer_config
    (mk_Task (str "Report") 8 HIGH E_MEDIUM
       (DurTimedelta (timedelta_minutes 120))
       (Some (mk_datetime 1000 true)) None [] false)
    3 (mk_datetime 0 true) (mk_datetime 500 true) [(8, [4; 5])]
  = Returned (6968750000000000000000000000 # 12500000000000000000000000000)%Q /\
  (0 <= 6968750000000000000000000000 # 12500000000000000000000000000 <= 1)%Q.
Proof.
  split; [vm_compute; reflexivity |].
  apply (priority_score_within_unit
           (mk_Task (str "Report") 8 HIGH E_MEDIUM
              (DurTimedelta (timedelta_minutes 120))
              (Some (mk_datetime 1000 true)) None [] false)
           3 (mk_datetime 0 true) (mk_datetime 500 true) [(8, [4; 5])]).
  vm_compute. reflexivity.
Defined.

End PrioritizingFacts.

Module EnergyPatternFacts.
Import Py TimeUtils Clock ChronotypeM TaskPrioritizer ConstraintSolver Prioritizing
       PyFacts QFacts RoundingFacts.

Section DictLaws.
Context {V : Type}.

Lemma dict_set_in (d : @Dict.t Z V) (k : Z) (v : V) (a : Z) (b : V) :
  In (a, b) (Dict.set Z.eqb d k v) -> (a = k /\ b = v) \/ In (a, b) d.
Proof.
  induction d as [| [k' v'] r IH]; simpl.
  - intros [E | []]. left. split; congruence.
  - destruct (Z.eqb_spec k k') as [-> | N]; simpl.
    + intros [E | H]; [left; split; congruence | right; right; exact H].
    + intros [E | H]; [right; left; exact E |].
      destruct (IH H) as [L | R]; [left; exact L | right; right; exact R].
Qed.

Lemma dict_get_set (d : @Dict.t Z V) (k k' : Z) (v : V) :
  Dict.get Z.eqb (Dict.set Z.eqb d k v) k'
  = if k' =? k then Some v else Dict.get Z.eqb d k'.
Proof.
  induction d as [| [k0 v0] r IH]; simpl.
  - destruct (k' =? k); reflexivity.
  - destruct (Z.eqb_spec k k0) as [-> | N]; simpl.
    + destruct (Z.eqb_spec k' k0); reflexivity.
    + destruct (Z.eqb_spec k' k0) as [-> | N'].
      * destruct (Z.eqb_spec k0 k); [congruence | reflexivity].
      * exact IH.
Qed.

Lemma dict_get_in (d : @Dict.t Z V) (k : Z) (v : V) :
  Dict.get Z.eqb d k = Some v -> In (k, v) d.
Proof.
  induction d as [| [k0 v0] r IH]; simpl; [discriminate |].
  destruct (Z.eqb_spec k k0) as [-> | N].
  - intros H. injection H as ->. left. reflexivity.
  - intros H. right. apply IH. exact H.
Qed.

End DictLaws.

Lemma level_in_unit (pattern : @Dict.t Z Q) (h : Z) :
  valid_pattern pattern -> (0 <= level pattern h <= 1)%Q.
Proof.
  intros V. unfold level, Dict.get_default.
  destruct (Dict.get Z.eqb pattern h) as [v |] eqn:G; [| lra].
  apply dict_get_in in G. unfold valid_pattern in V. rewrite Forall_forall in V.
  apply (V (h, v) G).
Qed.

Lemma level_after_boost (pattern : @Dict.t Z Q) (h h' : Z) :
  level (boost pattern h) h'
  = if h' =? h then Qmin 1 (level pattern h + (1 # 10)) else level pattern h'.
Proof.
  unfold level, boost, Dict.get_default. rewrite dict_get_set.
  destruct (h' =? h); reflexivity.
Qed.

Lemma boost_keeps_valid (pattern : @Dict.t Z Q) (h : Z) :
  0 <= h <= 23 -> valid_pattern pattern -> valid_pattern (boost pattern h).
Proof.
  intros Hh V. pose proof (level_in_unit pattern h V) as L.
  unfold valid_pattern in *. apply Forall_forall. intros [a b] Hin.
  unfold boost in Hin. apply dict_set_in in Hin. destruct Hin as [[-> ->] | Hin].
  - cbn [fst snd]. split; [exact Hh |]. fold (level pattern h).
    destruct (Qmin_cases 1 (level pattern h + (1 # 10))) as [[-> _] | [-> M]]; lra.
  - rewrite Forall_forall in V. apply (V (a, b) Hin).
Qed.

Lemma boost_never_lowers (pattern : @Dict.t Z Q) (h h' : Z) :
  valid_pattern pattern -> (level pattern h' <= level (boost pattern h) h')%Q.
Proof.
  intros V. rewrite level_after_boost.
  destruct (Z.eqb_spec h' h) as [-> | N]; [| lra].
  pose proof (level_in_unit pattern h V).
  destruct (Qmin_cases 1 (level pattern h + (1 # 10))) as [[-> _] | [-> M]]; lra.
Qed.

Lemma boosts_keep_valid (hours : list Z) :
  Forall (fun h => 0 <= h <= 23) hours ->
  forall pattern, valid_pattern pattern ->
    valid_pattern (fold_left boost hours pattern) /\
    forall h', (level pattern h' <= level (fold_left boost hours pattern) h')%Q.
Proof.
  induction hours as [| h r IH]; intros Hh pattern V.
  - split; [exact V | intros; apply Qle_refl].
  - inversion Hh as [| ? ? H1 H2]; subst. cbn [fold_left].
    destruct (IH H2 (boost pattern h) (boost_keeps_valid _ _ H1 V)) as [V' L'].
    split; [exact V' |]. intros h'.
    eapply Qle_trans; [apply (boost_never_lowers pattern h h' V) | apply L'].
Qed.

(** Adapting a valid energy pattern to a chronotype profile keeps it
    valid (hours within 0..23, levels within 0..1) and lowers no hour's
    level; the solver's input check therefore accepts every adapted
    pattern on a full day. *)
Theorem adapted_energy_pattern_is_valid (base : @Dict.t Z Q)
    (profile : ChronotypeProfile) :
  valid_pattern base ->
  valid_pattern (get_energy_pattern base profile) /\
  (forall h, (level base h <= level (get_energy_pattern base profile) h)%Q) /\
  (forall target_date tasks fixed_events,
     exists solver_input,
       SolverInput_new target_date tasks fixed_events 0 1440
         (get_energy_pattern base profile) = Returned solver_input).
Proof.
  intros V.
  assert (A : valid_pattern (get_energy_pattern base profile) /\
              forall h, (level base h <= level (get_energy_pattern base profile) h)%Q).
  { unfold get_energy_pattern. destruct (primary_chronotype profile);
      try (split; [exact V | intros; apply Qle_refl]);
      apply boosts_keep_valid; try exact V; repeat constructor; lia. }
  destruct A as [V' L]. split; [exact V' |]. split; [exact L |].
  intros target_date tasks fixed_events. unfold SolverInput_new.
  cbn [andb negb Z.leb Z.ltb Z.compare].
  assert (K : forallb (fun h => (0 <=? h) && (h <=? 23))
                (Dict.keys (get_energy_pattern base profile)) = true).
  { apply forallb_forall. intros h Hh. unfold Dict.keys in Hh.
    apply in_map_iff in Hh. destruct Hh as [[a b] [<- Hin]].
    unfold valid_pattern in V'. rewrite Forall_forall in V'.
    destruct (V' (a, b) Hin) as [B _]. cbn [fst] in *.
    apply andb_true_iff. split; apply Z.leb_le; lia. }
  rewrite K. cbn [negb]. eexists. reflexivity.
Qed.

Lemma adapted_energy_pattern_is_valid_witness :
  valid_pattern
    (get_energy_pattern flat_energy_pattern
       (create_chronotype_profile DEFAULT_CHRONOTYPE_CONFIG 1%Z EARLY_BIRD (str "meq")
          None None (1 # 2)%Q 1%Q)) /\
  (forall h,
     (level flat_energy_pattern h
      <= level (get_energy_pattern flat_energy_pattern
                  (create_chronotype_profile DEFAULT_CHRONOTYPE_CONFIG 1%Z EARLY_BIRD
                     (str "meq") None None (1 # 2)%Q 1%Q)) h)%Q) /\
  (forall target_date tasks fixed_events,
     exists solver_input,
       SolverInput_new target_date tasks fixed_events 0 1440
         (get_energy_pattern flat_energy_pattern
            (create_chronotype_profile DEFAULT_CHRONOTYPE_CONFIG 1%Z EARLY_BIRD
               (str "meq") None None (1 # 2)%Q 1%Q)) = Returned solver_input).
Proof.
  apply (adapted_energy_pattern_is_valid flat_energy_pattern).
  unfold valid_pattern, flat_energy_pattern.
  apply Forall_forall. intros [a b] H. apply in_map_iff in H.
  destruct H as [n [E Hn]]. apply in_seq in Hn. injection E as <- <-.
  cbn [fst snd]. split; [lia | split; discriminate].
Defined.

End EnergyPatternFacts.

Module PlanningFacts.
Import Py TimeUtils Clock ChronotypeM Sleep TaskPrioritizer ConstraintSolver
       Orchestrator Scenarios Planning PyFacts TimeUtilsFacts ConstraintSolverFacts
       OrchestratorFacts CoverageFacts SolutionFacts.

(** ** Generation without a MEQ score *)

(** Without a MEQ score that the analyzer accepts, [generate_schedule]
    returns the failed, empty schedule: the fallback of [_prepare_profile]
    raises, whatever else the input holds. *)
Theorem generation_fails_without_usable_meq (self : Scheduler)
    (input_data : ScheduleInputData) :
  (forall d m, in_user_profile_data input_data = Some d -> meq_score d = Some m ->
     exists e, determine_chronotype_from_meq (chronotype_config self) m = Raised e) ->
  exists g, generate_schedule self input_data = Returned g /\
            scheduled_items g = [] /\
            metrics_status (metrics g) = Some (str "failed") /\
            explanations_error g <> None /\
            warnings g <> [].
Proof.
  intros H.
  assert (P : exists e, prepare_profile self input_data = Raised e).
  { unfold prepare_profile.
    destruct (in_user_profile_data input_data) as [d |] eqn:Ed;
      [| eexists; reflexivity].
    destruct (meq_score d) as [m |] eqn:Em; [| eexists; reflexivity].
    destruct (H d m eq_refl Em) as [e ->]. eexists. reflexivity. }
  destruct P as [e P].
  unfold generate_schedule, generate_schedule_body. rewrite P.
  cbn [bind try_except]. eexists. split; [reflexivity |].
  unfold create_empty. cbn [scheduled_items metrics metrics_status
                            explanations_error warnings app].
  repeat split; discriminate.
Qed.

Lemma generation_fails_without_usable_meq_witness :
  exists g, generate_schedule (default_scheduler s2_engine) anonymous_input
            = Returned g /\
            scheduled_items g = [] /\
            metrics_status (metrics g) = Some (str "failed") /\
            explanations_error g <> None /\
            warnings g <> [].
Proof.
  apply (generation_fails_without_usable_meq (default_scheduler s2_engine)
           anonymous_input).
  intros d m H. discriminate H.
Defined.

(** ** The solver input of the orchestrator *)

Lemma intermediate_profile_prepared (engine : Engine) :
  prepare_profile (default_scheduler engine) s1_input = Returned intermediate_profile /\
  prepare_profile (default_scheduler engine) s2_input = Returned intermediate_profile.
Proof. split; vm_compute; reflexivity. Qed.

Lemma SolverTask_new_returned (i d p e : Z) (es le : option Z) (deps : list UUID)
    (st : SolverTask) :
  SolverTask_new i d p e es le deps = Returned st ->
  st = mk_SolverTask i d p e es le deps /\ sound_task st.
Proof.
  unfold SolverTask_new, raise, sound_task.
  destruct (Z.leb_spec d 0) as [| D]; [discriminate |].
  destruct (opt_test es (fun es => es <? 0)) eqn:A; [discriminate |].
  destruct (opt_test le (fun le => 1440 <? le)) eqn:B; [discriminate |].
  destruct (match es, le with
            | Some es0, Some le0 => le0 <? es0 + d
            | _, _ => false
            end) eqn:C; [discriminate |].
  intros E. injection E as <-. split; [reflexivity |].
  cbn [st_duration_minutes st_earliest_start_minutes st_latest_end_minutes].
  split; [exact D |].
  destruct es as [es |], le as [le |]; cbn [opt_test] in A, B;
    repeat match goal with
           | H : (_ <? _) = false |- _ => apply Z.ltb_ge in H
           end; repeat split; try lia; exact I.
Qed.

Lemma solver_tasks_of_sound (target : date) (tasks : list Task) :
  forall sts, solver_tasks_of target tasks = Returned sts ->
  Forall (fun st => sound_task st /\
            exists t, In t tasks /\ completed t = false /\ st_id st = id t /\
                      task_dur_min t = Some (st_duration_minutes st)) sts.
Proof.
  induction tasks as [| t r IH]; intros sts E; cbn [solver_tasks_of] in E.
  - injection E as <-. constructor.
  - assert (W : forall l,
               Forall (fun st => sound_task st /\
                  exists t0, In t0 r /\ completed t0 = false /\ st_id st = id t0 /\
                             task_dur_min t0 = Some (st_duration_minutes st)) l ->
               Forall (fun st => sound_task st /\
                  exists t0, In t0 (t :: r) /\ completed t0 = false /\
                             st_id st = id t0 /\
                             task_dur_min t0 = Some (st_duration_minutes st)) l).
    { intros l F. eapply Forall_impl; [| exact F].
      intros st [S (t0 & I0 & R)]. split; [exact S |].
      exists t0. split; [right; exact I0 | exact R]. }
    destruct (completed t) eqn:Ec; [apply W, IH, E |].
    destruct (task_dur_min t) as [dm |] eqn:Ed; [| apply W, IH, E].
    destruct (solver_task_of target t dm) as [st | e] eqn:Es; [| discriminate].
    destruct (solver_tasks_of target r) as [sts' | e] eqn:Er; [| discriminate].
    cbn [bind] in E. injection E as <-.
    unfold solver_task_of in Es. apply SolverTask_new_returned in Es.
    destruct Es as [-> S]. constructor; [| apply W, IH; reflexivity].
    split; [exact S |]. exists t. cbn [st_id st_duration_minutes].
    repeat split; [left; reflexivity | exact Ec | exact Ed].
Qed.

Lemma FixedEventInterval_new_returned (i : pystr) (s e : Z) (fe : FixedEventInterval) :
  FixedEventInterval_new i s e = Returned fe ->
  fe = mk_FixedEventInterval i s e /\ sound_event fe.
Proof.
  unfold FixedEventInterval_new, raise, sound_event.
  destruct ((0 <=? s) && (s <=? 1439) && (0 <=? e) && (e <=? 1440)) eqn:A;
    cbn [negb]; [| discriminate].
  destruct (Z.leb_spec e s); [discriminate |].
  destruct (Z.leb_spec (e - s) 0); [discriminate |].
  intros E. injection E as <-. split; [reflexivity |].
  cbn [fe_start_minutes fe_end_minutes].
  repeat (apply andb_true_iff in A; destruct A as [A ?]).
  repeat match goal with
         | H : (_ <=? _) = true |- _ => apply Z.leb_le in H
         end. lia.
Qed.

Lemma solver_events_of_sound (events : list FixedEventInput) :
  forall fes, solver_events_of events = Returned fes ->
  Forall sound_event fes /\ map fe_id fes = map ev_id events.
Proof.
  induction events as [| ev r IH]; intros fes E; cbn [solver_events_of] in E.
  - injection E as <-. split; [constructor | reflexivity].
  - destruct (solver_event_of ev) as [fe | e] eqn:Ee; [| discriminate].
    destruct (solver_events_of r) as [fes' | e] eqn:Er; [| discriminate].
    cbn [bind] in E. injection E as <-.
    destruct (IH fes' eq_refl) as [F M].
    unfold solver_event_of in Ee.
    destruct (fromisoformat (ev_start_time ev)) as [st | e]; [| discriminate].
    destruct (fromisoformat (ev_end_time ev)) as [et | e]; [| discriminate].
    cbn [bind] in Ee. apply FixedEventInterval_new_returned in Ee.
    destruct Ee as [Efe S]. split; [constructor; assumption |].
    cbn [map]. rewrite M. f_equal. rewrite Efe. reflexivity.
Qed.

Lemma sleep_events_sound (sm : SleepMetrics) (evs : list FixedEventInterval) :
  sleep_events sm = Returned evs ->
  Forall sound_event evs /\
  (map fe_id evs = [str "sleep"]
   \/ map fe_id evs = [str "sleep_prev"; str "sleep_next"]).
Proof.
  unfold sleep_events.
  destruct (minutes_of (ideal_bedtime sm) <? minutes_of (ideal_wake_time sm)).
  - destruct (FixedEventInterval_new (str "sleep") _ _) as [s | e] eqn:Es;
      [| discriminate].
    cbn [bind]. intros E. injection E as <-.
    apply FixedEventInterval_new_returned in Es. destruct Es as [Efe S].
    split; [constructor; [exact S | constructor] |]. left. rewrite Efe. reflexivity.
  - destruct (FixedEventInterval_new (str "sleep_prev") _ _) as [p | e] eqn:Ep;
      [| discriminate].
    destruct (FixedEventInterval_new (str "sleep_next") _ _) as [n | e] eqn:En;
      [| discriminate].
    cbn [bind]. intros E. injection E as <-.
    apply FixedEventInterval_new_returned in Ep. destruct Ep as [Ep Sp].
    apply FixedEventInterval_new_returned in En. destruct En as [En Sn].
    split; [constructor; [exact Sp | constructor; [exact Sn | constructor]] |]. right. rewrite Ep, En. reflexivity.
Qed.

Lemma prepare_solver_input_parts (self : Scheduler) (input_data : ScheduleInputData)
    (profile : ChronotypeProfile) (sm : SleepMetrics) (si : SolverInput) :
  prepare_solver_input self input_data profile sm = Some si ->
  exists sts fes evs,
    solver_tasks_of (in_target_date input_data) (in_tasks input_data) = Returned sts /\
    solver_events_of (in_fixed_events_input input_data) = Returned fes /\
    sleep_events sm = Returned evs /\
    si = mk_SolverInput (in_target_date input_data) sts (fes ++ evs) 0 1440
           (get_energy_pattern (user_energy_pattern self) profile).
Proof.
  unfold prepare_solver_input, prepare_solver_input_body.
  destruct (solver_tasks_of _ _) as [sts | e]; [| discriminate].
  destruct (solver_events_of _) as [fes | e]; [| discriminate].
  destruct (sleep_events sm) as [evs | e]; [| discriminate].
  cbn [bind]. unfold SolverInput_new, raise.
  destruct (negb _); [discriminate |].
  destruct (negb _); [discriminate |].
  intros E. injection E as <-. exists sts, fes, evs. repeat split.
Qed.

(** Every solver input the orchestrator prepares spans the whole day
    (0..1440), holds only tasks that are not completed, each with a positive
    duration and a window that passed the solver's checks, and holds the
    user's fixed events in their order followed by one or two sleep
    events, every one inside the day and of positive length. *)
Theorem prepared_input_is_well_formed (self : Scheduler)
    (input_data : ScheduleInputData) (profile : ChronotypeProfile)
    (sleep_metrics : SleepMetrics) (solver_input : SolverInput) :
  prepare_solver_input self input_data profile sleep_metrics = Some solver_input ->
  si_day_start_minutes solver_input = 0 /\
  si_day_end_minutes solver_input = 1440 /\
  Forall (fun st => sound_task st /\
            exists t, In t (in_tasks input_data) /\ completed t = false /\
                      st_id st = id t /\
                      task_dur_min t = Some (st_duration_minutes st))
         (si_tasks solver_input) /\
  Forall sound_event (si_fixed_events solver_input) /\
  exists sleep_ids,
    map fe_id (si_fixed_events solver_input)
    = map ev_id (in_fixed_events_input input_data) ++ sleep_ids /\
    (sleep_ids = [str "sleep"] \/ sleep_ids = [str "sleep_prev"; str "sleep_next"]).
Proof.
  intros H. apply prepare_solver_input_parts in H.
  destruct H as (sts & fes & evs & Et & Ee & Es & ->).
  cbn [si_day_start_minutes si_day_end_minutes si_tasks si_fixed_events].
  destruct (solver_events_of_sound _ _ Ee) as [Fe Me].
  destruct (sleep_events_sound _ _ Es) as [Fs Ms].
  split; [reflexivity |]. split; [reflexivity |].
  split; [apply solver_tasks_of_sound with (1 := Et) |].
  split; [apply Forall_app; split; assumption |].
  exists (map fe_id evs). split; [rewrite map_app, Me; reflexivity | exact Ms].
Qed.

Lemma prepared_input_is_well_formed_witness :
  si_day_start_minutes s2_solver_input = 0 /\
  si_day_end_minutes s2_solver_input = 1440 /\
  Forall (fun st => sound_task st /\
            exists t, In t (in_tasks s2_input) /\ completed t = false /\
                      st_id st = id t /\
                      task_dur_min t = Some (st_duration_minutes st))
         (si_tasks s2_solver_input) /\
  Forall sound_event (si_fixed_events s2_solver_input) /\
  exists sleep_ids,
    map fe_id (si_fixed_events s2_solver_input)
    = map ev_id (in_fixed_events_input s2_input) ++ sleep_ids /\
    (sleep_ids = [str "sleep"] \/ sleep_ids = [str "sleep_prev"; str "sleep_next"]).
Proof.
  apply (prepared_input_is_well_formed (default_scheduler s2_engine) s2_input
           intermediate_profile
           (calculate_sleep (default_scheduler s2_engine) intermediate_profile s2_input)).
  vm_compute. reflexivity.
Defined.

(** ** Blocks that no block outranks *)

Lemma place_keeps (b e : block) (acc : list block) :
  In e acc ->
  In e (place b acc) \/ (overlaps b e = true /\ rank e < rank b).
Proof.
  induction acc as [| x r IH]; intros H; [destruct H |].
  cbn [place]. destruct (overlaps b x) eqn:O.
  - destruct (Z.ltb_spec (priority_order (it_type (block_meta x)))
                         (priority_order (it_type (block_meta b)))) as [L | L].
    + destruct H as [<- | H]; [right; split; [exact O | exact L] |].
      left. right. exact H.
    + left. exact H.
  - destruct H as [<- | H]; [left; left; reflexivity |].
    destruct (IH H) as [L | R]; [left; right; exact L | right; exact R].
Qed.

Lemma place_adds (b : block) (acc : list block) :
  In b (place b acc) \/
  exists x, In x acc /\ overlaps b x = true /\ rank b <= rank x.
Proof.
  induction acc as [| x r IH]; cbn [place]; [left; left; reflexivity |].
  destruct (overlaps b x) eqn:O.
  - destruct (Z.ltb_spec (priority_order (it_type (block_meta x)))
                         (priority_order (it_type (block_meta b)))) as [L | L].
    + left. left. reflexivity.
    + right. exists x. split; [left; reflexivity |]. split; [exact O | exact L].
  - destruct IH as [L | (y & Hy & R)]; [left; right; exact L |].
    right. exists y. split; [right; exact Hy | exact R].
Qed.

Section Unrivalled.
Variable all : list block.
Variable e : block.
Hypothesis unrivalled :
  forall b, In b all -> overlaps e b = true -> rank e <= rank b -> b = e.

Lemma unrivalled_stays (blocks : list block) :
  (forall b, In b blocks -> In b all) ->
  forall acc, In e acc -> In e (fold_left (fun acc b => place b acc) blocks acc).
Proof.
  induction blocks as [| b r IH]; intros Hs acc H; cbn [fold_left]; [exact H |].
  apply IH; [intros x Hx; apply Hs; right; exact Hx |].
  destruct (place_keeps b e acc H) as [L | [O R]]; [exact L |].
  rewrite overlaps_sym in O.
  assert (E : b = e) by (apply unrivalled; [apply Hs; left; reflexivity | exact O | lia]).
  subst b. lia.
Qed.

Lemma unrivalled_enters (blocks : list block) :
  (forall b, In b blocks -> In b all) ->
  forall acc, (forall x, In x acc -> In x all) -> In e blocks ->
    In e (fold_left (fun acc b => place b acc) blocks acc).
Proof.
  induction blocks as [| b r IH]; intros Hs acc Ha H; [destruct H |].
  cbn [fold_left].
  assert (Hr : forall x, In x r -> In x all) by (intros x Hx; apply Hs; right; exact Hx).
  destruct H as [-> | H].
  - apply unrivalled_stays; [exact Hr |].
    destruct (place_adds e acc) as [L | (x & Hx & O & R)]; [exact L |].
    assert (E : x = e) by (apply unrivalled; [apply Ha; exact Hx | exact O | exact R]).
    subst x. destruct (place_keeps e e acc Hx) as [L | [_ R']]; [exact L | lia].
  - apply IH; [exact Hr | | exact H].
    intros x Hx. apply in_place in Hx. destruct Hx as [-> | Hx];
      [apply Hs; left; reflexivity | apply Ha; exact Hx].
Qed.

End Unrivalled.

Lemma fill_step_grows (bs : list block) :
  forall st i,
    (In i (fst st) \/ exists b, In b bs /\ i = block_meta b) ->
    In i (fst (fold_left fill_step bs st)).
Proof.
  induction bs as [| b r IH]; intros [final prev] i H; cbn [fold_left].
  - destruct H as [H | (b & [] & _)]. exact H.
  - apply IH. unfold fill_step at 1. cbn [fst].
    destruct H as [H | (b0 & [<- | Hb] & ->)].
    + left. apply in_or_app. left.
      destruct (prev <? block_start b); [apply in_or_app; left |]; exact H.
    + left. apply in_or_app. right. left. reflexivity.
    + right. exists b0. split; [exact Hb | reflexivity].
Qed.

Lemma fill_gaps_has_blocks (bs : list block) (b : block) :
  In b bs -> In (block_meta b) (fill_gaps bs).
Proof.
  intros H. unfold fill_gaps.
  pose proof (fill_step_grows bs ([], 0) (block_meta b)) as G.
  destruct (fold_left fill_step bs ([], 0)) as [final prev]. cbn [fst] in G.
  assert (I : In (block_meta b) final)
    by (apply G; right; exists b; split; [exact H | reflexivity]).
  destruct (prev <? 1440); [apply in_or_app; left |]; exact I.
Qed.

(** A candidate block that meets no other candidate of equal or higher
    rank (fixed event above task, meal, routine, activity) always reaches
    the final schedule: the conflict loop neither refuses nor replaces
    it. *)
Theorem unrivalled_block_reaches_schedule (self : Scheduler)
    (core_schedule : list ScheduledTaskInfo) (input_data : ScheduleInputData)
    (sleep_metrics : SleepMetrics) (blocks : list block) (e : block) :
  candidate_blocks self core_schedule input_data sleep_metrics = Returned blocks ->
  In e blocks ->
  (forall b, In b blocks -> overlaps e b = true -> rank e <= rank b -> b = e) ->
  exists items,
    process_core_schedule self core_schedule input_data sleep_metrics
    = Returned items /\
    In (block_meta e) items.
Proof.
  intros C He Hu. unfold process_core_schedule. rewrite C. cbn [bind].
  eexists. split; [reflexivity |].
  apply fill_gaps_has_blocks. apply sort_perm_in. unfold resolve_conflicts.
  apply (unrivalled_enters blocks e Hu).
  - intros b Hb. apply in_sort_blocks in Hb. exact Hb.
  - intros x [].
  - apply sort_perm_in. exact He.
Qed.

Lemma unrivalled_block_reaches_schedule_witness :
  exists items,
    process_core_schedule (default_scheduler refusing_engine) [] s1_input
      (calculate_sleep (default_scheduler refusing_engine) intermediate_profile s1_input)
    = Returned items /\
    In (block_meta (fixed_event_block (mk_FixedEventInterval (str "lunch") 750 795)))
       items.
Proof.
  eapply (unrivalled_block_reaches_schedule (default_scheduler refusing_engine) []
            s1_input _ _
            (fixed_event_block (mk_FixedEventInterval (str "lunch") 750 795))).
  - vm_compute. reflexivity.
  - vm_compute. tauto.
  - intros b Hb Ho Hr.
    repeat (destruct Hb as [<- | Hb];
            [first [reflexivity | vm_compute in Ho; discriminate Ho] |]).
    destruct Hb.
Defined.

(** ** Metrics of a generated schedule *)

Lemma pystr_eqb_true (a b : pystr) : pystr_eqb a b = true -> a = b.
Proof.
  revert b. induction a as [| x a IH]; intros [| y b]; cbn [pystr_eqb];
    try discriminate; [reflexivity |].
  intros H. apply andb_true_iff in H. destruct H as [H1 H2].
  apply Ascii.eqb_eq in H1. f_equal; [exact H1 | apply IH; exact H2].
Qed.

Lemma sum_durations_cons (p : item -> bool) (i : item) (r : list item) :
  sum_durations p (i :: r)
  = (if p i then it_duration_minutes i else 0) + sum_durations p r.
Proof.
  unfold sum_durations. cbn [filter]. destruct (p i); reflexivity.
Qed.

(** The type strings are distinct, so an item of a counted type is added
    to exactly one total. *)
Lemma counted_once (i : item) :
  counted_type i = true ->
  (if type_is "task" i then it_duration_minutes i else 0)
  + (if break_type i then it_duration_minutes i else 0)
  + (if type_is "fixed_event" i then it_duration_minutes i else 0)
  + (if type_is "meal" i then it_duration_minutes i else 0)
  + (if type_is "routine" i then it_duration_minutes i else 0)
  + (if type_is "activity" i then it_duration_minutes i else 0)
  = it_duration_minutes i.
Proof.
  unfold counted_type, break_type, type_is. intros H.
  repeat match type of H with
         | (_ || _) = true => apply orb_true_iff in H; destruct H as [H | H]
         end;
    apply pystr_eqb_true in H; rewrite H;
    cbn [str list_ascii_of_string pystr_eqb Ascii.eqb Bool.eqb andb orb]; lia.
Qed.

Lemma totals_account (items : list item) :
  Forall (fun i => counted_type i = true) items ->
  sum_durations (type_is "task") items
  + sum_durations break_type items
  + sum_durations (type_is "fixed_event") items
  + sum_durations (type_is "meal") items
  + sum_durations (type_is "routine") items
  + sum_durations (type_is "activity") items
  = total_minutes items.
Proof.
  induction 1 as [| i r Hi _ IH]; [reflexivity |].
  rewrite !sum_durations_cons. cbn [total_minutes fold_right].
  fold (total_minutes r). pose proof (counted_once i Hi). lia.
Qed.

Lemma gap_item_counted (prev start : Z) : counted_type (gap_item prev start) = true.
Proof.
  unfold gap_item.
  destruct (120 <=? start - prev); [reflexivity |].
  destruct (45 <=? start - prev); [reflexivity |].
  destruct (15 <=? start - prev); reflexivity.
Qed.

Lemma trailing_item_counted (prev : Z) : counted_type (trailing_item prev) = true.
Proof. unfold trailing_item. destruct (1440 - prev <=? 30); reflexivity. Qed.

Lemma fill_step_counted (bs : list block) :
  Forall (fun b => counted_type (block_meta b) = true) bs ->
  forall st, Forall (fun i => counted_type i = true) (fst st) ->
    Forall (fun i => counted_type i = true) (fst (fold_left fill_step bs st)).
Proof.
  induction 1 as [| b r Hb _ IH]; intros [final prev] F; cbn [fold_left];
    [exact F |].
  apply IH. unfold fill_step. cbn [fst] in *.
  apply Forall_app. split; [| constructor; [exact Hb | constructor]].
  destruct (prev <? block_start b); [| exact F].
  apply Forall_app. split; [exact F |].
  constructor; [apply gap_item_counted | constructor].
Qed.

Lemma fill_gaps_counted (bs : list block) :
  Forall (fun b => counted_type (block_meta b) = true) bs ->
  Forall (fun i => counted_type i = true) (fill_gaps bs).
Proof.
  intros H. unfold fill_gaps.
  pose proof (fill_step_counted bs H ([], 0) (Forall_nil _)) as G.
  destruct (fold_left fill_step bs ([], 0)) as [final prev]. cbn [fst] in G.
  destruct (prev <? 1440); [| exact G].
  apply Forall_app. split; [exact G |].
  constructor; [apply trailing_item_counted | constructor].
Qed.

Lemma activity_blocks_counted (weekday : pystr) (w m e : Z) (a : ActivityGoal) :
  Forall (fun b => counted_type (block_meta b) = true)
         (activity_blocks weekday w m e a).
Proof.
  unfold activity_blocks.
  destruct (_ || _); [| constructor].
  constructor; [reflexivity | constructor].
Qed.

Lemma candidate_blocks_counted (self : Scheduler)
    (core_schedule : list ScheduledTaskInfo) (input_data : ScheduleInputData)
    (sleep_metrics : SleepMetrics) (blocks : list block) :
  candidate_blocks self core_schedule input_data sleep_metrics = Returned blocks ->
  Forall (fun b => counted_type (block_meta b) = true) blocks.
Proof.
  unfold candidate_blocks.
  destruct (prepare_profile self input_data) as [profile | e]; [| discriminate].
  cbn [bind]. cbv zeta.
  match goal with
  | |- context [fold_left meal_flags_step ?l ?z] =>
      destruct (fold_left meal_flags_step l z) as [[hb hl] hd]
  end.
  intros E. injection E as <-.
  repeat (apply Forall_app; split).
  - apply Forall_forall. intros b Hb. apply in_sort_blocks in Hb.
    apply in_app_or in Hb. destruct Hb as [Hb | Hb].
    + destruct (prepare_solver_input self input_data profile sleep_metrics);
        [| destruct Hb].
      apply in_map_iff in Hb. destruct Hb as [fe [<- _]]. reflexivity.
    + apply in_map_iff in Hb. destruct Hb as [info [<- _]]. reflexivity.
  - repeat constructor.
  - destruct hb; repeat constructor.
  - destruct hl; repeat constructor.
  - destruct hd; repeat constructor.
  - apply Forall_forall. intros b Hb. apply in_flat_map in Hb.
    destruct Hb as [a [_ Hb]].
    pose proof (activity_blocks_counted
                  (weekday_abbr (in_target_date input_data))
                  (minutes_of (ideal_wake_time sleep_metrics))
                  (get_or (morning_duration_minutes
                             (get_or (routines (in_preferences input_data))
                                     no_routine_prefs)) 30)
                  (Z.max 0 (minutes_of (ideal_bedtime sleep_metrics)
                            - get_or (evening_duration_minutes
                                        (get_or (routines (in_preferences input_data))
                                                no_routine_prefs)) 45))
                  a) as F.
    rewrite Forall_forall in F. apply F. exact Hb.
Qed.

(** For every schedule built by [_process_core_schedule], the six totals
    of [_calculate_metrics] (tasks, breaks, fixed events, meals, routines,
    activities) add up to the durations of all the items: each item is
    counted once. *)
Theorem metrics_totals_account_for_the_schedule (self : Scheduler)
    (core_schedule : list ScheduledTaskInfo) (input_data : ScheduleInputData)
    (sleep_metrics : SleepMetrics) (items : list item) (tasks : list Task) :
  process_core_schedule self core_schedule input_data sleep_metrics
  = Returned items ->
  exists v,
    calculate_metrics items tasks = MetricsComputed v /\
    total_task_minutes v + total_break_minutes v + total_fixed_minutes v
    + total_meal_minutes v + total_routine_minutes v + total_activity_minutes v
    = total_minutes items /\
    total_productive_minutes v + total_personal_minutes v
    + total_break_minutes v + total_fixed_minutes v
    = total_minutes items.
Proof.
  unfold process_core_schedule.
  destruct (candidate_blocks self core_schedule input_data sleep_metrics)
    as [blocks | e] eqn:C; [| discriminate].
  cbn [bind]. intros E. injection E as <-.
  assert (F : Forall (fun i => counted_type i = true)
                (fill_gaps (sort_blocks (resolve_conflicts (sort_blocks blocks))))).
  { apply fill_gaps_counted. apply Forall_forall. intros b Hb.
    apply in_sort_blocks in Hb. unfold resolve_conflicts in Hb.
    apply in_resolve in Hb. destruct Hb as [Hb | []].
    apply in_sort_blocks in Hb.
    pose proof (candidate_blocks_counted _ _ _ _ _ C) as K.
    rewrite Forall_forall in K. apply K. exact Hb. }
  pose proof (totals_account _ F) as T.
  unfold calculate_metrics. eexists. split; [reflexivity |].
  cbn [total_task_minutes total_break_minutes total_fixed_minutes
       total_meal_minutes total_routine_minutes total_activity_minutes
       total_productive_minutes total_personal_minutes].
  fold break_type. unfold break_type in *. split; lia.
Qed.

Lemma metrics_totals_account_for_the_schedule_witness :
  exists items,
    process_core_schedule (default_scheduler refusing_engine) [] s1_input
      (calculate_sleep (default_scheduler refusing_engine) intermediate_profile
         s1_input)
    = Returned items /\
    exists v,
      calculate_metrics items [] = MetricsComputed v /\
      total_task_minutes v + total_break_minutes v + total_fixed_minutes v
      + total_meal_minutes v + total_routine_minutes v + total_activity_minutes v
      = total_minutes items /\
      total_productive_minutes v + total_personal_minutes v
      + total_break_minutes v + total_fixed_minutes v
      = total_minutes items.
Proof.
  eexists. split; [vm_compute; reflexivity |].
  apply (metrics_totals_account_for_the_schedule
           (default_scheduler refusing_engine) [] s1_input
           (calculate_sleep (default_scheduler refusing_engine) intermediate_profile
              s1_input)).
  vm_compute. reflexivity.
Defined.

End PlanningFacts.

Module WakeTimesFacts.
Import Py TimeUtils Clock FocusBlocks SolverSchedule WakeTimes PyFacts TimeUtilsFacts
       ConstraintSolverFacts TimeCalcFacts SolutionFacts FocusBlocksFacts.

Lemma in_range (a b n : Z) : In n (range a b) <-> a <= n < b.
Proof.
  unfold range. rewrite in_map_iff. split.
  - intros (k & <- & Hk). apply in_seq in Hk. lia.
  - intros H. exists (Z.to_nat (n - a)). split; [lia |]. apply in_seq. lia.
Qed.

Lemma range_length (a b : Z) : List.length (range a b) = Z.to_nat (b - a).
Proof. unfold range. rewrite length_map, length_seq. reflexivity. Qed.

Lemma time_of_us_shift (d us : Z) : time_of_us (d * us_per_day + us) = time_of_us us.
Proof.
  unfold time_of_us. rewrite Z.add_comm, Z.mod_add by (unfold us_per_day; lia).
  reflexivity.
Qed.

Lemma wake_times_loop_returned (cycle start : Z) (cycles : list Z) :
  Forall (fun n => 0 <= n * cycle /\ n * cycle <= 2880) cycles ->
  min_datetime_us <= start -> start + 2 * us_per_day <= max_datetime_us ->
  wake_times_loop cycle start cycles
  = Returned (map (fun n => time_of_us (start + n * cycle * us_per_minute)) cycles).
Proof.
  intros F L U. induction F as [| n r [H0 H1] _ IH]; [reflexivity |].
  cbn [wake_times_loop map]. unfold timedelta_of_minutes, datetime_add.
  unfold min_datetime_us, max_datetime_us, us_per_day, us_per_minute in *.
  replace ((-999999999 * 86400000000 <=? n * cycle * 60000000)
           && (n * cycle * 60000000 <? 1000000000 * 86400000000)) with true
    by (symmetry; apply andb_true_iff; split;
        [apply Z.leb_le | apply Z.ltb_lt]; lia).
  cbn [bind].
  replace ((86400000000 <=? start + n * cycle * 60000000)
           && (start + n * cycle * 60000000 <=? 3652060 * 86400000000 - 1)) with true
    by (symmetry; apply andb_true_iff; split; apply Z.leb_le; lia).
  cbn [bind]. rewrite IH. reflexivity.
Qed.

(** With a cycle range outside 1 <= min <= max <= 10 no wake time is
    suggested.  Otherwise (onset and cycle length not negative, at most two
    days of sleep in all) one time is suggested per number of cycles from
    [min_cycles] to [max_cycles]: the bedtime moved by the onset and that
    many cycles on the 24-hour clock.  The list is in ascending order of
    clock time, not of cycles. *)
Theorem wake_times_one_per_cycle_sorted_by_clock
    (sleep_cycle_duration_minutes sleep_onset_minutes today : Z) (bedtime : time)
    (min_cycles max_cycles : Z) :
  time_valid bedtime ->
  1 <= today <= 3652055 ->
  0 <= sleep_onset_minutes -> 0 <= sleep_cycle_duration_minutes ->
  sleep_onset_minutes + 10 * sleep_cycle_duration_minutes <= 2880 ->
  (~ (1 <= min_cycles <= max_cycles /\ max_cycles <= 10) ->
   suggest_wake_times_based_on_cycles sleep_cycle_duration_minutes
     sleep_onset_minutes today bedtime min_cycles max_cycles = Returned []) /\
  (1 <= min_cycles <= max_cycles /\ max_cycles <= 10 ->
   exists times,
     suggest_wake_times_based_on_cycles sleep_cycle_duration_minutes
       sleep_onset_minutes today bedtime min_cycles max_cycles = Returned times /\
     Z.of_nat (List.length times) = max_cycles - min_cycles + 1 /\
     key_ordered us_of_time times /\
     Forall time_valid times /\
     (forall t, In t times <->
        exists n, min_cycles <= n <= max_cycles /\
                  t = wake_after sleep_cycle_duration_minutes sleep_onset_minutes
                        bedtime n)).
Proof.
  intros V Ht Ho Hc Hs. unfold suggest_wake_times_based_on_cycles. split.
  - intros N.
    destruct ((1 <=? min_cycles) && (min_cycles <=? max_cycles)
              && (max_cycles <=? 10)) eqn:G; [| reflexivity].
    exfalso. apply N.
    apply andb_true_iff in G. destruct G as [G G3].
    apply andb_true_iff in G. destruct G as [G1 G2].
    apply Z.leb_le in G1, G2, G3. lia.
  - intros [[R1 R2] R3].
    replace ((1 <=? min_cycles) && (min_cycles <=? max_cycles)
             && (max_cycles <=? 10)) with true
      by (symmetry; rewrite !andb_true_iff; repeat split; apply Z.leb_le; lia).
    cbn [negb]. cbv zeta.
    pose proof (us_of_time_bounds bedtime V) as B.
    unfold timedelta_of_minutes, datetime_add.
    assert (Eo : (-999999999 * us_per_day <=? sleep_onset_minutes * us_per_minute)
                 && (sleep_onset_minutes * us_per_minute <? 1000000000 * us_per_day)
                 = true).
    { unfold us_per_day, us_per_minute. apply andb_true_iff.
      split; [apply Z.leb_le | apply Z.ltb_lt]; lia. }
    rewrite Eo. cbn [bind].
    assert (Es : (min_datetime_us
                  <=? today * us_per_day + us_of_time bedtime
                      + sleep_onset_minutes * us_per_minute)
                 && (today * us_per_day + us_of_time bedtime
                     + sleep_onset_minutes * us_per_minute <=? max_datetime_us)
                 = true).
    { unfold min_datetime_us, max_datetime_us, us_per_day, us_per_minute in *.
      apply andb_true_iff. split; apply Z.leb_le; lia. }
    rewrite Es. cbn [bind].
    rewrite wake_times_loop_returned.
    + cbn [bind]. eexists. split; [reflexivity |].
      split; [| split; [| split]].
      * rewrite sort_length, length_map, range_length. lia.
      * apply (sort_key_ordered us_of_time).
      * apply Forall_forall. intros t Hin. apply in_sort in Hin.
        apply in_map_iff in Hin. destruct Hin as (n & <- & _).
        apply time_of_us_valid.
      * intros t. split.
        -- intros Hin. apply in_sort in Hin. apply in_map_iff in Hin.
           destruct Hin as (n & <- & Hn). apply in_range in Hn.
           exists n. split; [lia |]. unfold wake_after.
           rewrite <- (time_of_us_shift today
                         (us_of_time bedtime
                          + (sleep_onset_minutes + n * sleep_cycle_duration_minutes)
                            * us_per_minute)).
           f_equal. lia.
        -- intros (n & Hn & ->). apply sort_perm_in. apply in_map_iff.
           exists n. split; [| apply in_range; lia]. unfold wake_after.
           rewrite <- (time_of_us_shift today
                         (us_of_time bedtime
                          + (sleep_onset_minutes + n * sleep_cycle_duration_minutes)
                            * us_per_minute)).
           f_equal. lia.
    + apply Forall_forall. intros n Hn. apply in_range in Hn.
      assert (0 <= n * sleep_cycle_duration_minutes) by (apply Z.mul_nonneg_nonneg; lia).
      assert (n * sleep_cycle_duration_minutes <= 10 * sleep_cycle_duration_minutes)
        by (apply Z.mul_le_mono_nonneg_r; lia).
      lia.
    + unfold min_datetime_us, us_per_day, us_per_minute in *. lia.
    + unfold max_datetime_us, us_per_day, us_per_minute in *. lia.
Qed.

Lemma wake_times_one_per_cycle_sorted_by_clock_witness :
  suggest_wake_times_based_on_cycles 90 15 739253 (time_hm 23 0) 4 6
  = Returned [time_hm 5 15; time_hm 6 45; time_hm 8 15] /\
  suggest_wake_times_based_on_cycles 90 15 739253 (time_hm 17 30) 4 6
  = Returned [time_hm 1 15; time_hm 2 45; time_hm 23 45] /\
  suggest_wake_times_based_on_cycles 90 15 739253 (time_hm 23 0) 6 4
  = Returned [].
Proof.
  split; [vm_compute; reflexivity |]. split; [vm_compute; reflexivity |].
  apply (wake_times_one_per_cycle_sorted_by_clock 90 15 739253 (time_hm 23 0) 6 4);
    try (unfold time_valid, time_hm; cbn; lia); lia.
Defined.

End WakeTimesFacts.
